(** * Support bot relay: a shallow embedding of [main.py]

    ([delete.py], the bulk-deletion utility, is a program of its own and is
    not part of the relay; it is embedded further down, in [Delete], and the
    commands of [main.py] in [Commands].)

    The bot relays messages between correspondents (private chats) and a
    staff forum group, one forum topic per correspondent.  The Python
    handlers are coroutines that talk to two outside parties: the Telegram
    Bot API (every [await context.bot...] and [await ...reply_text]) and
    MongoDB (the blocking [pymongo] calls of [DatabaseManager]).

    The embedding keeps the code's shape.  A coroutine is a tree of the calls
    it makes ([Prog]); what the outside answers is a parameter ([Env]), a
    function of the calls made so far; the two collections are lists of
    documents.  Running a program ([run]) threads the collections, the logger
    output and the trace of calls and answers. *)

From Stdlib Require Import String Ascii List ZArith Bool Lia DecimalString.
Import ListNotations.
Local Open Scope string_scope.
Local Open Scope list_scope.
Local Open Scope Z_scope.

Set Implicit Arguments.

(** ** Python strings and truthiness *)

Module Py.

(** [str(n)] for an [int]. *)
Definition str (n : Z) : string := NilZero.string_of_int (Z.to_int n).

(** [c.lower()] on one ASCII character. *)
Definition lower_ascii (c : ascii) : ascii :=
  let n := nat_of_ascii c in
  if (Nat.leb 65 n && Nat.leb n 90)%bool then ascii_of_nat (n + 32) else c.

(** [s.lower()]; error messages of the Bot API are ASCII text. *)
Fixpoint lower (s : string) : string :=
  match s with
  | EmptyString => EmptyString
  | String c t => String (lower_ascii c) (lower t)
  end.

(** [needle in hay] on strings. *)
Fixpoint contains (needle hay : string) : bool :=
  (prefix needle hay
   || match hay with
      | EmptyString => false
      | String _ t => contains needle t
      end)%bool.

(** [s[:n]]; the model counts the characters of [string], which for ASCII
    text are Python's. *)
Definition take (n : nat) (s : string) : string := substring 0 n s.

(** Truth value of an [Optional[int]]: [None] and [0] are falsy. *)
Definition truthy_int (x : option Z) : bool :=
  match x with
  | Some n => negb (n =? 0)
  | None => false
  end.

(** Truth value of an [Optional[str]]: [None] and the empty string are falsy. *)
Definition truthy_str (x : option string) : bool :=
  match x with
  | Some EmptyString | None => false
  | Some _ => true
  end.

(** [x or default] on an [Optional[str]]. *)
Definition or_str (x : option string) (default : string) : string :=
  match x with
  | Some s => if truthy_str x then s else default
  | None => default
  end.

End Py.

(** ** Documents of the two collections *)

(** A document of [db.users].  [user_id] is [str(update.effective_user.id)]
    in the source and is turned back with [int(user_id)]; the model keeps the
    integer.  The time stamps [created_at] and [updated_at] are left out. *)
Record UserDoc := mkUser {
  user_id : Z;
  topic_id : Z;
  user_name : string;
  username : string
}.

Inductive Direction := from_user | to_user.

(** A document of [db.messages] (without its [timestamp]). *)
Record MessageDoc := mkMessage {
  m_user_id : Z;
  message_type : string;
  direction : Direction;
  content : option string
}.

(** ** Telegram updates *)

Inductive ChatType := private | group | supergroup | channel.

Definition ChatType_eqb (a b : ChatType) : bool :=
  match a, b with
  | private, private | group, group | supergroup, supergroup
  | channel, channel => true
  | _, _ => false
  end.

Record Document := mkDocument {
  doc_file_id : string;
  file_name : option string
}.

(** [update.message]: the fields the handlers read.  [photo] is the tuple of
    sizes (their file ids), empty when the message has no photo; each of the
    other media is the file id of the attachment when present. *)
Record Message := mkMsg {
  message_id : Z;
  message_thread_id : option Z;
  text : option string;
  caption : option string;
  photo : list string;
  video : option string;
  document : option Document;
  voice : option string;
  audio : option string;
  sticker : option string;
  video_note : option string
}.

(** An update that carries a new message: [update.message] is set, and with
    it [effective_chat] and [effective_user]. *)
Record Update := mkUpdate {
  chat_id : Z;                      (* update.effective_chat.id *)
  chat_type : ChatType;             (* update.effective_chat.type *)
  from_id : Z;                      (* update.effective_user.id *)
  first_name : option string;       (* update.effective_user.first_name *)
  from_username : option string;    (* update.effective_user.username *)
  message : Message
}.

(** ** Delivery failures as staff sees them *)

(** The five notices of [handle_reply]'s [except] branch.  Each stands for
    the fixed HTML text of its branch together with the values that text
    interpolates. *)
Inductive DiagnosticNotice :=
| RecipientBlocked (uid : Z) (name handle : string)
| RecipientAccountMissing (uid : Z)
| CannotInitiateConversation (uid : Z)
| Forbidden (uid : Z)
| Unknown (uid : Z) (raw_error : string).

(** Texts the bot sends. *)
Inductive Text :=
| AUTO_REPLY_MESSAGE
| literal (s : string)
| welcome_text (name : string) (uid : Z) (handle : string)
| error_details (n : DiagnosticNotice).

(** ** Calls to the outside *)

(** Awaited Bot API calls, with the arguments the source passes. *)
Inductive BotCall :=
| reply_text (chat : Z) (thread : option Z) (t : Text)
| forward_message (chat from_chat mid thread : Z)
| create_forum_topic (chat : Z) (name : string)
| send_message (chat : Z) (thread : option Z) (t : Text)
| send_photo (chat : Z) (file : string) (cap : option string)
| send_video (chat : Z) (file : string) (cap : option string)
| send_document (chat : Z) (file : string) (cap : option string)
| send_voice (chat : Z) (file : string) (cap : option string)
| send_audio (chat : Z) (file : string) (cap : option string)
| send_sticker (chat : Z) (file : string)
| send_video_note (chat : Z) (file : string).

Inductive Filter := by_user_id (uid : Z) | by_topic_id (tid : Z).

(** Blocking [pymongo] calls. *)
Inductive DbCall :=
| users_find_one (f : Filter)
| users_update_one (d : UserDoc)          (* upsert keyed by user_id *)
| users_delete_one (uid : Z)
| messages_insert_one (d : MessageDoc).

Inductive Call := Bot (c : BotCall) | Db (c : DbCall).

(** What a call comes back with: a value, or an exception with its message.
    The value matters for [create_forum_topic] only, where it is the
    [message_thread_id] of the new topic. *)
Inductive Outcome := Ok (v : Z) | Raise (e : string).

Definition Trace := list (Call * Outcome).

(** The outside world: it answers each call knowing everything that was
    called and answered before. *)
Definition Env := Trace -> Call -> Outcome.

Inductive Level := INFO | WARNING | ERROR.

Record LogRecord := mkLog { level : Level; line : string }.

(** ** Programs *)

Inductive Result (A : Type) := Val (a : A) | Exc (e : string).
Arguments Exc {A} e.

(** A coroutine as the tree of what it does next: return, raise, await a Bot
    API call, make a blocking store call, or write a log record. *)
Inductive Prog (A : Type) : Type :=
| Ret (a : A)
| Throw (e : string)
| Await (c : BotCall) (k : Outcome -> Prog A)
| Store (c : DbCall) (k : Result (option UserDoc) -> Prog A)
| Logger (r : LogRecord) (k : Prog A).
Arguments Throw {A} e.
Arguments Await {A} c k.
Arguments Store {A} c k.
Arguments Logger {A} r k.

Fixpoint bind {A B} (m : Prog A) (f : A -> Prog B) : Prog B :=
  match m with
  | Ret a => f a
  | Throw e => Throw e
  | Await c k => Await c (fun o => bind (k o) f)
  | Store c k => Store c (fun r => bind (k r) f)
  | Logger r k => Logger r (bind k f)
  end.

(** [try: m  except Exception as e: h e] *)
Fixpoint try {A} (m : Prog A) (h : string -> Prog A) : Prog A :=
  match m with
  | Ret a => Ret a
  | Throw e => h e
  | Await c k => Await c (fun o => try (k o) h)
  | Store c k => Store c (fun r => try (k r) h)
  | Logger r k => Logger r (try k h)
  end.

Declare Scope prog_scope.
Delimit Scope prog_scope with prog.
Notation "x <- m ;; k" := (bind m (fun x => k))
  (at level 61, m at next level, right associativity) : prog_scope.
Notation "m ;; k" := (bind m (fun _ => k))
  (at level 61, right associativity) : prog_scope.
Local Open Scope prog_scope.

(** [await context.bot.c(...)]: the value, or the exception raised. *)
Definition await (c : BotCall) : Prog Z :=
  Await c (fun o => match o with Ok v => Ret v | Raise e => Throw e end).

Definition db (c : DbCall) : Prog (option UserDoc) :=
  Store c (fun r => match r with Val d => Ret d | Exc e => Throw e end).

Definition logger (l : Level) (s : string) : Prog unit :=
  Logger (mkLog l s) (Ret tt).

(** ** The store and the state a run threads *)

Record World := mkWorld {
  users : list UserDoc;          (* db.users *)
  messages : list MessageDoc;    (* db.messages, oldest first *)
  log : list LogRecord;          (* logger output, oldest first *)
  trace : Trace                  (* calls and their outcomes, oldest first *)
}.

Definition matches (f : Filter) (d : UserDoc) : bool :=
  match f with
  | by_user_id uid => user_id d =? uid
  | by_topic_id tid => topic_id d =? tid
  end.

(** [update_one(filter, {"$set": d}, upsert=True)]: the first document with
    this [user_id] is overwritten; without one [d] is inserted. *)
Fixpoint upsert (d : UserDoc) (l : list UserDoc) : list UserDoc :=
  match l with
  | [] => [d]
  | x :: t => if user_id x =? user_id d then d :: t else x :: upsert d t
  end.

(** [delete_one({"user_id": uid})]: the first match goes. *)
Fixpoint delete_one (uid : Z) (l : list UserDoc) : list UserDoc :=
  match l with
  | [] => []
  | x :: t => if user_id x =? uid then t else x :: delete_one uid t
  end.

(** A store call that the server carried out. *)
Definition db_exec (c : DbCall) (w : World) : World * option UserDoc :=
  match c with
  | users_find_one f => (w, find (matches f) (users w))
  | users_update_one d =>
      (mkWorld (upsert d (users w)) (messages w) (log w) (trace w), None)
  | users_delete_one uid =>
      (mkWorld (delete_one uid (users w)) (messages w) (log w) (trace w), None)
  | messages_insert_one d =>
      (mkWorld (users w) (messages w ++ [d]) (log w) (trace w), None)
  end.

Definition record (c : Call) (o : Outcome) (w : World) : World :=
  mkWorld (users w) (messages w) (log w) (trace w ++ [(c, o)]).

Definition write_log (r : LogRecord) (w : World) : World :=
  mkWorld (users w) (messages w) (log w ++ [r]) (trace w).

Section Run.

Variable env : Env.

(** Running a coroutine to its end, nothing else running in between. *)
Fixpoint run {A} (p : Prog A) (w : World) : World * Result A :=
  match p with
  | Ret a => (w, Val a)
  | Throw e => (w, Exc e)
  | Await c k =>
      let o := env (trace w) (Bot c) in
      run (k o) (record (Bot c) o w)
  | Store c k =>
      match env (trace w) (Db c) with
      | Ok v =>
          let (w', r) := db_exec c w in
          run (k (Val r)) (record (Db c) (Ok v) w')
      | Raise e => run (k (Exc e)) (record (Db c) (Raise e) w)
      end
  | Logger r k => run k (write_log r w)
  end.

End Run.

(** ** The bot *)

Definition AUTO_REPLY_ENABLED : bool := true.

Section Bot.

(** [SUPPORT_GROUP_ID], read from the process environment at start-up. *)
Variable SUPPORT_GROUP_ID : Z.

(** *** DatabaseManager *)

Definition get_user_topic (user_id : Z) : Prog (option Z) :=
  user <- db (users_find_one (by_user_id user_id)) ;;
  Ret (match user with Some u => Some (topic_id u) | None => None end).

Definition save_user_topic (user_id topic_id : Z) (user_name username : string)
  : Prog bool :=
  try (db (users_update_one (mkUser user_id topic_id user_name username)) ;;
       logger INFO ("💾 Saved user " ++ Py.str user_id ++ " with topic "
                    ++ Py.str topic_id)%string ;;
       Ret true)
      (fun e =>
       logger ERROR ("Error saving user topic: " ++ e)%string ;;
       Ret false).

Definition log_message (user_id : Z) (message_type : string)
    (direction : Direction) (content : option string) : Prog unit :=
  try (db (messages_insert_one
             (mkMessage user_id message_type direction content)) ;;
       Ret tt)
      (fun e => logger ERROR ("Error logging message: " ++ e)%string).

(** *** Support bot functions *)

Definition send_auto_reply (update : Update) : Prog unit :=
  if negb AUTO_REPLY_ENABLED then Ret tt else
  try (await (reply_text (chat_id update) None AUTO_REPLY_MESSAGE) ;;
       logger INFO ("✅ Sent auto-reply to user "
                    ++ Py.str (from_id update))%string)
      (fun e => logger ERROR ("Error sending auto-reply: " ++ e)%string).

Definition get_or_create_topic (user_id : Z) (user_name username : string)
  : Prog Z :=
  topic_id <- get_user_topic user_id ;;
  if negb (Py.truthy_int topic_id) then
    try (topic <- await (create_forum_topic SUPPORT_GROUP_ID
                           ("👤 " ++ Py.take 20 user_name)%string) ;;
         let topic_id := topic in
         save_user_topic user_id topic_id user_name username ;;
         await (send_message SUPPORT_GROUP_ID (Some topic_id)
                  (welcome_text user_name user_id
                     (if Py.truthy_str (Some username) then username
                      else "None"))) ;;
         logger INFO ("✅ Created new topic for user " ++ Py.str user_id
                      ++ " - " ++ user_name)%string ;;
         Ret topic_id)
        (fun e =>
         logger ERROR ("Error creating topic: " ++ e)%string ;;
         Throw e)
  else
    Ret (match topic_id with Some t => t | None => 0 end).

(** The test of [forward_to_support]'s [except] branch. *)
Definition thread_not_found (e : string) : bool :=
  (Py.contains "thread not found" (Py.lower e)
   || Py.contains "message thread not found" (Py.lower e))%bool.

Definition forward_to_support (user_id chat_id message_id topic_id : Z)
    (user_name username : string) : Prog Z :=
  try (await (forward_message SUPPORT_GROUP_ID chat_id message_id topic_id) ;;
       Ret topic_id)
      (fun e =>
       if thread_not_found e then
         logger WARNING ("Topic " ++ Py.str topic_id
                         ++ " was deleted for user " ++ Py.str user_id
                         ++ ". Creating new topic...")%string ;;
         db (users_delete_one user_id) ;;
         new_topic_id <- get_or_create_topic user_id user_name username ;;
         await (forward_message SUPPORT_GROUP_ID chat_id message_id
                  new_topic_id) ;;
         Ret new_topic_id
       else Throw e).

(** *** User message handlers *)

Definition is_private (update : Update) : bool :=
  ChatType_eqb (chat_type update) private.

Definition handle_text_message (update : Update) : Prog unit :=
  if negb (is_private update) then Ret tt else
  let user_id := from_id update in
  let user_name := Py.or_str (first_name update) "User" in
  let username := Py.or_str (from_username update) "no_username" in
  try (send_auto_reply update ;;
       topic_id <- get_or_create_topic user_id user_name username ;;
       forward_to_support user_id (chat_id update)
         (message_id (message update)) topic_id user_name username ;;
       log_message user_id "text" from_user (text (message update)) ;;
       logger INFO ("✅ Forwarded text message from user "
                    ++ Py.str user_id)%string)
      (fun e =>
       logger ERROR ("Error handling text message: " ++ e)%string ;;
       await (reply_text (chat_id update) None
                (literal "❌ Sorry, there was an error processing your message. Please try again.")) ;;
       Ret tt).

Definition handle_photo (update : Update) : Prog unit :=
  if negb (is_private update) then Ret tt else
  let user_id := from_id update in
  let user_name := Py.or_str (first_name update) "User" in
  let username := Py.or_str (from_username update) "no_username" in
  try (send_auto_reply update ;;
       topic_id <- get_or_create_topic user_id user_name username ;;
       forward_to_support user_id (chat_id update)
         (message_id (message update)) topic_id user_name username ;;
       log_message user_id "photo" from_user (caption (message update)) ;;
       logger INFO ("✅ Forwarded photo from user " ++ Py.str user_id)%string)
      (fun e =>
       logger ERROR ("Error handling photo: " ++ e)%string ;;
       await (reply_text (chat_id update) None
                (literal "❌ Error sending photo. Please try again.")) ;;
       Ret tt).

Definition handle_video (update : Update) : Prog unit :=
  if negb (is_private update) then Ret tt else
  let user_id := from_id update in
  let user_name := Py.or_str (first_name update) "User" in
  let username := Py.or_str (from_username update) "no_username" in
  try (send_auto_reply update ;;
       topic_id <- get_or_create_topic user_id user_name username ;;
       forward_to_support user_id (chat_id update)
         (message_id (message update)) topic_id user_name username ;;
       log_message user_id "video" from_user (caption (message update)) ;;
       logger INFO ("✅ Forwarded video from user " ++ Py.str user_id)%string)
      (fun e =>
       logger ERROR ("Error handling video: " ++ e)%string ;;
       await (reply_text (chat_id update) None
                (literal "❌ Error sending video. Please try again.")) ;;
       Ret tt).

Definition handle_document (update : Update) : Prog unit :=
  if negb (is_private update) then Ret tt else
  let user_id := from_id update in
  let user_name := Py.or_str (first_name update) "User" in
  let username := Py.or_str (from_username update) "no_username" in
  try (send_auto_reply update ;;
       topic_id <- get_or_create_topic user_id user_name username ;;
       forward_to_support user_id (chat_id update)
         (message_id (message update)) topic_id user_name username ;;
       let file_name :=
         match document (message update) with
         | Some d => file_name d
         | None => Some "file"
         end in
       log_message user_id "document" from_user file_name ;;
       logger INFO ("✅ Forwarded document from user "
                    ++ Py.str user_id)%string)
      (fun e =>
       logger ERROR ("Error handling document: " ++ e)%string ;;
       await (reply_text (chat_id update) None
                (literal "❌ Error sending file. Please try again.")) ;;
       Ret tt).

(** Forwards with [context.bot.forward_message] itself, not through
    [forward_to_support]. *)
Definition handle_voice (update : Update) : Prog unit :=
  if negb (is_private update) then Ret tt else
  let user_id := from_id update in
  let user_name := Py.or_str (first_name update) "User" in
  let username := Py.or_str (from_username update) "no_username" in
  try (send_auto_reply update ;;
       topic_id <- get_or_create_topic user_id user_name username ;;
       await (forward_message SUPPORT_GROUP_ID (chat_id update)
                (message_id (message update)) topic_id) ;;
       log_message user_id "voice" from_user None ;;
       logger INFO ("✅ Forwarded voice message from user "
                    ++ Py.str user_id)%string)
      (fun e =>
       logger ERROR ("Error handling voice: " ++ e)%string ;;
       await (reply_text (chat_id update) None
                (literal "❌ Error sending voice message. Please try again.")) ;;
       Ret tt).

Definition handle_audio (update : Update) : Prog unit :=
  if negb (is_private update) then Ret tt else
  let user_id := from_id update in
  let user_name := Py.or_str (first_name update) "User" in
  let username := Py.or_str (from_username update) "no_username" in
  try (send_auto_reply update ;;
       topic_id <- get_or_create_topic user_id user_name username ;;
       forward_to_support user_id (chat_id update)
         (message_id (message update)) topic_id user_name username ;;
       log_message user_id "audio" from_user None ;;
       logger INFO ("✅ Forwarded audio from user " ++ Py.str user_id)%string)
      (fun e =>
       logger ERROR ("Error handling audio: " ++ e)%string ;;
       await (reply_text (chat_id update) None
                (literal "❌ Error sending audio. Please try again.")) ;;
       Ret tt).

(** No apology to the correspondent in the [except] branch. *)
Definition handle_sticker (update : Update) : Prog unit :=
  if negb (is_private update) then Ret tt else
  let user_id := from_id update in
  let user_name := Py.or_str (first_name update) "User" in
  let username := Py.or_str (from_username update) "no_username" in
  try (send_auto_reply update ;;
       topic_id <- get_or_create_topic user_id user_name username ;;
       forward_to_support user_id (chat_id update)
         (message_id (message update)) topic_id user_name username ;;
       log_message user_id "sticker" from_user None ;;
       logger INFO ("✅ Forwarded sticker from user "
                    ++ Py.str user_id)%string)
      (fun e => logger ERROR ("Error handling sticker: " ++ e)%string).

(** Forwards with [context.bot.forward_message] itself, and sends no apology
    in the [except] branch. *)
Definition handle_video_note (update : Update) : Prog unit :=
  if negb (is_private update) then Ret tt else
  let user_id := from_id update in
  let user_name := Py.or_str (first_name update) "User" in
  let username := Py.or_str (from_username update) "no_username" in
  try (send_auto_reply update ;;
       topic_id <- get_or_create_topic user_id user_name username ;;
       await (forward_message SUPPORT_GROUP_ID (chat_id update)
                (message_id (message update)) topic_id) ;;
       log_message user_id "video_note" from_user None ;;
       logger INFO ("✅ Forwarded video note from user "
                    ++ Py.str user_id)%string)
      (fun e => logger ERROR ("Error handling video note: " ++ e)%string).

(** *** Support team handlers *)

(** The [if]/[elif] chain of [handle_reply]'s [except] branch on
    [str(e).lower()]: the notice posted into the topic and the record
    logged. *)
Definition classify (user : UserDoc) (e : string)
  : DiagnosticNotice * LogRecord :=
  let user_id' := user_id user in
  let error_message := Py.lower e in
  if (Py.contains "blocked" error_message
      || Py.contains "bot was blocked" error_message)%bool then
    (RecipientBlocked user_id' (user_name user) (username user),
     mkLog WARNING ("⚠️ User " ++ Py.str user_id'
                    ++ " has blocked the bot")%string)
  else if (Py.contains "chat not found" error_message
           || Py.contains "user not found" error_message)%bool then
    (RecipientAccountMissing user_id',
     mkLog WARNING ("⚠️ User " ++ Py.str user_id'
                    ++ " not found (account may be deleted)")%string)
  else if Py.contains "bot can't initiate conversation" error_message then
    (CannotInitiateConversation user_id',
     mkLog WARNING ("⚠️ Cannot initiate conversation with user "
                    ++ Py.str user_id')%string)
  else if Py.contains "forbidden" error_message then
    (Forbidden user_id',
     mkLog WARNING ("⚠️ Forbidden to send message to user "
                    ++ Py.str user_id')%string)
  else
    (Unknown user_id' e,
     mkLog ERROR ("❌ Error sending reply to user " ++ Py.str user_id'
                  ++ ": " ++ e)%string).

(** The [if]/[elif] chain of [handle_reply]'s [try] body: the send call that
    matches the first non-empty field of the staff message, and the
    [message_type] it sets.  With none of the eight fields set nothing is
    sent and [message_type] keeps its initial value. *)
Definition send_reply (chat : Z) (m : Message) : Prog string :=
  if Py.truthy_str (text m) then
    await (send_message chat None (literal (Py.or_str (text m) ""))) ;;
    Ret "text"
  else match photo m with
  | _ :: _ =>
    await (send_photo chat (last (photo m) "") (caption m)) ;; Ret "photo"
  | [] =>
  match video m with
  | Some f => await (send_video chat f (caption m)) ;; Ret "video"
  | None =>
  match document m with
  | Some d =>
    await (send_document chat (doc_file_id d) (caption m)) ;; Ret "document"
  | None =>
  match voice m with
  | Some f => await (send_voice chat f (caption m)) ;; Ret "voice"
  | None =>
  match audio m with
  | Some f => await (send_audio chat f (caption m)) ;; Ret "audio"
  | None =>
  match sticker m with
  | Some f => await (send_sticker chat f) ;; Ret "sticker"
  | None =>
  match video_note m with
  | Some f => await (send_video_note chat f) ;; Ret "video_note"
  | None => Ret "text"
  end end end end end end end.

(** [user_id] is a non-empty string whenever [find_one] found a document, so
    [if not user_id] is the test that none was found. *)
Definition handle_reply (update : Update) : Prog unit :=
  if negb (chat_id update =? SUPPORT_GROUP_ID) then Ret tt else
  if negb (Py.truthy_int (message_thread_id (message update))) then Ret tt else
  let topic_id :=
    match message_thread_id (message update) with
    | Some t => t
    | None => 0
    end in
  user <- db (users_find_one (by_topic_id topic_id)) ;;
  match user with
  | None =>
      logger WARNING ("No user found for topic " ++ Py.str topic_id)%string
  | Some user =>
      let user_id := user_id user in
      try (message_type <- send_reply user_id (message update) ;;
           log_message user_id message_type to_user (text (message update)) ;;
           logger INFO ("✅ Sent " ++ message_type ++ " reply to user "
                        ++ Py.str user_id)%string)
          (fun e =>
           let (error_details', warning) := classify user e in
           Logger warning
             (try (await (reply_text (chat_id update) (Some topic_id)
                            (error_details error_details')) ;;
                   Ret tt)
                  (fun notification_error =>
                   logger ERROR ("Failed to send error notification: "
                                 ++ notification_error)%string)))
  end.

(** The inbound handlers as [main] registers them, by kind of message. *)
Inductive Kind :=
| TEXT | PHOTO | VIDEO | DOCUMENT | VOICE | AUDIO | STICKER | VIDEO_NOTE.

Definition inbound_handler (k : Kind) : Update -> Prog unit :=
  match k with
  | TEXT => handle_text_message
  | PHOTO => handle_photo
  | VIDEO => handle_video
  | DOCUMENT => handle_document
  | VOICE => handle_voice
  | AUDIO => handle_audio
  | STICKER => handle_sticker
  | VIDEO_NOTE => handle_video_note
  end.

End Bot.

(** ** Coroutines taking turns

    [asyncio] switches between coroutines only where one awaits the network.
    The [pymongo] calls and the logger block the event loop, so the code
    between two awaits of one coroutine runs with no other coroutine in
    between. *)

Section EventLoop.

Variable env : Env.

(** The blocking stretch of a coroutine: store calls and log records up to
    its next await, or to its end. *)
Fixpoint advance {A} (p : Prog A) (w : World) : World * Prog A :=
  match p with
  | Store c k =>
      match env (trace w) (Db c) with
      | Ok v =>
          let (w', r) := db_exec c w in
          advance (k (Val r)) (record (Db c) (Ok v) w')
      | Raise e => advance (k (Exc e)) (record (Db c) (Raise e) w)
      end
  | Logger r k => advance k (write_log r w)
  | _ => (w, p)
  end.

(** The event loop gives a task its turn: a pending await gets its outcome,
    and the task runs on to where it awaits next. *)
Definition resume {A} (p : Prog A) (w : World) : World * Prog A :=
  match p with
  | Await c k =>
      let o := env (trace w) (Bot c) in
      advance (k o) (record (Bot c) o w)
  | _ => advance p w
  end.

Fixpoint resume_nth {A} (i : nat) (tasks : list (Prog A)) (w : World)
  : World * list (Prog A) :=
  match tasks, i with
  | [], _ => (w, [])
  | p :: t, O => let (w', p') := resume p w in (w', p' :: t)
  | p :: t, S i' => let (w', t') := resume_nth i' t w in (w', p :: t')
  end.

(** Tasks taking turns in the given order. *)
Fixpoint schedule {A} (order : list nat) (tasks : list (Prog A)) (w : World)
  : World * list (Prog A) :=
  match order with
  | [] => (w, tasks)
  | i :: rest =>
      let (w', tasks') := resume_nth i tasks w in
      schedule rest tasks' w'
  end.

(** Calls made one after the other, each run to its end before the next. *)
Fixpoint run_all {A} (ps : list (Prog A)) (w : World)
  : World * list (Result A) :=
  match ps with
  | [] => (w, [])
  | p :: t =>
      let (w1, r) := run env p w in
      let (w2, rs) := run_all t w1 in
      (w2, r :: rs)
  end.

End EventLoop.

(** ** Reading a trace *)

Definition is_ok (o : Outcome) : bool :=
  match o with Ok _ => true | Raise _ => false end.

Definition is_forward (c : Call) : bool :=
  match c with Bot (forward_message _ _ _ _) => true | _ => false end.

Definition is_create (c : Call) : bool :=
  match c with Bot (create_forum_topic _ _) => true | _ => false end.

Definition is_bot (c : Call) : bool :=
  match c with Bot _ => true | Db _ => false end.

(** The sends of [handle_reply] to a correspondent. *)
Definition is_send (c : Call) : bool :=
  match c with
  | Bot (send_message _ None _) | Bot (send_photo _ _ _)
  | Bot (send_video _ _ _) | Bot (send_document _ _ _)
  | Bot (send_voice _ _ _) | Bot (send_audio _ _ _)
  | Bot (send_sticker _ _) | Bot (send_video_note _ _) => true
  | _ => false
  end.

Definition is_write (c : Call) : bool :=
  match c with
  | Db (users_update_one _) | Db (users_delete_one _)
  | Db (messages_insert_one _) => true
  | _ => false
  end.

Definition calls (p : Call -> bool) (tr : Trace) : Trace :=
  filter (fun x => p (fst x)) tr.

(** The topics the gateway handed out in this trace. *)
Fixpoint created (tr : Trace) : list Z :=
  match tr with
  | [] => []
  | (Bot (create_forum_topic _ _), Ok v) :: t => v :: created t
  | _ :: t => created t
  end.

(** Some forward into the staff group went through. *)
Definition delivered (tr : Trace) : bool :=
  existsb (fun x => is_forward (fst x) && is_ok (snd x))%bool tr.

(** Some send to a correspondent went through. *)
Definition sent (tr : Trace) : bool :=
  existsb (fun x => is_send (fst x) && is_ok (snd x))%bool tr.

(** Whether a staff message carries one of the eight media that
    [handle_reply] sends on. *)
Definition has_media (m : Message) : bool :=
  (Py.truthy_str (text m)
   || match photo m with [] => false | _ :: _ => true end
   || match video m with Some _ => true | None => false end
   || match document m with Some _ => true | None => false end
   || match voice m with Some _ => true | None => false end
   || match audio m with Some _ => true | None => false end
   || match sticker m with Some _ => true | None => false end
   || match video_note m with Some _ => true | None => false end)%bool.

(** The unique index on [user_id] of [db.users]. *)
Definition unique_index (us : list UserDoc) : Prop := NoDup (map user_id us).

(** The session of a correspondent, as [find_one({"user_id": uid})] reads it. *)
Definition session (uid : Z) (us : list UserDoc) : option UserDoc :=
  find (matches (by_user_id uid)) us.

(** The store answers every call. *)
Definition store_available (env : Env) : Prop :=
  forall h c, exists v, env h (Db c) = Ok v.

Definition is_upsert (c : Call) : bool :=
  match c with Db (users_update_one _) => true | _ => false end.

(** Every call that [p] selects was answered with a value. *)
Definition all_ok (p : Call -> bool) (tr : Trace) : bool :=
  forallb (fun x => is_ok (snd x)) (calls p tr).

Definition is_lookup_or_delete (c : Call) : bool :=
  match c with
  | Db (users_find_one _) | Db (users_delete_one _) => true
  | _ => false
  end.

(** What the trace holds after the first failed call among those [p]
    selects. *)
Fixpoint after_failed (p : Call -> bool) (tr : Trace) : option Trace :=
  match tr with
  | [] => None
  | (c, o) :: t =>
      if (p c && negb (is_ok o))%bool then Some t else after_failed p t
  end.

(** ** The eight inbound handlers side by side

    They differ in four places: whether the forward goes through
    [forward_to_support], what is logged to [db.messages], the two log
    lines, and whether the [except] branch apologises to the correspondent. *)

Record Shape := mkShape {
  repairs : bool;
  type_name : string;
  content_of : Update -> option string;
  done_line : string;
  error_line : string;
  apology : option string
}.

Definition shape (k : Kind) : Shape :=
  match k with
  | TEXT =>
      mkShape true "text" (fun u => text (message u))
        "✅ Forwarded text message from user "
        "Error handling text message: "
        (Some "❌ Sorry, there was an error processing your message. Please try again.")
  | PHOTO =>
      mkShape true "photo" (fun u => caption (message u))
        "✅ Forwarded photo from user " "Error handling photo: "
        (Some "❌ Error sending photo. Please try again.")
  | VIDEO =>
      mkShape true "video" (fun u => caption (message u))
        "✅ Forwarded video from user " "Error handling video: "
        (Some "❌ Error sending video. Please try again.")
  | DOCUMENT =>
      mkShape true "document"
        (fun u => match document (message u) with
                  | Some d => file_name d
                  | None => Some "file"
                  end)
        "✅ Forwarded document from user " "Error handling document: "
        (Some "❌ Error sending file. Please try again.")
  | VOICE =>
      mkShape false "voice" (fun _ => None)
        "✅ Forwarded voice message from user " "Error handling voice: "
        (Some "❌ Error sending voice message. Please try again.")
  | AUDIO =>
      mkShape true "audio" (fun _ => None)
        "✅ Forwarded audio from user " "Error handling audio: "
        (Some "❌ Error sending audio. Please try again.")
  | STICKER =>
      mkShape true "sticker" (fun _ => None)
        "✅ Forwarded sticker from user " "Error handling sticker: " None
  | VIDEO_NOTE =>
      mkShape false "video_note" (fun _ => None)
        "✅ Forwarded video note from user " "Error handling video note: "
        None
  end.

Definition inbound (SUPPORT_GROUP_ID : Z) (s : Shape) (update : Update)
  : Prog unit :=
  if negb (is_private update) then Ret tt else
  let user_id := from_id update in
  let user_name := Py.or_str (first_name update) "User" in
  let username := Py.or_str (from_username update) "no_username" in
  try (send_auto_reply update ;;
       topic_id <- get_or_create_topic SUPPORT_GROUP_ID user_id user_name
                     username ;;
       (if repairs s then
          forward_to_support SUPPORT_GROUP_ID user_id (chat_id update)
            (message_id (message update)) topic_id user_name username
        else
          await (forward_message SUPPORT_GROUP_ID (chat_id update)
                   (message_id (message update)) topic_id)) ;;
       log_message user_id (type_name s) from_user (content_of s update) ;;
       logger INFO (done_line s ++ Py.str user_id)%string)
      (fun e =>
       logger ERROR (error_line s ++ e)%string ;;
       match apology s with
       | Some sorry =>
           await (reply_text (chat_id update) None (literal sorry)) ;; Ret tt
       | None => Ret tt
       end).

(** ** Scenarios *)

Module Scenario.

Definition GROUP : Z := -1002000000001.

Definition empty : World := mkWorld [] [] [] [].

(** Correspondent 42, known to the store under topic 101. *)
Definition ann : UserDoc := mkUser 42 101 "Ann" "ann".
Definition known : World := mkWorld [ann] [] [] [].

Definition no_media (mid : Z) (thread : option Z) : Message :=
  mkMsg mid thread None None [] None None None None None None.

Definition text_message (mid : Z) (thread : option Z) (s : string) : Message :=
  mkMsg mid thread (Some s) None [] None None None None None None.

Definition voice_message (mid : Z) : Message :=
  mkMsg mid None None None [] None None (Some "voice-file") None None None.

(** Ann writes to the bot in her private chat. *)
Definition ann_text : Update :=
  mkUpdate 42 private 42 (Some "Ann") (Some "ann") (text_message 7 None "hi").
Definition ann_voice : Update :=
  mkUpdate 42 private 42 (Some "Ann") (Some "ann") (voice_message 8).

(** The same text posted in a group chat the bot sits in. *)
Definition group_text : Update :=
  mkUpdate (-77) group 42 (Some "Ann") (Some "ann") (text_message 7 None "hi").

(** Staff member 7 writes inside topic 101 of the support group: a text, and
    a message that carries none of the eight media (a location, a poll). *)
Definition staff_text : Update :=
  mkUpdate GROUP supergroup 7 (Some "Staff") None
    (text_message 55 (Some 101) "hello Ann").
Definition staff_location : Update :=
  mkUpdate GROUP supergroup 7 (Some "Staff") None (no_media 56 (Some 101)).

(** Everything works; the gateway numbers new topics 101, 102, ... *)
Definition all_fine : Env := fun h c =>
  match c with
  | Bot (create_forum_topic _ _) =>
      Ok (101 + Z.of_nat (length (calls is_create h)))
  | _ => Ok 0
  end.

(** Topic [lost] was deleted in the group; new topics get the id [fresh]. *)
Definition topic_deleted (lost fresh : Z) : Env := fun h c =>
  match c with
  | Db _ => Ok 0
  | Bot (forward_message _ _ _ t) =>
      if t =? lost then Raise "Bad Request: message thread not found"
      else Ok 0
  | Bot (create_forum_topic _ _) => Ok fresh
  | Bot _ => Ok 0
  end.

(** Topic [lost] was deleted in the group and new topics get the id
    [fresh], as above; and the store rejects writes to [db.users]. *)
Definition topic_deleted_unsaved (lost fresh : Z) : Env := fun h c =>
  match c with
  | Db (users_update_one _) => Raise "not primary"
  | _ => topic_deleted lost fresh h c
  end.

(** The gateway cannot create topics. *)
Definition no_topics : Env := fun h c =>
  match c with
  | Bot (create_forum_topic _ _) =>
      Raise "Bad Request: not enough rights to create a topic"
  | _ => Ok 0
  end.

(** The store rejects writes to [db.users]; everything else works. *)
Definition upsert_fails : Env := fun h c =>
  match c with
  | Db (users_update_one _) => Raise "not primary"
  | Bot (create_forum_topic _ _) => Ok 101
  | _ => Ok 0
  end.

(** The store is unreachable. *)
Definition store_down : Env := fun h c =>
  match c with
  | Db _ => Raise "ServerSelectionTimeoutError"
  | Bot (create_forum_topic _ _) => Ok 101
  | Bot _ => Ok 0
  end.

(** The correspondent blocked the bot, and the notice cannot be posted
    either. *)
Definition blocked : Env := fun h c =>
  match c with
  | Bot (send_message _ None _) =>
      Raise "Forbidden: bot was blocked by the user"
  | Bot (reply_text _ _ _) => Raise "Timed out"
  | _ => Ok 0
  end.

(** The runs the examples below look at. *)

Definition call_for_ann : Prog Z := get_or_create_topic GROUP 42 "Ann" "ann".

Definition ann_known := run all_fine call_for_ann known.
Definition voice_lost := run (topic_deleted 101 102) (handle_voice GROUP ann_voice) known.
Definition video_note_lost :=
  run (topic_deleted 101 102) (handle_video_note GROUP ann_voice) known.
Definition audio_lost := run (topic_deleted 101 102) (handle_audio GROUP ann_voice) known.
Definition text_lost :=
  run (topic_deleted 101 102) (handle_text_message GROUP ann_text) known.
Definition location_reply := run all_fine (handle_reply GROUP staff_location) known.
Definition text_upsert_fails :=
  run upsert_fails (handle_text_message GROUP ann_text) empty.
Definition text_store_down :=
  run store_down (handle_text_message GROUP ann_text) known.
Definition reply_blocked := run blocked (handle_reply GROUP staff_text) known.
Definition text_lost_unsaved :=
  run (topic_deleted_unsaved 101 102) (handle_text_message GROUP ann_text)
    known.
Definition two_calls_interleaved :=
  schedule all_fine [0; 1; 0; 1; 0; 1]%nat [call_for_ann; call_for_ann] empty.
Definition three_calls_in_turn :=
  run_all all_fine (repeat call_for_ann 3) empty.

End Scenario.

(** ** More readings of a call *)

(** The chat a send goes to. *)
Definition chat_of (c : BotCall) : Z :=
  match c with
  | reply_text chat _ _ | forward_message chat _ _ _
  | create_forum_topic chat _ | send_message chat _ _
  | send_photo chat _ _ | send_video chat _ _ | send_document chat _ _
  | send_voice chat _ _ | send_audio chat _ _ | send_sticker chat _
  | send_video_note chat _ => chat
  end.

(** The [message_type] that [handle_reply] sets next to each send. *)
Definition kind_of_send (c : BotCall) : string :=
  match c with
  | send_photo _ _ _ => "photo"
  | send_video _ _ _ => "video"
  | send_document _ _ _ => "document"
  | send_voice _ _ _ => "voice"
  | send_audio _ _ _ => "audio"
  | send_sticker _ _ => "sticker"
  | send_video_note _ _ => "video_note"
  | _ => "text"
  end.

Definition is_delete (c : Call) : bool :=
  match c with Db (users_delete_one _) => true | _ => false end.

(** ** Updates without [update.message]

    [main] registers the handlers without an update-type filter, so the
    dispatcher also hands them updates whose message is not a new one, an
    edited message for one.  [update.effective_chat] and
    [update.effective_user] are then those of that message, but
    [update.message] is [None] and every [update.message.x] raises
    [AttributeError]. *)

Record Bare := mkBare {
  bare_chat_id : Z;                      (* update.effective_chat.id *)
  bare_chat_type : ChatType;             (* update.effective_chat.type *)
  bare_from_id : Z;                      (* update.effective_user.id *)
  bare_first_name : option string;       (* update.effective_user.first_name *)
  bare_from_username : option string     (* update.effective_user.username *)
}.

(** What a handler is called with. *)
Inductive Incoming :=
| with_message (update : Update)         (* update.message is set *)
| without_message (update : Bare).       (* update.message is None *)

(** [str(e)] for the [AttributeError] of [None.name]. *)
Definition no_attribute (name : string) : string :=
  ("'NoneType' object has no attribute '" ++ name ++ "'")%string.

(** [send_auto_reply] when [update.message] is [None]: the [try] fails at
    [update.message.reply_text] and its [except] branch logs that. *)
Definition send_auto_reply_bare : Prog unit :=
  if negb AUTO_REPLY_ENABLED then Ret tt else
  try (Throw (no_attribute "reply_text"))
      (fun e => logger ERROR ("Error sending auto-reply: " ++ e)%string).

(** An inbound handler when [update.message] is [None].  The topic is
    looked up or created as ever; the arguments of the forward are then
    evaluated, where [update.message.message_id] raises; and the apology of
    the [except] branch raises in its turn, at [update.message.reply_text],
    with nothing to catch it. *)
Definition inbound_bare (SUPPORT_GROUP_ID : Z) (s : Shape) (update : Bare)
  : Prog unit :=
  if negb (ChatType_eqb (bare_chat_type update) private) then Ret tt else
  let user_id := bare_from_id update in
  let user_name := Py.or_str (bare_first_name update) "User" in
  let username := Py.or_str (bare_from_username update) "no_username" in
  try (send_auto_reply_bare ;;
       topic_id <- get_or_create_topic SUPPORT_GROUP_ID user_id user_name
                     username ;;
       Throw (no_attribute "message_id"))
      (fun e =>
       logger ERROR (error_line s ++ e)%string ;;
       match apology s with
       | Some sorry => Throw (no_attribute "reply_text")
       | None => Ret tt
       end).

(** An inbound handler, on whatever it is called with. *)
Definition inbound_on (SUPPORT_GROUP_ID : Z) (k : Kind) (i : Incoming)
  : Prog unit :=
  match i with
  | with_message update => inbound_handler SUPPORT_GROUP_ID k update
  | without_message update => inbound_bare SUPPORT_GROUP_ID (shape k) update
  end.

(** ** More situations *)

Module Outage.

Import Scenario.

(** The gateway creates topics but the first message into a new topic is
    refused. *)
Definition welcome_fails : Env := fun h c =>
  match c with
  | Bot (create_forum_topic _ _) => Ok 101
  | Bot (send_message _ (Some _) _) => Raise "Timed out"
  | _ => Ok 0
  end.

(** No call to the Bot API goes through. *)
Definition gateway_down : Env := fun h c =>
  match c with
  | Bot _ => Raise "Timed out"
  | Db _ => Ok 0
  end.

(** A staff member answers inside topic 101 with a captioned video. *)
Definition video_message (mid : Z) (thread : option Z) : Message :=
  mkMsg mid thread None (Some "look") [] (Some "video-file") None None None
    None None.

Definition staff_video : Update :=
  mkUpdate GROUP supergroup 7 (Some "Staff") None (video_message 57 (Some 101)).

(** Ann, who has no session yet, edits a text she sent earlier. *)
Definition ann_edit : Bare := mkBare 42 private 42 (Some "Ann") (Some "ann").

(** The runs the further examples look at. *)

Definition edited_text :=
  run all_fine (inbound_on GROUP TEXT (without_message ann_edit)) empty.
Definition welcome_lost :=
  run welcome_fails (get_or_create_topic GROUP 42 "Ann" "ann") empty.
Definition text_gateway_down :=
  run gateway_down (handle_text_message GROUP ann_text) empty.
Definition text_first_contact :=
  run all_fine (handle_text_message GROUP ann_text) empty.
Definition text_no_topics :=
  run no_topics (handle_text_message GROUP ann_text) empty.
Definition saved_then_found :=
  run all_fine (bind (save_user_topic 42 101 "Ann" "ann")
                  (fun _ => get_user_topic 42)) empty.
Definition video_reply := run all_fine (handle_reply GROUP staff_video) known.
Definition text_reply := run all_fine (handle_reply GROUP staff_text) known.

End Outage.

(** * The commands of the support bot and the read side of the store

    [/start], [/help], [/stats] and [/userinfo] of [main.py], with the three
    methods of [DatabaseManager] that only read: [get_user_stats],
    [get_all_users] and [get_total_stats].  None of them writes to the
    store, so a run threads the log and the history of calls only, over
    fixed collections. *)

Module Commands.

(** The texts of the commands, each with the values it interpolates. *)
Inductive Reply :=
| welcome_message
| help_message
| stats_message (total_users total_messages : Z) (auto_reply : bool)
| stats_error                       (* "❌ Error fetching statistics" *)
| use_inside_topic                  (* "Use this command inside a user's topic." *)
| user_not_found                    (* "❌ User not found for this topic." *)
| info_message (user : UserDoc) (from_user to_user total : Z)
| info_error.                       (* "❌ Error fetching user information" *)

(** A filter of [db.messages]: on [user_id], on [direction], or on both. *)
Record MessageFilter := mkFilter {
  of_user : option Z;
  in_direction : option Direction
}.

(** The two uses of [count_documents]. *)
Inductive Counting :=
| users_count_documents                   (* users.count_documents({}) *)
| messages_count_documents (f : MessageFilter).

(** The calls of the commands: the reply, and the reads of [pymongo]. *)
Inductive Ask :=
| reply_text (chat : Z) (thread : option Z) (t : Reply)
| users_find_one (f : Filter)
| users_find                              (* users.find({}, {"_id": 0}) *)
| counting (q : Counting).

Definition History := list (Ask * Outcome).

(** The outside answers a call by carrying it out or by raising. *)
Definition Outside := History -> Ask -> Outcome.

Record State := mkState {
  log : list LogRecord;     (* logger output, oldest first *)
  asked : History           (* calls and their outcomes, oldest first *)
}.

Inductive Cmd (A : Type) : Type :=
| Ret (a : A)
| Throw (e : string)
| Await (c : Ask) (k : Outcome -> Cmd A)
| FindOne (f : Filter) (k : Result (option UserDoc) -> Cmd A)
| Find (k : Result (list UserDoc) -> Cmd A)
| Count (q : Counting) (k : Result Z -> Cmd A)
| Logger (r : LogRecord) (k : Cmd A).
Arguments Throw {A} e.
Arguments Await {A} c k.
Arguments FindOne {A} f k.
Arguments Find {A} k.
Arguments Count {A} q k.
Arguments Logger {A} r k.

Fixpoint bind {A B} (m : Cmd A) (f : A -> Cmd B) : Cmd B :=
  match m with
  | Ret a => f a
  | Throw e => Throw e
  | Await c k => Await c (fun o => bind (k o) f)
  | FindOne q k => FindOne q (fun r => bind (k r) f)
  | Find k => Find (fun r => bind (k r) f)
  | Count c k => Count c (fun r => bind (k r) f)
  | Logger r k => Logger r (bind k f)
  end.

Fixpoint try {A} (m : Cmd A) (h : string -> Cmd A) : Cmd A :=
  match m with
  | Ret a => Ret a
  | Throw e => h e
  | Await c k => Await c (fun o => try (k o) h)
  | FindOne q k => FindOne q (fun r => try (k r) h)
  | Find k => Find (fun r => try (k r) h)
  | Count c k => Count c (fun r => try (k r) h)
  | Logger r k => Logger r (try k h)
  end.

Declare Scope cmd_scope.
Delimit Scope cmd_scope with cmd.
Notation "x <- m ;; k" := (bind m (fun x => k))
  (at level 61, m at next level, right associativity) : cmd_scope.
Notation "m ;; k" := (bind m (fun _ => k))
  (at level 61, right associativity) : cmd_scope.
Local Open Scope cmd_scope.

Definition of_result {A} (r : Result A) : Cmd A :=
  match r with Val a => Ret a | Exc e => Throw e end.

Definition await (c : Ask) : Cmd Z :=
  Await c (fun o => match o with Ok v => Ret v | Raise e => Throw e end).

Definition find_one (f : Filter) : Cmd (option UserDoc) := FindOne f of_result.
Definition find : Cmd (list UserDoc) := Find of_result.
Definition count_documents (q : Counting) : Cmd Z := Count q of_result.

Definition logger (l : Level) (s : string) : Cmd unit :=
  Logger (mkLog l s) (Ret tt).

(** ** The reads, carried out *)

Definition selects (f : MessageFilter) (m : MessageDoc) : bool :=
  (match of_user f with Some uid => m_user_id m =? uid | None => true end
   && match in_direction f, direction m with
      | None, _ | Some from_user, from_user | Some to_user, to_user => true
      | _, _ => false
      end)%bool.

(** [count_documents]: how many documents the filter selects. *)
Definition counted (us : list UserDoc) (ms : list MessageDoc) (q : Counting)
  : Z :=
  match q with
  | users_count_documents => Z.of_nat (length us)
  | messages_count_documents f => Z.of_nat (length (filter (selects f) ms))
  end.

Definition note (c : Ask) (o : Outcome) (s : State) : State :=
  mkState (log s) (asked s ++ [(c, o)]).

Section Run.

Variable out : Outside.
Variable users : list UserDoc.          (* db.users *)
Variable messages : list MessageDoc.    (* db.messages *)

Fixpoint run {A} (p : Cmd A) (s : State) : State * Result A :=
  match p with
  | Ret a => (s, Val a)
  | Throw e => (s, Exc e)
  | Await c k =>
      let o := out (asked s) c in
      run (k o) (note c o s)
  | FindOne f k =>
      let c := users_find_one f in
      match out (asked s) c with
      | Ok v => run (k (Val (List.find (matches f) users))) (note c (Ok v) s)
      | Raise e => run (k (Exc e)) (note c (Raise e) s)
      end
  | Find k =>
      match out (asked s) users_find with
      | Ok v => run (k (Val users)) (note users_find (Ok v) s)
      | Raise e => run (k (Exc e)) (note users_find (Raise e) s)
      end
  | Count q k =>
      let c := counting q in
      match out (asked s) c with
      | Ok v => run (k (Val (counted users messages q))) (note c (Ok v) s)
      | Raise e => run (k (Exc e)) (note c (Raise e) s)
      end
  | Logger r k => run k (mkState (log s ++ [r]) (asked s))
  end.

End Run.

(** ** DatabaseManager, the reads *)

(** The dictionary [get_user_stats] returns. *)
Record UserStats := mkStats { total : Z; from_user_count : Z; to_user_count : Z }.

Definition get_user_stats (user_id : Z) : Cmd (option UserStats) :=
  try (total_messages <-
         count_documents
           (messages_count_documents (mkFilter (Some user_id) None)) ;;
       from_user' <-
         count_documents
           (messages_count_documents (mkFilter (Some user_id) (Some from_user))) ;;
       to_user' <-
         count_documents
           (messages_count_documents (mkFilter (Some user_id) (Some to_user))) ;;
       Ret (Some (mkStats total_messages from_user' to_user')))
      (fun e =>
       logger ERROR ("Error getting user stats: " ++ e)%string ;;
       Ret None).

Definition get_all_users : Cmd (list UserDoc) :=
  try find
      (fun e =>
       logger ERROR ("Error getting all users: " ++ e)%string ;;
       Ret []).

(** The dictionary [get_total_stats] returns: users, then messages. *)
Definition get_total_stats : Cmd (option (Z * Z)) :=
  try (total_users <- count_documents users_count_documents ;;
       total_messages <-
         count_documents (messages_count_documents (mkFilter None None)) ;;
       Ret (Some (total_users, total_messages)))
      (fun e =>
       logger ERROR ("Error getting total stats: " ++ e)%string ;;
       Ret None).

(** ** The commands *)

Section Handlers.

Variable SUPPORT_GROUP_ID : Z.

Definition start_command (update : Update) : Cmd unit :=
  if negb (ChatType_eqb (chat_type update) private) then Ret tt else
  await (reply_text (chat_id update) None welcome_message) ;;
  Ret tt.

Definition help_command (update : Update) : Cmd unit :=
  if negb (ChatType_eqb (chat_type update) private) then Ret tt else
  await (reply_text (chat_id update) None help_message) ;;
  Ret tt.

Definition stats_command (update : Update) : Cmd unit :=
  if negb (chat_id update =? SUPPORT_GROUP_ID) then Ret tt else
  stats <- get_total_stats ;;
  let stats_message :=
    match stats with
    | Some (total_users, total_messages) =>
        stats_message total_users total_messages AUTO_REPLY_ENABLED
    | None => stats_error
    end in
  await (reply_text (chat_id update) None stats_message) ;;
  Ret tt.

Definition userinfo_command (update : Update) : Cmd unit :=
  if negb (chat_id update =? SUPPORT_GROUP_ID) then Ret tt else
  match message_thread_id (message update) with
  | Some topic_id =>
      if topic_id =? 0 then
        await (reply_text (chat_id update) None use_inside_topic) ;;
        Ret tt
      else
        user <- find_one (by_topic_id topic_id) ;;
        match user with
        | None =>
            await (reply_text (chat_id update) None user_not_found) ;;
            Ret tt
        | Some user =>
            stats <- get_user_stats (user_id user) ;;
            let info_message :=
              match stats with
              | Some stats =>
                  info_message user (from_user_count stats)
                    (to_user_count stats) (total stats)
              | None => info_error
              end in
            await (reply_text (chat_id update) (Some topic_id) info_message) ;;
            Ret tt
        end
  | None =>
      await (reply_text (chat_id update) None use_inside_topic) ;;
      Ret tt
  end.

(** The four commands as [main] registers them. *)
Inductive Command := START | HELP | STATS | USERINFO.

Definition command (c : Command) : Update -> Cmd unit :=
  match c with
  | START => start_command
  | HELP => help_command
  | STATS => stats_command
  | USERINFO => userinfo_command
  end.

End Handlers.

(** ** Reading a history *)

Definition is_reply (c : Ask * Outcome) : bool :=
  match c with (reply_text _ _ _, _) => true | _ => false end.

(** The replies sent or attempted, oldest first. *)
Definition replies (h : History) : History := filter is_reply h.

End Commands.

(** ** Situations of the commands *)

Module Desk.

Import Scenario Commands.

(** Ann wrote twice and was answered once; Bob, under topic 102, wrote
    once. *)
Definition bob : UserDoc := mkUser 43 102 "Bob" "bob".

Definition two_users : list UserDoc := [ann; bob].

Definition four_events : list MessageDoc :=
  [mkMessage 42 "text" from_user (Some "hi");
   mkMessage 43 "photo" from_user None;
   mkMessage 42 "text" to_user (Some "hello Ann");
   mkMessage 42 "voice" from_user None].

(** Staff member 7 sends [/stats] in the group and [/userinfo] in Ann's
    topic; Ann sends [/start] in her private chat. *)
Definition stats_request : Update :=
  mkUpdate GROUP supergroup 7 (Some "Staff") None
    (text_message 60 None "/stats").
Definition userinfo_request : Update :=
  mkUpdate GROUP supergroup 7 (Some "Staff") None
    (text_message 61 (Some 101) "/userinfo").
Definition ann_start : Update :=
  mkUpdate 42 private 42 (Some "Ann") (Some "ann")
    (text_message 9 None "/start").

(** Every call is carried out. *)
Definition answers : Outside := fun _ _ => Ok 0.

Definition stats_run :=
  run answers two_users four_events (stats_command GROUP stats_request)
    (mkState [] []).
Definition userinfo_run :=
  run answers two_users four_events (userinfo_command GROUP userinfo_request)
    (mkState [] []).
Definition start_run :=
  run answers two_users four_events (command GROUP START ann_start)
    (mkState [] []).

End Desk.

(** * Bulk deletion: a shallow embedding of [delete.py]

    The deletion bot is a second program with its own handlers.  It keeps one
    piece of shared state, the dictionary [active_deletions], and talks to
    the Bot API only.  A handler is again a tree of what it does next; the
    local variables that [del_command] updates inside its loop
    ([deleted_count], [failed_count], [current_batch]) are kept next to the
    dictionary, so that an [except] branch sees them as the body left
    them. *)

Module Delete.

(** ** Updates *)

(** Of a message the handlers read [text] only. *)
Record Message := mkMsg { text : option string }.

(** An update of any kind.  [effective_chat] is set whenever [message] or
    [channel_post] is, and the handlers return before they touch it
    otherwise; [effective_user] is missing for channel posts. *)
Record Update := mkUpdate {
  message : option Message;          (* update.message *)
  channel_post : option Message;     (* update.channel_post *)
  chat_id : Z;                       (* update.effective_chat.id *)
  chat_type : ChatType;              (* update.effective_chat.type *)
  effective_user : option Z          (* update.effective_user.id *)
}.

(** [update.message or update.channel_post] *)
Definition message_of (u : Update) : option Message :=
  match message u with
  | Some m => Some m
  | None => channel_post u
  end.

(** ** Texts and log lines *)

(** The texts the bot sends.  Each constructor stands for the fixed HTML text
    of its call together with the numbers that text interpolates; the
    percentages of the status texts are computed from those numbers. *)
Inductive Text :=
| no_active_deletion
| only_admins_stop
| deletion_stopped
| already_in_progress
| only_groups
| only_admins
| invalid_format
| invalid_numbers
| start_after_end
| range_too_large
| starting (start_id end_id total_messages : Z)
| stopped (start_id end_id total_messages deleted failed msg_id : Z)
| in_progress (start_id end_id deleted failed total_messages : Z)
| completed (start_id end_id total_messages deleted failed : Z)
| welcome_message
| help_message.

(** The lines written to the logger, with the values they interpolate. *)
Inductive Line :=
| stop_received
| del_received
| no_message
| channel_assumed_admin
| user_is_admin (uid : Z)
| user_is_not_admin (uid : Z)
| admin_check_error (e : string)
| deletion_stopped_for (chat : Z)
| wrong_chat_type (t : ChatType)
| error_message_error (e : string)
| chat_type_passed (t : ChatType)
| admin_check_passed
| invalid_arguments (args : list string)
| parsed_ids (start_id end_id : Z)
| invalid_number_format
| start_gt_end
| range_too_large_line
| validations_passed
| status_message_sent
| status_message_error (e : string)
| starting_bulk_deletion (chat start_id end_id : Z)
| stopped_by_user (chat : Z)
| batch_error (e : string)
| final_status_sent
| final_status_error (e : string)
| bulk_deletion_completed (chat deleted failed : Z).

(** ** Calls to the outside *)

Inductive Call :=
| reply_text (chat : Z) (t : Text)             (* message.reply_text *)
| get_chat_member (chat user : Z)
| delete_message (chat mid : Z)
| edit_text (status_message : Z) (t : Text)    (* status_message.edit_text *)
| sleep.                                       (* asyncio.sleep(0.1) *)

Definition Trace := list (Call * Outcome).

(** ** The state *)

(** A value of [active_deletions]; a message is known by its id. *)
Record Entry := mkEntry { active : bool; status_message : Z }.

(** [active_deletions], by chat id. *)
Definition Active := Z -> option Entry.

Definition set_entry (chat : Z) (e : option Entry) (d : Active) : Active :=
  fun c => if c =? chat then e else d c.

(** [chat_id in active_deletions and active_deletions[chat_id].get('active')],
    which is also [active_deletions.get(chat_id, {}).get('active')]. *)
Definition is_active (chat : Z) (d : Active) : bool :=
  match d chat with
  | Some e => active e
  | None => false
  end.

Record Store := mkStore {
  active_deletions : Active;
  deleted_count : Z;
  failed_count : Z;
  current_batch : list Z
}.

Record World := mkWorld {
  store : Store;
  log : list (Level * Line);     (* logger output, oldest first *)
  trace : Trace                  (* calls and their outcomes, oldest first *)
}.

(** The outside: the Bot API answers each call knowing what was called
    before; [roster chat user] is the status Telegram has for a member; and
    [others] is what the other coroutines of the process did to
    [active_deletions] while this one was suspended in an await. *)
Record Outside := mkOutside {
  bot : Trace -> Call -> Outcome;
  roster : Z -> Z -> string;
  others : Trace -> Active -> Active
}.

(** No other coroutine touches the dictionary. *)
Definition alone (t : Trace) (d : Active) : Active := d.

Definition quiet (out : Outside) : Prop := forall t d, others out t d = d.

(** ** Programs *)

Inductive Prog (A : Type) : Type :=
| Ret (a : A)
| Throw (e : string)
| Await (c : Call) (k : Outcome -> Prog A)
| Member (chat user : Z) (k : Result string -> Prog A)
| Pause (k : Prog A)
| Get (k : Store -> Prog A)
| Put (s : Store) (k : Prog A)
| Logger (l : Level) (r : Line) (k : Prog A).
Arguments Throw {A} e.
Arguments Await {A} c k.
Arguments Member {A} chat user k.
Arguments Pause {A} k.
Arguments Get {A} k.
Arguments Put {A} s k.
Arguments Logger {A} l r k.

Fixpoint bind {A B} (m : Prog A) (f : A -> Prog B) : Prog B :=
  match m with
  | Ret a => f a
  | Throw e => Throw e
  | Await c k => Await c (fun o => bind (k o) f)
  | Member chat user k => Member chat user (fun r => bind (k r) f)
  | Pause k => Pause (bind k f)
  | Get k => Get (fun s => bind (k s) f)
  | Put s k => Put s (bind k f)
  | Logger l r k => Logger l r (bind k f)
  end.

(** [try: m  except Exception as e: h e], and the bare [except:]. *)
Fixpoint try {A} (m : Prog A) (h : string -> Prog A) : Prog A :=
  match m with
  | Ret a => Ret a
  | Throw e => h e
  | Await c k => Await c (fun o => try (k o) h)
  | Member chat user k => Member chat user (fun r => try (k r) h)
  | Pause k => Pause (try k h)
  | Get k => Get (fun s => try (k s) h)
  | Put s k => Put s (try k h)
  | Logger l r k => Logger l r (try k h)
  end.

Declare Scope delete_scope.
Delimit Scope delete_scope with delete.
Notation "x <- m ;; k" := (bind m (fun x => k))
  (at level 61, m at next level, right associativity) : delete_scope.
Notation "m ;; k" := (bind m (fun _ => k))
  (at level 61, right associativity) : delete_scope.
Local Open Scope delete_scope.

Definition await (c : Call) : Prog Z :=
  Await c (fun o => match o with Ok v => Ret v | Raise e => Throw e end).

(** [(await context.bot.get_chat_member(...)).status] *)
Definition member_status (chat user : Z) : Prog string :=
  Member chat user (fun r => match r with Val s => Ret s | Exc e => Throw e end).

(** [await asyncio.sleep(0.1)]: the coroutine is suspended; nothing is
    raised short of a cancellation, which is not part of the model. *)
Definition pause : Prog unit := Pause (Ret tt).

Definition logger (l : Level) (r : Line) : Prog unit := Logger l r (Ret tt).

Definition get : Prog Store := Get (fun s => Ret s).
Definition put (s : Store) : Prog unit := Put s (Ret tt).

(** An assignment to the dictionary or to a local variable. *)
Definition modify (f : Store -> Store) : Prog unit := s <- get ;; put (f s).

Definition with_active (f : Active -> Active) (s : Store) : Store :=
  mkStore (f (active_deletions s)) (deleted_count s) (failed_count s)
    (current_batch s).

(** ** Running a handler *)

Definition record (c : Call) (o : Outcome) (w : World) : World :=
  mkWorld (store w) (log w) (trace w ++ [(c, o)]).

Definition write_log (l : Level) (r : Line) (w : World) : World :=
  mkWorld (store w) (log w ++ [(l, r)]) (trace w).

Section Run.

Variable out : Outside.

(** While the coroutine waits the others run. *)
Definition suspend (w : World) : World :=
  mkWorld (with_active (others out (trace w)) (store w)) (log w) (trace w).

Fixpoint run {A} (p : Prog A) (w : World) : World * Result A :=
  match p with
  | Ret a => (w, Val a)
  | Throw e => (w, Exc e)
  | Await c k =>
      let o := bot out (trace w) c in
      run (k o) (suspend (record c o w))
  | Member chat user k =>
      let c := get_chat_member chat user in
      match bot out (trace w) c with
      | Ok v => run (k (Val (roster out chat user))) (suspend (record c (Ok v) w))
      | Raise e => run (k (Exc e)) (suspend (record c (Raise e) w))
      end
  | Pause k => run k (suspend (record sleep (Ok 0) w))
  | Get k => run (k (store w)) w
  | Put s k => run k (mkWorld s (log w) (trace w))
  | Logger l r k => run k (write_log l r w)
  end.

End Run.

(** ** The handlers *)

Section Handlers.

(** [int(s)]: the integer, or [None] for [ValueError]. *)
Variable int : string -> option Z.

(** [s.split()] *)
Variable split : string -> list string.

(** [chat_member.status in ['creator', 'administrator']] *)
Definition is_admin_status (s : string) : bool :=
  (String.eqb s "creator" || String.eqb s "administrator")%bool.

(** The admin check, the same lines in [stop_command] and [del_command]:
    the value of [is_admin] after them. *)
Definition admin_check (update : Update) : Prog bool :=
  if ChatType_eqb (chat_type update) channel then
    logger INFO channel_assumed_admin ;;
    Ret true
  else
    match effective_user update with
    | Some uid =>
        try (status <- member_status (chat_id update) uid ;;
             if is_admin_status status then
               logger INFO (user_is_admin uid) ;;
               Ret true
             else
               logger WARNING (user_is_not_admin uid) ;;
               Ret false)
            (fun e =>
             logger ERROR (admin_check_error e) ;;
             Ret false)
    | None => Ret false
    end.



(** [range(start, start + n)] *)
Fixpoint range (start : Z) (n : nat) : list Z :=
  match n with
  | O => []
  | S k => start :: range (start + 1) k
  end.

(** [if chat_id in active_deletions: del active_deletions[chat_id]] *)
Definition clean_up (chat : Z) : Prog unit :=
  modify (with_active (set_entry chat None)).

(** The inner [for batch_msg_id in current_batch]. *)
Fixpoint delete_each (chat : Z) (batch : list Z) : Prog unit :=
  match batch with
  | [] => Ret tt
  | batch_msg_id :: rest =>
      try (await (delete_message chat batch_msg_id) ;;
           modify (fun s =>
             mkStore (active_deletions s) (deleted_count s + 1)
               (failed_count s) (current_batch s)))
          (fun e =>
           (* logger.debug: below the level the logger is set to *)
           modify (fun s =>
             mkStore (active_deletions s) (deleted_count s)
               (failed_count s + 1) (current_batch s))) ;;
      delete_each chat rest
  end.

Definition reset_batch (s : Store) : Store :=
  mkStore (active_deletions s) (deleted_count s) (failed_count s) [].

(** The body of [if len(current_batch) >= batch_size or msg_id == end_id]. *)
Definition delete_batch (chat start_id end_id total_messages status : Z)
  : Prog unit :=
  try (s <- get ;;
       delete_each chat (current_batch s) ;;
       s <- get ;;
       (if deleted_count s mod 50 =? 0 then
          try (await (edit_text status
                        (in_progress start_id end_id (deleted_count s)
                           (failed_count s) total_messages)) ;;
               Ret tt)
              (fun _ => Ret tt)
        else Ret tt) ;;
       modify reset_batch ;;
       pause)
      (fun e =>
       logger ERROR (batch_error e) ;;
       modify (fun s =>
         mkStore (active_deletions s) (deleted_count s)
           (failed_count s + Z.of_nat (length (current_batch s)))
           (current_batch s)) ;;
       modify reset_batch).

Definition batch_size : nat := 10.

(** [for msg_id in range(start_id, end_id + 1)], over the ids still to come.
    [true] when the loop ran to its end, [false] when it returned from
    [del_command]. *)
Fixpoint deletion_loop (chat start_id end_id total_messages status : Z)
    (ids : list Z) : Prog bool :=
  match ids with
  | [] => Ret true
  | msg_id :: rest =>
      s <- get ;;
      if negb (is_active chat (active_deletions s)) then
        logger INFO (stopped_by_user chat) ;;
        try (await (edit_text status
                      (stopped start_id end_id total_messages
                         (deleted_count s) (failed_count s) msg_id)) ;;
             Ret tt)
            (fun _ => Ret tt) ;;
        clean_up chat ;;
        Ret false
      else
        modify (fun s =>
          mkStore (active_deletions s) (deleted_count s) (failed_count s)
            (current_batch s ++ [msg_id])) ;;
        s <- get ;;
        (if (Nat.leb batch_size (length (current_batch s))
             || (msg_id =? end_id))%bool
         then delete_batch chat start_id end_id total_messages status
         else Ret tt) ;;
        deletion_loop chat start_id end_id total_messages status rest
  end.

(** [context.args], which is [None] under a [MessageHandler]. *)
Definition arguments (args : option (list string)) (m : Message)
  : list string :=
  match args with
  | Some a => a
  | None =>
      match split (Py.or_str (text m) "") with
      | [p0; p1; p2] => if String.eqb p0 "/del" then [p1; p2] else []
      | _ => []
      end
  end.

Definition allowed_type (t : ChatType) : bool :=
  match t with
  | group | supergroup | channel => true
  | private => false
  end.

Definition del_command (update : Update) (args : option (list string))
  : Prog unit :=
  logger INFO del_received ;;
  match message_of update with
  | None => logger ERROR no_message
  | Some message =>
  let chat_id := chat_id update in
  s <- get ;;
  if is_active chat_id (active_deletions s) then
    await (reply_text chat_id already_in_progress) ;;
    Ret tt
  else
  if negb (allowed_type (chat_type update)) then
    logger WARNING (wrong_chat_type (chat_type update)) ;;
    try (await (reply_text chat_id only_groups) ;; Ret tt)
        (fun e => logger ERROR (error_message_error e))
  else
  logger INFO (chat_type_passed (chat_type update)) ;;
  is_admin <- admin_check update ;;
  if negb is_admin then
    await (reply_text chat_id only_admins) ;;
    Ret tt
  else
  logger INFO admin_check_passed ;;
  match arguments args message with
  | [a0; a1] =>
  match int a0, int a1 with
  | Some start_id, Some end_id =>
  logger INFO (parsed_ids start_id end_id) ;;
  if start_id >? end_id then
    logger WARNING start_gt_end ;;
    await (reply_text chat_id start_after_end) ;;
    Ret tt
  else
  if end_id - start_id >? 1000 then
    logger WARNING range_too_large_line ;;
    await (reply_text chat_id range_too_large) ;;
    Ret tt
  else
  logger INFO validations_passed ;;
  let total_messages := end_id - start_id + 1 in
  sent <- try (m <- await (reply_text chat_id
                             (starting start_id end_id total_messages)) ;;
               logger INFO status_message_sent ;;
               Ret (Some m))
              (fun e =>
               logger ERROR (status_message_error e) ;;
               Ret None) ;;
  match sent with
  | None => Ret tt
  | Some status_message =>
  modify (fun s =>
    mkStore (set_entry chat_id (Some (mkEntry true status_message))
               (active_deletions s))
      0 0 []) ;;
  logger INFO (starting_bulk_deletion chat_id start_id end_id) ;;
  finished <- deletion_loop chat_id start_id end_id total_messages
                status_message
                (range start_id (Z.to_nat (end_id + 1 - start_id))) ;;
  if negb finished then Ret tt else
  s <- get ;;
  try (await (edit_text status_message
                (completed start_id end_id total_messages (deleted_count s)
                   (failed_count s))) ;;
       logger INFO final_status_sent)
      (fun e => logger ERROR (final_status_error e)) ;;
  s <- get ;;
  logger INFO (bulk_deletion_completed chat_id (deleted_count s)
                 (failed_count s)) ;;
  clean_up chat_id
  end
  | _, _ =>
  logger ERROR invalid_number_format ;;
  await (reply_text chat_id invalid_numbers) ;;
  Ret tt
  end
  | a =>
  logger WARNING (invalid_arguments a) ;;
  await (reply_text chat_id invalid_format) ;;
  Ret tt
  end
  end.

Definition start_command (update : Update) : Prog unit :=
  match message_of update with
  | None => Ret tt
  | Some _ =>
      await (reply_text (chat_id update) welcome_message) ;;
      Ret tt
  end.

Definition help_command (update : Update) : Prog unit :=
  match message_of update with
  | None => Ret tt
  | Some _ =>
      await (reply_text (chat_id update) help_message) ;;
      Ret tt
  end.

End Handlers.

(** ** Reading a trace *)

Definition is_delete_message (c : Call * Outcome) : bool :=
  match c with (delete_message _ _, _) => true | _ => false end.

(** The chats and ids [delete_message] was called with, oldest first. *)
Fixpoint deletions (t : Trace) : list (Z * Z) :=
  match t with
  | [] => []
  | (delete_message chat mid, _) :: rest => (chat, mid) :: deletions rest
  | _ :: rest => deletions rest
  end.

(** The ids [ids] of one chat. *)
Definition in_chat (chat : Z) (ids : list Z) : list (Z * Z) :=
  map (pair chat) ids.

(** How many of those calls went through, and how many raised. *)
Fixpoint deleted (t : Trace) : Z :=
  match t with
  | [] => 0
  | (delete_message _ _, Ok _) :: rest => 1 + deleted rest
  | _ :: rest => deleted rest
  end.

Fixpoint failed (t : Trace) : Z :=
  match t with
  | [] => 0
  | (delete_message _ _, Raise _) :: rest => 1 + failed rest
  | _ :: rest => failed rest
  end.

(** The texts the bot sent or tried to send, as replies or as edits. *)
Fixpoint texts (t : Trace) : list Text :=
  match t with
  | [] => []
  | (reply_text _ x, _) :: rest => x :: texts rest
  | (edit_text _ x, _) :: rest => x :: texts rest
  | _ :: rest => texts rest
  end.

(** The last id of [ids] is [end_id], and no id before it is. *)
Fixpoint ends (end_id : Z) (ids : list Z) : Prop :=
  match ids with
  | [] => True
  | x :: rest => (x = end_id <-> rest = []) /\ ends end_id rest
  end.

(** The status message of a deletion went out. *)
Definition is_start (c : Call * Outcome) : bool :=
  match c with
  | (reply_text _ (starting _ _ _), Ok _) => true
  | _ => false
  end.

Definition started (t : Trace) : bool := existsb is_start t.

(** What the admin check accepts: a channel post, or a user whom Telegram
    lists as creator or administrator of the chat. *)
Definition authorised (out : Outside) (update : Update) : bool :=
  match chat_type update, effective_user update with
  | channel, _ => true
  | _, Some uid => is_admin_status (roster out (chat_id update) uid)
  | _, None => false
  end.

End Delete.

(** ** Situations of the deletion bot *)

Module Purge.

Import Delete.

(** [int] on ASCII text, for the examples: an optional sign, then decimal
    digits and at least one of them; [None] stands for [ValueError].  Python
    reads more spellings as numbers (digits grouped by underscores, blanks
    around the numeral, the digits of other scripts), which the examples do
    not use. *)
Fixpoint digits (s : string) (acc : Z) : option Z :=
  match s with
  | EmptyString => Some acc
  | String c t =>
      let n := Z.of_nat (nat_of_ascii c) in
      if ((48 <=? n) && (n <=? 57))%bool then digits t (10 * acc + (n - 48))
      else None
  end.

Definition int (s : string) : option Z :=
  match s with
  | EmptyString => None
  | String c t =>
      if (Ascii.eqb c "-" || Ascii.eqb c "+")%bool then
        match t with
        | EmptyString => None
        | _ => option_map (if Ascii.eqb c "-" then Z.opp else fun n => n)
                 (digits t 0)
        end
      else digits s 0
  end.

(** The ASCII characters [str.split] takes for blanks. *)
Definition is_blank (c : ascii) : bool :=
  let n := nat_of_ascii c in
  ((Nat.leb 9 n && Nat.leb n 13) || (Nat.leb 28 n && Nat.leb n 32))%bool.

(** [split] on runs of ASCII blanks. *)
Fixpoint split_from (word : string) (s : string) : list string :=
  let flush := match word with EmptyString => [] | _ => [word] end in
  match s with
  | EmptyString => flush
  | String c t =>
      if is_blank c then flush ++ split_from "" t
      else split_from (word ++ String c "") t
  end.

Definition split (s : string) : list string := split_from "" s.

Definition nothing : Store := mkStore (fun _ => None) 0 0 [].

(** Administrator 7 asks, in supergroup -500, for messages 1 to 25 to be
    deleted; a channel posts the same command; member 8 asks too. *)
Definition GROUP : Z := -500.

Definition admin_del : Update :=
  mkUpdate (Some (mkMsg (Some "/del 1 25"))) None GROUP supergroup (Some 7).
Definition member_del : Update :=
  mkUpdate (Some (mkMsg (Some "/del 1 25"))) None GROUP supergroup (Some 8).
Definition channel_del : Update :=
  mkUpdate None (Some (mkMsg (Some "/del 1 25"))) (-900) channel None.

Definition one_to_25 : option (list string) := Some ["1"; "25"].

Definition members (chat user : Z) : string :=
  if user =? 7 then "administrator" else "member".

(** Everything works and nobody interferes; a message sent gets the next
    free id from 100 on. *)
Definition calm : Outside :=
  mkOutside (fun t _ => Ok (100 + Z.of_nat (length t))) members alone.

(** Messages with an id divisible by three are gone already. *)
Definition gaps : Outside :=
  mkOutside
    (fun t c =>
       match c with
       | delete_message _ mid =>
           if mid mod 3 =? 0 then Raise "Bad Request: message to delete not found"
           else Ok 0
       | _ => Ok (100 + Z.of_nat (length t))
       end)
    members alone.

(** Someone stops the deletion while its first batch is under way. *)
Definition stop_entry (e : Entry) : Entry := mkEntry false (status_message e).

Definition interrupted : Outside :=
  mkOutside (fun t _ => Ok (100 + Z.of_nat (length t))) members
    (fun t d =>
       if Nat.leb 3 (length t) then fun c => option_map stop_entry (d c)
       else d).

(** A deletion is under way in the group; its status message is 100. *)
Definition busy : Store :=
  mkStore (set_entry GROUP (Some (mkEntry true 100)) (fun _ => None)) 10 0 [].

(** The runs the examples look at. *)
Definition purge :=
  run calm (del_command int split admin_del one_to_25) (mkWorld nothing [] []).
Definition purge_with_gaps :=
  run gaps (del_command int split admin_del one_to_25)
    (mkWorld nothing [] []).
Definition purge_interrupted :=
  run interrupted (del_command int split admin_del one_to_25)
    (mkWorld nothing [] []).
Definition purge_by_member :=
  run calm (del_command int split member_del one_to_25)
    (mkWorld nothing [] []).
Definition purge_while_busy :=
  run calm (del_command int split admin_del one_to_25) (mkWorld busy [] []).

End Purge.

(** * Properties *)

(** ** Running composed programs *)

Section RunLaws.

Variable env : Env.

(** [run] of a sequence is the sequence of the runs; an exception skips the
    rest. *)
Lemma run_bind A B (m : Prog A) (f : A -> Prog B) w :
  run env (bind m f) w =
  match run env m w with
  | (w1, Val a) => run env (f a) w1
  | (w1, Exc e) => (w1, Exc e)
  end.
Proof.
  revert w. induction m as [a|e|c k IH|c k IH|r k IH]; intros w; cbn.
  - reflexivity.
  - reflexivity.
  - apply IH.
  - destruct (env (trace w) (Db c)).
    + destruct (db_exec c w). apply IH.
    + apply IH.
  - apply IH.
Qed.

(** [run] of [try]/[except]: the handler runs from where the body raised. *)
Lemma run_try A (m : Prog A) (h : string -> Prog A) w :
  run env (try m h) w =
  match run env m w with
  | (w1, Val a) => (w1, Val a)
  | (w1, Exc e) => run env (h e) w1
  end.
Proof.
  revert w. induction m as [a|e|c k IH|c k IH|r k IH]; intros w; cbn.
  - reflexivity.
  - reflexivity.
  - apply IH.
  - destruct (env (trace w) (Db c)).
    + destruct (db_exec c w). apply IH.
    + apply IH.
  - apply IH.
Qed.

(** A turn of the event loop followed by the rest of the run is the run. *)
Lemma run_advance A (p : Prog A) w :
  run env p w = let (w', p') := advance env p w in run env p' w'.
Proof.
  revert w. induction p as [a|e|c k IH|c k IH|r k IH]; intros w; cbn;
    try reflexivity.
  - destruct (env (trace w) (Db c)).
    + destruct (db_exec c w). apply IH.
    + apply IH.
  - apply IH.
Qed.

Lemma run_resume A (p : Prog A) w :
  run env p w = let (w', p') := resume env p w in run env p' w'.
Proof.
  destruct p as [a|e|c k|c k|r k]; try apply run_advance.
  cbn. apply run_advance.
Qed.

End RunLaws.

(** ** The users collection *)

Section Users.

Lemma session_none_not_in uid us :
  session uid us = None -> ~ In uid (map user_id us).
Proof.
  unfold session. induction us as [|x t IH]; cbn; intros H; [tauto|].
  destruct (user_id x =? uid) eqn:E; [discriminate|].
  apply Z.eqb_neq in E. intros [?|?]; [congruence|]. now apply IH.
Qed.

Lemma not_in_session_none uid us :
  ~ In uid (map user_id us) -> session uid us = None.
Proof.
  unfold session. induction us as [|x t IH]; cbn; intros H; [reflexivity|].
  destruct (user_id x =? uid) eqn:E.
  - apply Z.eqb_eq in E. tauto.
  - apply IH. tauto.
Qed.

Lemma session_some uid us d :
  session uid us = Some d -> In d us /\ user_id d = uid.
Proof.
  unfold session. intros H. apply find_some in H.
  cbn in H. destruct H as [H E]. apply Z.eqb_eq in E. tauto.
Qed.

Lemma in_map_delete_one uid x us :
  In x (map user_id (delete_one uid us)) -> In x (map user_id us).
Proof.
  induction us as [|y t IH]; cbn; [tauto|].
  destruct (user_id y =? uid); cbn; [tauto|]. intros [?|?]; [tauto|].
  right. now apply IH.
Qed.

Lemma in_map_upsert d x us :
  In x (map user_id (upsert d us)) -> x = user_id d \/ In x (map user_id us).
Proof.
  induction us as [|y t IH]; cbn.
  - intros [?|?]; [left; congruence|tauto].
  - destruct (user_id y =? user_id d) eqn:E; cbn.
    + apply Z.eqb_eq in E. intros [?|?]; [left; congruence|tauto].
    + intros [?|?]; [tauto|]. destruct (IH H); tauto.
Qed.

(** The writes of the bot keep the index unique. *)
Lemma unique_delete_one uid us :
  unique_index us -> unique_index (delete_one uid us).
Proof.
  unfold unique_index. induction us as [|y t IH]; cbn; intros H; [exact H|].
  inversion H as [|? ? Hy Ht]; subst.
  destruct (user_id y =? uid); cbn; [exact Ht|].
  constructor; [|now apply IH].
  intros Hin. apply Hy. eapply in_map_delete_one; eassumption.
Qed.

Lemma unique_upsert d us :
  unique_index us -> unique_index (upsert d us).
Proof.
  unfold unique_index. induction us as [|y t IH]; cbn; intros H.
  - constructor; [tauto|constructor].
  - inversion H as [|? ? Hy Ht]; subst.
    destruct (user_id y =? user_id d) eqn:E; cbn.
    + apply Z.eqb_eq in E. constructor; [congruence|exact Ht].
    + apply Z.eqb_neq in E. constructor; [|now apply IH].
      intros Hin. destruct (in_map_upsert _ _ _ Hin); congruence.
Qed.

Lemma session_delete_one uid us :
  unique_index us -> session uid (delete_one uid us) = None.
Proof.
  unfold unique_index. intros H. apply not_in_session_none.
  induction us as [|y t IH]; cbn; [tauto|].
  inversion H as [|? ? Hy Ht]; subst.
  destruct (user_id y =? uid) eqn:E; cbn.
  - apply Z.eqb_eq in E. congruence.
  - apply Z.eqb_neq in E. intros [?|?]; [congruence|]. now apply IH.
Qed.

Lemma session_upsert d us : session (user_id d) (upsert d us) = Some d.
Proof.
  unfold session. induction us as [|y t IH]; cbn.
  - now rewrite Z.eqb_refl.
  - destruct (user_id y =? user_id d) eqn:E; cbn.
    + now rewrite Z.eqb_refl.
    + now rewrite E.
Qed.

Lemma find_delete_one uid us :
  unique_index us -> find (matches (by_user_id uid)) (delete_one uid us) = None.
Proof. apply session_delete_one. Qed.

Lemma find_upsert d us uid :
  user_id d = uid -> find (matches (by_user_id uid)) (upsert d us) = Some d.
Proof. intros <-. apply session_upsert. Qed.

Lemma in_upsert d x us : In x (upsert d us) -> x = d \/ In x us.
Proof.
  induction us as [|y t IH]; cbn.
  - intros [?|[]]. left. congruence.
  - destruct (user_id y =? user_id d); cbn.
    + intros [?|?]; [left; congruence|tauto].
    + intros [?|?]; [tauto|]. destruct (IH H); tauto.
Qed.

Lemma not_in_delete_one uid d us :
  unique_index us -> user_id d = uid -> ~ In d (delete_one uid us).
Proof.
  intros Hu <- Hin.
  apply (session_none_not_in (user_id d) (delete_one (user_id d) us)).
  - now apply session_delete_one.
  - now apply in_map.
Qed.

End Users.

(** ** Substrings *)

Section Substrings.

Lemma contains_unfold n h :
  Py.contains n h =
  (prefix n h
   || match h with
      | EmptyString => false
      | String _ t => Py.contains n t
      end)%bool.
Proof. destruct h; reflexivity. Qed.

Lemma append_assoc' (a b c : string) :
  ((a ++ b) ++ c = a ++ b ++ c)%string.
Proof. induction a as [|x a IH]; cbn; [reflexivity|now rewrite IH]. Qed.

Lemma prefix_split n h :
  prefix n h = true -> exists b, h = (n ++ b)%string.
Proof.
  revert h. induction n as [|x n IH]; intros h; cbn.
  - intros _. now exists h.
  - destruct h as [|y h]; cbn; [discriminate|].
    destruct (ascii_dec x y) as [->|]; [|discriminate].
    intros H. destruct (IH _ H) as [b Hb]. exists b. now rewrite Hb.
Qed.

Lemma prefix_append n b : prefix n (n ++ b) = true.
Proof.
  induction n as [|x n IH]; cbn.
  - now destruct b.
  - destruct (ascii_dec x x); [exact IH|congruence].
Qed.

(** [needle in hay] holds exactly when [hay] is some text, [needle], some
    text. *)
Lemma contains_split n h :
  Py.contains n h = true <-> exists a b, h = (a ++ n ++ b)%string.
Proof.
  split.
  - induction h as [|c t IH]; rewrite contains_unfold; intros H;
      apply orb_true_iff in H; destruct H as [H|H].
    + destruct (prefix_split _ _ H) as [b Hb]. now exists EmptyString, b.
    + discriminate.
    + destruct (prefix_split _ _ H) as [b Hb]. now exists EmptyString, b.
    + destruct (IH H) as (a & b & ->). now exists (String c a), b.
  - intros (a & b & ->). induction a as [|c a IH].
    + cbn [append]. rewrite contains_unfold, prefix_append. reflexivity.
    + cbn [append]. rewrite contains_unfold. cbn [append] in IH.
      rewrite IH. apply orb_true_r.
Qed.

Lemma contains_longer p n s h :
  Py.contains (p ++ n ++ s) h = true -> Py.contains n h = true.
Proof.
  intros H. apply contains_split in H. destruct H as (a & b & ->).
  apply contains_split. exists (a ++ p)%string, (s ++ b)%string.
  now rewrite !append_assoc'.
Qed.

End Substrings.

(** ** Traces in pieces *)

Section Pieces.

Lemma after_failed_app p a b :
  after_failed p (a ++ b) =
  match after_failed p a with
  | Some t => Some (t ++ b)
  | None => after_failed p b
  end.
Proof.
  induction a as [|[c o] a IH]; cbn; [reflexivity|].
  destruct (p c && negb (is_ok o))%bool; [reflexivity|exact IH].
Qed.

Lemma delivered_app a b : delivered (a ++ b) = (delivered a || delivered b)%bool.
Proof. apply existsb_app. Qed.

Lemma calls_app p a b : calls p (a ++ b) = calls p a ++ calls p b.
Proof. apply filter_app. Qed.

Lemma created_app a b : created (a ++ b) = created a ++ created b.
Proof.
  induction a as [|[c o] a IH]; cbn; [reflexivity|].
  destruct c as [[]|]; try exact IH. destruct o; [|exact IH].
  cbn. now rewrite IH.
Qed.

End Pieces.

(** ** What each function adds to a run *)

Section Summaries.

Variable SUPPORT_GROUP_ID : Z.
Variable env : Env.

#[local] Arguments Py.str : simpl never.
#[local] Arguments Py.take : simpl never.
#[local] Arguments Py.or_str : simpl never.
#[local] Arguments Py.truthy_str : simpl never.
#[local] Arguments String.append : simpl never.
#[local] Arguments thread_not_found : simpl never.
#[local] Arguments classify : simpl never.

Ltac ask_any H :=
  match type of H with
  | context [env ?h ?c] =>
      let o := fresh "o" in
      destruct (env h c) as [o|o] eqn:?; cbn in H
  | context [find (matches ?f) ?us] =>
      let d := fresh "d" in
      destruct (find (matches f) us) as [d|] eqn:?; cbn in H
  | context [?t =? 0] =>
      destruct (t =? 0) eqn:?; cbn in H
  | context [thread_not_found ?e] =>
      destruct (thread_not_found e) eqn:?; cbn in H
  end.

Ltac finish H :=
  match type of H with
  | (_, _) = (?w, ?r) => inversion H; subst w r; clear H
  end.

Ltac segment :=
  eexists; split;
  [ cbn [trace record write_log]; repeat rewrite <- app_assoc; reflexivity
  | cbn ].

#[local] Abbreviation fatal := (after_failed is_lookup_or_delete).

Lemma send_auto_reply_adds update w w1 r :
  run env (send_auto_reply update) w = (w1, r) ->
  r = Val tt /\ users w1 = users w /\ messages w1 = messages w
  /\ exists o,
       trace w1
       = trace w ++ [(Bot (reply_text (chat_id update) None AUTO_REPLY_MESSAGE), o)].
Proof.
  intros H. unfold send_auto_reply in H. cbn in H.
  ask_any H; finish H; cbn; eauto.
Qed.

Lemma log_message_adds uid mt dir c w w1 r :
  run env (log_message uid mt dir c) w = (w1, r) ->
  r = Val tt /\ users w1 = users w
  /\ exists o,
       trace w1
       = trace w ++ [(Db (messages_insert_one (mkMessage uid mt dir c)), o)]
       /\ messages w1
          = if is_ok o then messages w ++ [mkMessage uid mt dir c]
            else messages w.
Proof.
  intros H. unfold log_message in H. cbn in H.
  ask_any H; finish H; cbn; eauto 6.
Qed.

Lemma get_or_create_topic_adds uid n h w w1 r :
  run env (get_or_create_topic SUPPORT_GROUP_ID uid n h) w = (w1, r) ->
  exists seg,
    trace w1 = trace w ++ seg
    /\ messages w1 = messages w
    /\ calls is_forward seg = []
    /\ (length (calls is_create seg) <= 1)%nat
    /\ (fatal seg = None \/ fatal seg = Some [] /\ exists e, r = Exc e)
    /\ (session uid (users w) = None -> created seg = [] ->
        users w1 = users w /\ exists e, r = Exc e).
Proof.
  intros H. unfold get_or_create_topic, get_user_topic, session in *.
  cbn in H.
  repeat ask_any H; finish H; segment; repeat split; eauto;
    intros; discriminate.
Qed.

Lemma forward_to_support_adds uid chat mid tid n h w w1 r :
  run env (forward_to_support SUPPORT_GROUP_ID uid chat mid tid n h) w
  = (w1, r) ->
  exists seg,
    trace w1 = trace w ++ seg
    /\ messages w1 = messages w
    /\ (length (calls is_forward seg) <= 2)%nat
    /\ (length (calls is_create seg) <= 1)%nat
    /\ delivered seg = match r with Val _ => true | Exc _ => false end
    /\ (fatal seg = None \/ fatal seg = Some [] /\ exists e, r = Exc e).
Proof.
  intros H. unfold forward_to_support, get_or_create_topic, get_user_topic in H.
  cbn in H.
  repeat ask_any H; finish H; segment; repeat split; eauto.
Qed.

(** The forward step of a handler, through [forward_to_support] or not. *)
Lemma forward_step_adds (repair : bool) uid chat mid tid n h w w1 r :
  run env (if repair
           then forward_to_support SUPPORT_GROUP_ID uid chat mid tid n h
           else await (forward_message SUPPORT_GROUP_ID chat mid tid)) w
  = (w1, r) ->
  exists seg,
    trace w1 = trace w ++ seg
    /\ messages w1 = messages w
    /\ (length (calls is_forward seg) <= 2)%nat
    /\ (length (calls is_create seg) <= 1)%nat
    /\ delivered seg = match r with Val _ => true | Exc _ => false end
    /\ (fatal seg = None \/ fatal seg = Some [] /\ exists e, r = Exc e).
Proof.
  destruct repair; [apply forward_to_support_adds|].
  intros H. cbn in H. ask_any H; finish H; segment; repeat split; eauto.
Qed.

(** How an inbound event ends: relayed, or given up in the [except]
    branch. *)
Lemma inbound_ends s update us ms lg w' r :
  is_private update = true ->
  run env (inbound SUPPORT_GROUP_ID s update) (mkWorld us ms lg []) = (w', r) ->
  let reply := Bot (reply_text (chat_id update) None AUTO_REPLY_MESSAGE) in
  let m := mkMessage (from_id update) (type_name s) from_user
             (content_of s update) in
  (exists oa seg oi,
     trace w' = (reply, oa) :: seg ++ [(Db (messages_insert_one m), oi)]
     /\ r = Val tt
     /\ delivered seg = true
     /\ fatal seg = None
     /\ (length (calls is_forward seg) <= 2)%nat
     /\ (length (calls is_create seg) <= 2)%nat
     /\ messages w' = (if is_ok oi then ms ++ [m] else ms)
     /\ (session (from_id update) us = None -> created seg <> []))
  \/
  (exists oa seg tail l0 line,
     trace w' = (reply, oa) :: seg ++ tail
     /\ delivered seg = false
     /\ (fatal seg = None \/ fatal seg = Some [])
     /\ (length (calls is_forward seg) <= 2)%nat
     /\ (length (calls is_create seg) <= 2)%nat
     /\ messages w' = ms
     /\ log w' = l0 ++ [mkLog ERROR line]
     /\ (tail = []
         \/ exists sorry o,
              tail = [(Bot (reply_text (chat_id update) None (literal sorry)), o)])
     /\ (session (from_id update) us = None -> created seg = [] ->
         users w' = us /\ calls is_forward seg = [])).
Proof.
  intros Hp Hrun reply m. unfold inbound in Hrun. rewrite Hp in Hrun.
  cbn [negb] in Hrun. cbv zeta in Hrun. rewrite run_try in Hrun.
  destruct (run env _ _) as [wb rb] eqn:Hb in Hrun.
  rewrite run_bind in Hb.
  destruct (run env (send_auto_reply update) _) as [wa ra] eqn:Ha in Hb.
  apply send_auto_reply_adds in Ha as (-> & Hua & Hma & oa & Hta).
  cbn [trace messages users app] in Hta, Hma, Hua.
  rewrite run_bind in Hb.
  destruct (run env (get_or_create_topic _ _ _ _) _) as [wg rg] eqn:Hg in Hb.
  apply get_or_create_topic_adds in Hg
    as (sg & Htg & Hmg & Hfg & Hcg & Hxg & Hng).
  rewrite Hua in Hng.
  assert (Hdg : delivered sg = false).
  { clear - Hfg. induction sg as [|[c o] t IH]; [reflexivity|].
    cbn in *. destruct (is_forward c); [discriminate|]. now apply IH. }
  destruct rg as [tid|eg].
  - rewrite run_bind in Hb.
    destruct (run env (if repairs s then _ else _) _) as [wf rf] eqn:Hf in Hb.
    apply forward_step_adds in Hf
      as (sf & Htf & Hmf & Hff & Hcf & Hdf & Hxf).
    destruct rf as [v|ef].
    + rewrite run_bind in Hb.
      destruct (run env (log_message _ _ _ _) _) as [wl rl] eqn:Hl in Hb.
      apply log_message_adds in Hl as (-> & _ & oi & Htl & Hml).
      cbn in Hb. finish Hb. finish Hrun. left.
      exists oa, (sg ++ sf), oi. cbn [trace messages write_log].
      rewrite Htl, Htf, Htg, Hta, Hml, Hmf, Hmg, Hma.
      rewrite delivered_app, after_failed_app, !calls_app, !length_app, Hfg.
      rewrite Hdf, Hdg. cbn [app length orb].
      destruct Hxg as [Hxg|[_ [? ?]]]; [|discriminate].
      destruct Hxf as [Hxf|[_ [? ?]]]; [|discriminate].
      rewrite Hxg, Hxf, <- !app_assoc. repeat split; try reflexivity;
        try lia.
      intros Hno Hcr. rewrite created_app in Hcr.
      apply app_eq_nil in Hcr as [Hcr _].
      destruct (Hng Hno Hcr) as [_ [? ?]]. discriminate.
    + finish Hb. right.
      assert (Hseg : trace wf = (reply, oa) :: (sg ++ sf))
        by (rewrite Htf, Htg, Hta, <- app_assoc; reflexivity).
      assert (Hmsg : messages wf = ms) by congruence.
      assert (Hfat : fatal (sg ++ sf) = None \/ fatal (sg ++ sf) = Some []).
      { rewrite after_failed_app.
        destruct Hxg as [->|[_ [? ?]]]; [|discriminate].
        destruct Hxf as [->|[-> _]]; auto. }
      assert (Hdel : delivered (sg ++ sf) = false)
        by (rewrite delivered_app, Hdg, Hdf; reflexivity).
      assert (Hfw : (length (calls is_forward (sg ++ sf)) <= 2)%nat)
        by (rewrite calls_app, length_app, Hfg; cbn; lia).
      assert (Hcr : (length (calls is_create (sg ++ sf)) <= 2)%nat)
        by (rewrite calls_app, length_app; lia).
      assert (Hnew : session (from_id update) us = None ->
                     created (sg ++ sf) = [] -> False).
      { intros Hno Hc0. rewrite created_app in Hc0.
        apply app_eq_nil in Hc0 as [Hc0 _].
        destruct (Hng Hno Hc0) as [_ [? ?]]. discriminate. }
      cbn in Hrun. destruct (apology s) as [sorry|]; cbn in Hrun.
      * ask_any Hrun; finish Hrun; cbn [trace messages log write_log record];
          rewrite Hseg;
          exists oa, (sg ++ sf), [(Bot (reply_text (chat_id update) None
                                          (literal sorry)),
                                   env (trace wf)
                                     (Bot (reply_text (chat_id update) None
                                             (literal sorry))))];
          eexists; eexists; rewrite Hseg in *;
          match goal with H : env _ _ = _ |- _ => rewrite H end;
          repeat split; eauto; intros; exfalso; eauto.
      * finish Hrun. cbn [trace messages log write_log record].
        exists oa, (sg ++ sf), []. eexists; eexists.
        rewrite Hseg, app_nil_r. repeat split; eauto;
          intros; exfalso; eauto.
  - finish Hb. right.
    assert (Hseg : trace wg = (reply, oa) :: sg)
      by (rewrite Htg, Hta; reflexivity).
    assert (Hmsg : messages wg = ms) by congruence.
    assert (Hfat : fatal sg = None \/ fatal sg = Some [])
      by (destruct Hxg as [->|[-> _]]; auto).
    assert (Hfw : (length (calls is_forward sg) <= 2)%nat)
      by (rewrite Hfg; cbn; lia).
    assert (Hcr : (length (calls is_create sg) <= 2)%nat) by lia.
    assert (Hnew : session (from_id update) us = None -> created sg = [] ->
                   users wg = us /\ calls is_forward sg = []).
    { intros Hno Hc0. destruct (Hng Hno Hc0) as [Hu' _]. split; congruence. }
    cbn in Hrun. destruct (apology s) as [sorry|]; cbn in Hrun.
    + ask_any Hrun; finish Hrun; cbn [trace messages log write_log record];
        rewrite Hseg;
        exists oa, sg, [(Bot (reply_text (chat_id update) None
                                (literal sorry)),
                         env (trace wg)
                           (Bot (reply_text (chat_id update) None
                                   (literal sorry))))];
        eexists; eexists; rewrite Hseg in *;
        match goal with H : env _ _ = _ |- _ => rewrite H end;
        repeat split; eauto; intros; cbn [users]; apply Hnew; assumption.
    + finish Hrun. cbn [trace messages log write_log record users].
      exists oa, sg, []. eexists; eexists.
      rewrite Hseg, app_nil_r. repeat split; eauto;
        intros; apply Hnew; assumption.
Qed.

End Summaries.

(** ** The topic registry *)

Section Registry.

Variable SUPPORT_GROUP_ID : Z.
Variable env : Env.

#[local] Arguments Py.str : simpl never.
#[local] Arguments Py.take : simpl never.
#[local] Arguments Py.truthy_str : simpl never.
#[local] Arguments String.append : simpl never.

(** *** The unique index under any order of turns *)

Lemma db_exec_unique c w :
  unique_index (users w) -> unique_index (users (fst (db_exec c w))).
Proof.
  destruct c; cbn; auto using unique_upsert, unique_delete_one.
Qed.

Lemma advance_unique A (p : Prog A) w :
  unique_index (users w) -> unique_index (users (fst (advance env p w))).
Proof.
  revert w. induction p as [a|e|c k IH|c k IH|r k IH]; intros w Hu; cbn;
    try exact Hu.
  - destruct (env (trace w) (Db c)).
    + pose proof (db_exec_unique c w Hu) as Hu'.
      destruct (db_exec c w) as [w1 d]. apply IH. exact Hu'.
    + apply IH. exact Hu.
  - apply IH. exact Hu.
Qed.

Lemma resume_unique A (p : Prog A) w :
  unique_index (users w) -> unique_index (users (fst (resume env p w))).
Proof.
  destruct p as [a|e|c k|c k|r k]; intros Hu; apply advance_unique;
    exact Hu.
Qed.

Lemma resume_nth_unique A i (tasks : list (Prog A)) w :
  unique_index (users w) ->
  unique_index (users (fst (resume_nth env i tasks w))).
Proof.
  revert i. induction tasks as [|p t IH]; intros i Hu; [destruct i; exact Hu|].
  destruct i as [|i]; cbn.
  - pose proof (resume_unique p w Hu) as H.
    destruct (resume env p w). exact H.
  - specialize (IH i Hu). destruct (resume_nth env i t w). exact IH.
Qed.

Lemma schedule_unique A order (tasks : list (Prog A)) w :
  unique_index (users w) ->
  unique_index (users (fst (schedule env order tasks w))).
Proof.
  revert tasks w. induction order as [|i rest IH]; intros tasks w Hu; cbn;
    [exact Hu|].
  pose proof (resume_nth_unique i tasks w Hu) as H.
  destruct (resume_nth env i tasks w) as [w1 tasks1]. apply IH. exact H.
Qed.

(** *** Calls one after the other *)

Ltac ask H :=
  match type of H with
  | context [env ?h (Db ?c)] =>
      match goal with
      | Hs : store_available env |- _ =>
          let v := fresh "v" in
          let E := fresh "E" in
          destruct (Hs h c) as [v E]; rewrite E in H; clear E; cbn in H
      end
  | context [find (matches ?f) ?us] =>
      let d := fresh "d" in
      destruct (find (matches f) us) as [d|] eqn:?; cbn in H
  | context [?t =? 0] =>
      destruct (t =? 0) eqn:?; cbn in H
  | context [env ?h (Bot ?c)] =>
      let o := fresh "o" in
      destruct (env h (Bot c)) as [o|o] eqn:?; cbn in H
  end.

Lemma fast_path_run uid n h w d v :
  session uid (users w) = Some d ->
  topic_id d <> 0 ->
  env (trace w) (Db (users_find_one (by_user_id uid))) = Ok v ->
  run env (get_or_create_topic SUPPORT_GROUP_ID uid n h) w
  = (record (Db (users_find_one (by_user_id uid))) (Ok v) w, Val (topic_id d)).
Proof.
  intros Hs Ht Hv. unfold session in Hs.
  unfold get_or_create_topic, get_user_topic. cbn. rewrite Hv. cbn.
  rewrite Hs. cbn.
  destruct (topic_id d =? 0) eqn:E; [apply Z.eqb_eq in E; contradiction|].
  reflexivity.
Qed.

(** C9.  Fast path: with a session of the correspondent in the store whose
    topic id is not null (for the code's test [not topic_id]: neither [None]
    nor [0]), [get_or_create_topic] returns that topic id, and all it does is
    the one lookup: no call to the gateway, no write to the store, nothing
    changed in either collection. *)
Theorem get_or_create_topic_fast_path
    (user_id' : Z) (user_name' username' : string) (w : World)
    (d : UserDoc) (v : Z) :
  session user_id' (users w) = Some d ->
  topic_id d <> 0 ->
  env (trace w) (Db (users_find_one (by_user_id user_id'))) = Ok v ->
  let end_ :=
    run env
      (get_or_create_topic SUPPORT_GROUP_ID user_id' user_name' username') w in
  snd end_ = Val (topic_id d)
  /\ trace (fst end_)
     = trace w ++ [(Db (users_find_one (by_user_id user_id')), Ok v)]
  /\ calls is_bot (trace (fst end_)) = calls is_bot (trace w)
  /\ calls is_write (trace (fst end_)) = calls is_write (trace w)
  /\ users (fst end_) = users w
  /\ messages (fst end_) = messages w.
Proof.
  intros Hs Ht Hv end_. subst end_.
  rewrite (@fast_path_run user_id' user_name' username' w d v Hs Ht Hv).
  cbn [fst snd trace record users messages]. unfold calls.
  rewrite !filter_app. cbn. rewrite !app_nil_r. repeat split.
Qed.

(** C6.  With no session of the correspondent in the store, a failing
    [create_forum_topic] makes [get_or_create_topic] raise that error to its
    caller; the run made the lookup and the failed call and logged the error,
    and [db.users] and [db.messages] are as they were. *)
Theorem get_or_create_topic_creation_fails
    (user_id' : Z) (user_name' username' : string) (w : World)
    (v : Z) (e : string) :
  session user_id' (users w) = None ->
  env (trace w) (Db (users_find_one (by_user_id user_id'))) = Ok v ->
  env (trace w ++ [(Db (users_find_one (by_user_id user_id')), Ok v)])
      (Bot (create_forum_topic SUPPORT_GROUP_ID
              ("👤 " ++ Py.take 20 user_name')%string)) = Raise e ->
  run env (get_or_create_topic SUPPORT_GROUP_ID user_id' user_name' username') w
  = (mkWorld (users w) (messages w)
       (log w ++ [mkLog ERROR ("Error creating topic: " ++ e)%string])
       (trace w
        ++ [(Db (users_find_one (by_user_id user_id')), Ok v)]
        ++ [(Bot (create_forum_topic SUPPORT_GROUP_ID
                    ("👤 " ++ Py.take 20 user_name')%string), Raise e)]),
     Exc e).
Proof.
  intros Hs Hv He. unfold session in Hs.
  unfold get_or_create_topic, get_user_topic. cbn. rewrite Hv. cbn.
  rewrite Hs. cbn. cbn in He. rewrite He. cbn.
  unfold write_log, record. cbn. rewrite <- app_assoc. reflexivity.
Qed.

(** A call that returns has left the correspondent bound to what it
    returned, and created at most one topic on the way. *)
Lemma returned_topic_is_bound uid n h w w1 t :
  store_available env ->
  run env (get_or_create_topic SUPPORT_GROUP_ID uid n h) w = (w1, Val t) ->
  (exists d, session uid (users w1) = Some d /\ topic_id d = t)
  /\ (length (created (trace w1)) <= length (created (trace w)) + 1)%nat.
Proof.
  intros Hs H. unfold get_or_create_topic, get_user_topic in H. cbn in H.
  repeat ask H; inversion H; subst; clear H;
    cbn [users trace write_log record]; split;
    try (rewrite !created_app, !length_app; cbn; lia).
  - eexists. split; [apply (session_upsert (mkUser uid t n h))|reflexivity].
  - eauto.
  - eexists. split; [apply (session_upsert (mkUser uid t n h))|reflexivity].
Qed.

Lemma repeated_fast_path uid n h count : forall w w' rs d,
  store_available env ->
  session uid (users w) = Some d ->
  topic_id d <> 0 ->
  run_all env (repeat (get_or_create_topic SUPPORT_GROUP_ID uid n h) count) w
  = (w', rs) ->
  rs = repeat (Val (topic_id d)) count
  /\ created (trace w') = created (trace w)
  /\ users w' = users w.
Proof.
  induction count as [|count IH]; intros w w' rs d Hs Hd Ht H;
    cbn [repeat run_all] in H.
  - inversion H; subst. auto.
  - destruct (Hs (trace w) (users_find_one (by_user_id uid))) as [v E].
    rewrite (@fast_path_run uid n h w d v Hd Ht E) in H.
    destruct (run_all env _ _) as [w2 rs2] eqn:H2 in H.
    inversion H; subst; clear H.
    apply (IH _ _ _ d) in H2; auto.
    destruct H2 as (-> & Hc & Hu). cbn in Hc, Hu.
    rewrite created_app in Hc. cbn in Hc. rewrite app_nil_r in Hc.
    auto.
Qed.

(** C5, as the code has it.  Calls of [get_or_create_topic] for one
    correspondent that run one after the other share one topic: when the
    first returns a topic id (not [0]), every later call returns that id, and
    all the calls together created at most one topic.  Under any order of
    turns of any coroutines the unique index of [db.users] holds.  The store
    is taken to answer its calls. *)
Theorem calls_in_turn_share_one_topic (uid : Z) (n h : string) (count : nat)
    (w w' : World) (rs : list (Result Z)) (t : Z) :
  store_available env ->
  run_all env
    (repeat (get_or_create_topic SUPPORT_GROUP_ID uid n h) (S count)) w
  = (w', rs) ->
  hd_error rs = Some (Val t) ->
  t <> 0 ->
  rs = repeat (Val t) (S count)
  /\ (length (created (trace w')) <= length (created (trace w)) + 1)%nat
  /\ (forall order (tasks : list (Prog Z)) w0,
        unique_index (users w0) ->
        unique_index (users (fst (schedule env order tasks w0)))).
Proof.
  intros Hs H Hhd Ht. cbn [repeat run_all] in H.
  destruct (run env _ w) as [w1 r1] eqn:E1 in H.
  destruct (run_all env _ w1) as [w2 rs2] eqn:E2 in H.
  inversion H; subst; clear H. cbn in Hhd. inversion Hhd; subst; clear Hhd.
  destruct (@returned_topic_is_bound uid n h w w1 t Hs E1)
    as [(d & Hd & <-) Hlen].
  destruct (@repeated_fast_path uid n h count w1 w' rs2 d Hs Hd Ht E2)
    as (-> & Hc & _).
  repeat split.
  - rewrite Hc. exact Hlen.
  - intros order tasks w0. apply schedule_unique.
Qed.

End Registry.

(** ** Inbound events *)

Section Inbound.

Variable SUPPORT_GROUP_ID : Z.
Variable env : Env.

#[local] Arguments Py.str : simpl never.
#[local] Arguments Py.take : simpl never.
#[local] Arguments Py.or_str : simpl never.
#[local] Arguments Py.truthy_str : simpl never.
#[local] Arguments String.append : simpl never.
#[local] Arguments thread_not_found : simpl never.

Lemma inbound_handler_shape k update :
  inbound_handler SUPPORT_GROUP_ID k update
  = inbound SUPPORT_GROUP_ID (shape k) update.
Proof. destruct k; reflexivity. Qed.

Lemma delivered_tail seg tail (chat : Z) :
  (tail = []
   \/ exists sorry o,
        tail = [(Bot (reply_text chat None (literal sorry)), o)]) ->
  delivered (seg ++ tail) = delivered seg
  /\ after_failed is_lookup_or_delete tail = None
  /\ calls is_forward (seg ++ tail) = calls is_forward seg
  /\ calls is_create (seg ++ tail) = calls is_create seg
  /\ created (seg ++ tail) = created seg.
Proof.
  rewrite delivered_app, !calls_app, created_app.
  intros [->|(sorry & o & ->)]; cbn; rewrite ?orb_false_r, ?app_nil_r; auto.
Qed.

(** C10.  Outside a private chat every inbound handler returns at once and
    leaves everything as it was: nothing sent, nothing read from or written
    to the store, nothing logged. *)
Theorem inbound_private_chat_guard (k : Kind) (update : Update) (w : World) :
  chat_type update <> private ->
  run env (inbound_handler SUPPORT_GROUP_ID k update) w = (w, Val tt).
Proof.
  intros H.
  assert (E : is_private update = false)
    by (unfold is_private; destruct (chat_type update); try reflexivity;
        contradiction).
  destruct k; cbn [inbound_handler];
    unfold handle_text_message, handle_photo, handle_video, handle_document,
      handle_voice, handle_audio, handle_sticker, handle_video_note;
    rewrite E; reflexivity.
Qed.

(** X9.  Within one inbound event at most two forwards are attempted and at
    most two topics are asked for: the first try and one repair. *)
Lemma bounded_repair k update us ms lg w' r :
  is_private update = true ->
  run env (inbound_handler SUPPORT_GROUP_ID k update) (mkWorld us ms lg [])
  = (w', r) ->
  (length (calls is_forward (trace w')) <= 2)%nat
  /\ (length (calls is_create (trace w')) <= 2)%nat.
Proof.
  intros Hp Hrun. rewrite inbound_handler_shape in Hrun.
  destruct (inbound_ends _ _ _ _ _ _ _ Hp Hrun)
    as [(oa & seg & oi & -> & _ & _ & _ & Hf & Hc & _)
       |(oa & seg & tail & l0 & line & -> & _ & _ & Hf & Hc & _ & _ & Ht & _)].
  - unfold calls in *. cbn. rewrite !filter_app, !length_app. cbn. lia.
  - destruct (@delivered_tail seg _ _ Ht) as (_ & _ & Hf' & Hc' & _).
    unfold calls in *. cbn. rewrite Hf', Hc'. auto.
Qed.

(** X10.  An inbound event appends to [db.messages] only when a forward went
    through, and then at most the one record of this message. *)
Lemma inbound_event_logged_only_when_delivered k update us ms lg w' r :
  is_private update = true ->
  run env (inbound_handler SUPPORT_GROUP_ID k update) (mkWorld us ms lg [])
  = (w', r) ->
  messages w' = ms
  \/ delivered (trace w') = true
     /\ messages w'
        = ms ++ [mkMessage (from_id update) (type_name (shape k)) from_user
                   (content_of (shape k) update)].
Proof.
  intros Hp Hrun. rewrite inbound_handler_shape in Hrun.
  destruct (inbound_ends _ _ _ _ _ _ _ Hp Hrun)
    as [(oa & seg & oi & -> & _ & Hd & _ & _ & _ & -> & _)
       |(oa & seg & tail & l0 & line & _ & _ & _ & _ & _ & -> & _)].
  - destruct oi; cbn [is_ok]; auto. right. split; [|reflexivity].
    unfold delivered in *. cbn. rewrite existsb_app, Hd. reflexivity.
  - auto.
Qed.

(** X11.  When a correspondent has no session and the gateway creates no
    topic, the inbound event forwards nothing and leaves both collections as
    they were. *)
Lemma creation_failure_fails_relay k update us ms lg w' r :
  is_private update = true ->
  run env (inbound_handler SUPPORT_GROUP_ID k update) (mkWorld us ms lg [])
  = (w', r) ->
  session (from_id update) us = None ->
  created (trace w') = [] ->
  users w' = us /\ messages w' = ms /\ calls is_forward (trace w') = [].
Proof.
  intros Hp Hrun Hno Hc. rewrite inbound_handler_shape in Hrun.
  destruct (inbound_ends _ _ _ _ _ _ _ Hp Hrun)
    as [(oa & seg & oi & Ht & _ & _ & _ & _ & _ & _ & Hnew)
       |(oa & seg & tail & l0 & line & Ht & _ & _ & _ & _ & Hm & _ & Htl
         & Hnew)];
    rewrite Ht in Hc |- *; cbn in Hc.
  - exfalso. rewrite created_app in Hc. apply app_eq_nil in Hc as [Hc _].
    now apply Hnew.
  - destruct (@delivered_tail seg _ _ Htl)
      as (_ & _ & Hf & _ & Hcr).
    rewrite Hcr in Hc. destruct (Hnew Hno Hc) as [Hu Hfw].
    unfold calls in *. cbn. rewrite Hf. auto.
Qed.

(** C7, as the code has it.  In an inbound event a failed lookup or delete
    on [db.users] ends the relay: no forward went through, no event is
    appended, the last log record is an error, and the only call after the
    failure, if any, is the apology to the correspondent.  A failed upsert
    or event append is caught where it happens: [save_user_topic] and
    [log_message] log the error and return normally, [save_user_topic] with
    [False]. *)
Theorem store_failure_handling (k : Kind) (update : Update)
    (us : list UserDoc) (ms : list MessageDoc) (lg : list LogRecord)
    (w' : World) (r : Result unit) :
  is_private update = true ->
  run env (inbound_handler SUPPORT_GROUP_ID k update) (mkWorld us ms lg [])
  = (w', r) ->
  (forall post,
     after_failed is_lookup_or_delete (trace w') = Some post ->
     delivered (trace w') = false
     /\ messages w' = ms
     /\ (exists l0 line, log w' = l0 ++ [mkLog ERROR line])
     /\ (post = []
         \/ exists sorry o,
              post = [(Bot (reply_text (chat_id update) None (literal sorry)),
                       o)]))
  /\ (forall uid tid n h w,
        let end_ := run env (save_user_topic uid tid n h) w in
        snd end_ = Val true
        \/ (snd end_ = Val false
            /\ users (fst end_) = users w
            /\ exists e,
                 log (fst end_)
                 = log w ++ [mkLog ERROR
                               ("Error saving user topic: " ++ e)%string]))
  /\ (forall uid mt dir c w,
        let end_ := run env (log_message uid mt dir c) w in
        snd end_ = Val tt
        /\ (messages (fst end_) = messages w ++ [mkMessage uid mt dir c]
            \/ (messages (fst end_) = messages w
                /\ exists e,
                     log (fst end_)
                     = log w ++ [mkLog ERROR
                                   ("Error logging message: " ++ e)%string]))).
Proof.
  intros Hp Hrun. rewrite inbound_handler_shape in Hrun.
  split; [|split].
  - intros post H.
    destruct (inbound_ends _ _ _ _ _ _ _ Hp Hrun)
      as [(oa & seg & oi & Ht & _ & _ & Hf & _)
         |(oa & seg & tail & l0 & line & Ht & Hd & Hf & _ & _ & Hm & Hl & Htl
           & _)];
      rewrite Ht in H |- *; cbn in H; rewrite after_failed_app in H.
    + rewrite Hf in H. discriminate.
    + destruct (@delivered_tail seg _ _ Htl) as (Hd' & Hq & _).
      repeat split.
      * unfold delivered in *. cbn. rewrite Hd'. exact Hd.
      * exact Hm.
      * eauto.
      * destruct Hf as [Hf|Hf]; rewrite Hf in H.
        -- rewrite Hq in H. discriminate.
        -- inversion H; subst. exact Htl.
  - intros uid tid n h w. unfold save_user_topic. cbn.
    destruct (env (trace w) (Db _)); cbn; eauto.
  - intros uid mt dir c w. unfold log_message. cbn.
    destruct (env (trace w) (Db _)); cbn; eauto 6.
Qed.

(** One step of a run kept in hypothesis [H], with the session of the
    correspondent known. *)
Ltac ask_in H :=
  match type of H with
  | context [find (matches (by_user_id ?u)) (delete_one ?u ?us)] =>
      rewrite (@find_delete_one u us) in H by assumption; cbn in H
  | context [find (matches ?f) ?us] =>
      match goal with
      | Hd : find (matches f) us = _ |- _ => rewrite Hd in H; cbn in H
      end
  | context [?t =? 0] =>
      match goal with
      | Hn : t <> 0 |- _ =>
          rewrite (proj2 (Z.eqb_neq t 0) Hn) in H; cbn in H
      end
  | context [env ?h ?c] =>
      let o := fresh "o" in
      destruct (env h c) as [o|o] eqn:?; cbn in H
  | context [thread_not_found ?e] =>
      destruct (thread_not_found e) eqn:?; cbn in H
  end.

Ltac finish H :=
  match type of H with
  | (_, _) = (?w, ?r) => inversion H; subst w r; clear H
  end.

Ltac no_such_event :=
  repeat match goal with
  | H : _ \/ _ |- _ => destruct H as [H|H]
  | H : False |- _ => destruct H
  | H : (_, _) = (_, _) |- _ =>
      first [discriminate H | inversion H; clear H; subst]
  end.

(** The repair, for a handler of any shape.  That the error was
    thread-not-found need not be assumed: no other failed forward is followed
    by a delivery.  Nor is anything assumed of the upsert of the new session,
    which [save_user_topic] guards: the event goes on either way. *)
Lemma self_healing_inbound (s : Shape) (update : Update)
    (us : list UserDoc) (ms : list MessageDoc) (lg : list LogRecord)
    (d : UserDoc) (e : string) (w' : World) (r : Result unit) :
  is_private update = true ->
  unique_index us ->
  session (from_id update) us = Some d ->
  topic_id d <> 0 ->
  run env (inbound SUPPORT_GROUP_ID s update) (mkWorld us ms lg []) = (w', r) ->
  In (Bot (forward_message SUPPORT_GROUP_ID (chat_id update)
             (message_id (message update)) (topic_id d)), Raise e)
     (trace w') ->
  delivered (trace w') = true ->
  exists C' : Z,
    r = Val tt
    /\ created (trace w') = [C']
    /\ (exists v, In (Db (users_delete_one (from_id update)), Ok v) (trace w'))
    /\ (exists v,
          In (Bot (forward_message SUPPORT_GROUP_ID (chat_id update)
                     (message_id (message update)) C'), Ok v) (trace w'))
    /\ (C' <> topic_id d -> ~ In d (users w'))
    /\ (all_ok is_upsert (trace w') = true ->
        exists d',
          session (from_id update) (users w') = Some d' /\ topic_id d' = C')
    /\ (all_ok is_upsert (trace w') = false ->
        session (from_id update) (users w') = None).
Proof.
  intros Hp Hu Hd Hn Hrun Hin Hdel.
  pose proof (session_some _ _ Hd) as [_ Hx].
  pose proof (@session_delete_one (from_id update) us Hu) as Hgone.
  unfold session in Hd, Hgone. unfold inbound in Hrun. rewrite Hp in Hrun.
  destruct (repairs s); destruct (apology s); cbn in Hrun;
    repeat ask_in Hrun; finish Hrun; cbn in Hin, Hdel;
    try discriminate Hdel.
  all: try (exfalso; no_such_event; fail).
  all: cbn [users trace write_log record] in *.
  all: match goal with
       | H : env _ (Bot (create_forum_topic _ _)) = Ok ?c |- _ => exists c
       end.
  all: split; [reflexivity|].
  all: split; [reflexivity|].
  all: split; [eexists; cbn; eauto 20; fail|].
  all: split; [eexists; cbn; eauto 20; fail|].
  all: split;
    [intros Hne Hd';
     first
       [ apply in_upsert in Hd'; destruct Hd' as [Hd'|Hd'];
         [ subst d; cbn in Hne; now apply Hne
         | revert Hd'; eapply not_in_delete_one; eassumption ]
       | revert Hd'; eapply not_in_delete_one; eassumption ]
    |].
  all: split; intros Hups; cbn in Hups;
    first
      [ discriminate Hups
      | exact Hgone
      | eexists; split; [unfold session; apply find_upsert|]; reflexivity ].
Qed.

(** C1, as the code has it.  An inbound event of correspondent [X] finds the
    session [d] of [X], bound to topic [C]; the forward into [C] fails with a
    thread-not-found error; the event still delivers the message.  Then the
    handler returns normally, the old session was deleted, the gateway
    created exactly one topic [C'] in this event, and the message was
    forwarded into [C'].  Whether [X] is bound to [C'] afterwards is up to
    the store: [save_user_topic] catches a rejected upsert and the event
    goes on, so [X] is bound to [C'] when the upsert was accepted and has no
    session at all when it was not.  [C'] is the id the gateway returned;
    nothing compares it with [C], and the old row is gone as soon as the two
    differ.  [db.users] is taken to respect its unique index. *)
Theorem self_healing (k : Kind) (update : Update)
    (us : list UserDoc) (ms : list MessageDoc) (lg : list LogRecord)
    (d : UserDoc) (e : string) (w' : World) (r : Result unit) :
  let X := from_id update in
  let C := topic_id d in
  is_private update = true ->
  unique_index us ->
  session X us = Some d ->
  C <> 0 ->
  run env (inbound_handler SUPPORT_GROUP_ID k update) (mkWorld us ms lg [])
  = (w', r) ->
  In (Bot (forward_message SUPPORT_GROUP_ID (chat_id update)
             (message_id (message update)) C), Raise e) (trace w') ->
  thread_not_found e = true ->
  delivered (trace w') = true ->
  exists C' : Z,
    r = Val tt
    /\ created (trace w') = [C']
    /\ (exists v, In (Db (users_delete_one X), Ok v) (trace w'))
    /\ (exists v,
          In (Bot (forward_message SUPPORT_GROUP_ID (chat_id update)
                     (message_id (message update)) C'), Ok v) (trace w'))
    /\ (C' <> C -> ~ In d (users w'))
    /\ (all_ok is_upsert (trace w') = true ->
        exists d', session X (users w') = Some d' /\ topic_id d' = C')
    /\ (all_ok is_upsert (trace w') = false ->
        session X (users w') = None).
Proof.
  intros X C Hp Hu Hd Hn Hrun Hin _ Hdel. subst X C.
  rewrite inbound_handler_shape in Hrun.
  eapply self_healing_inbound; eassumption.
Qed.

End Inbound.

Section Reply.

Variable SUPPORT_GROUP_ID : Z.
Variable env : Env.

#[local] Arguments Py.str : simpl never.
#[local] Arguments Py.take : simpl never.
#[local] Arguments Py.or_str : simpl never.
#[local] Arguments Py.truthy_str : simpl never.
#[local] Arguments String.append : simpl never.
#[local] Arguments classify : simpl never.

Ltac finish H :=
  match type of H with
  | (_, _) = (?w, ?r) => inversion H; subst w r; clear H
  end.

Ltac no_such_event :=
  repeat match goal with
  | H : _ \/ _ |- _ => destruct H as [H|H]
  | H : False |- _ => destruct H
  | H : (_, _) = (_, _) |- _ =>
      first [discriminate H | inversion H; clear H; subst]
  end.

(** One step of [handle_reply] kept in hypothesis [H]. *)
Ltac reply_step H :=
  match type of H with
  | context [env ?h ?c] =>
      let o := fresh "o" in
      destruct (env h c) as [o|o] eqn:?; cbn in H
  | context [find (matches ?f) ?us] =>
      match goal with
      | Hd : find (matches f) us = _ |- _ => rewrite Hd in H; cbn in H
      end
  | context [Py.truthy_str ?x] =>
      destruct (Py.truthy_str x) eqn:?; cbn in H
  | context [classify ?u ?e] =>
      let n := fresh "n" in
      let l := fresh "l" in
      destruct (classify u e) as [n l] eqn:?; cbn in H
  | context [match photo ?m with _ => _ end] =>
      destruct (photo m) eqn:?; cbn in H
  | context [match video ?m with _ => _ end] =>
      destruct (video m) eqn:?; cbn in H
  | context [match document ?m with _ => _ end] =>
      destruct (document m) eqn:?; cbn in H
  | context [match voice ?m with _ => _ end] =>
      destruct (voice m) eqn:?; cbn in H
  | context [match audio ?m with _ => _ end] =>
      destruct (audio m) eqn:?; cbn in H
  | context [match sticker ?m with _ => _ end] =>
      destruct (sticker m) eqn:?; cbn in H
  | context [match video_note ?m with _ => _ end] =>
      destruct (video_note m) eqn:?; cbn in H
  end.

(** C8.  A staff reply in topic [t], bound to the session [user], whose send
    to the correspondent fails with [e]: the handler returns normally, that
    send is the only one it attempted, and the last thing it did was to post
    the notice of [classify] into topic [t]; when that post fails too, the
    failure is logged and nothing more.  Neither collection changed. *)
Theorem outbound_failure_absorbed (update : Update)
    (us : list UserDoc) (ms : list MessageDoc) (lg : list LogRecord)
    (t : Z) (user : UserDoc) (c : Call) (e : string)
    (w' : World) (r : Result unit) :
  chat_id update = SUPPORT_GROUP_ID ->
  message_thread_id (message update) = Some t ->
  t <> 0 ->
  find (matches (by_topic_id t)) us = Some user ->
  run env (handle_reply SUPPORT_GROUP_ID update) (mkWorld us ms lg []) = (w', r) ->
  is_send c = true ->
  In (c, Raise e) (trace w') ->
  r = Val tt
  /\ calls is_send (trace w') = [(c, Raise e)]
  /\ (exists o,
        last (trace w') (c, Raise e)
        = (Bot (reply_text SUPPORT_GROUP_ID (Some t)
                  (error_details (fst (classify user e)))), o)
        /\ forall e',
             o = Raise e' ->
             exists l0,
               log w'
               = l0 ++ [mkLog ERROR
                          ("Failed to send error notification: " ++ e')%string])
  /\ users w' = us
  /\ messages w' = ms.
Proof.
  intros Hc Ht Hn Hu Hrun Hs Hin.
  unfold handle_reply in Hrun. rewrite Hc, Z.eqb_refl, Ht in Hrun.
  cbn in Hrun. rewrite (proj2 (Z.eqb_neq t 0) Hn) in Hrun. cbn in Hrun.
  unfold send_reply in Hrun.
  repeat reply_step Hrun; finish Hrun; cbn in Hin; no_such_event;
    try discriminate Hs.
  all: cbn; rewrite ?Hc;
    match goal with H : classify _ _ = _ |- _ => rewrite H end;
    repeat split; eauto.
  all: eexists; split; [reflexivity|];
    intros e' He'; inversion He'; subst; eexists; reflexivity.
Qed.

Ltac reply_any H :=
  match type of H with
  | context [chat_id ?u =? ?g] =>
      destruct (chat_id u =? g) eqn:?; cbn in H
  | context [Py.truthy_int ?x] =>
      destruct (Py.truthy_int x) eqn:?; cbn in H
  | context [find (matches ?f) ?us] =>
      let d := fresh "d" in
      destruct (find (matches f) us) as [d|] eqn:?; cbn in H
  | _ => reply_step H
  end.

(** X12.  [handle_reply] appends at most one event, in direction [to_user],
    and only after a send that went through, or for a message that carries
    none of the eight media. *)
Lemma outbound_event_accounting (update : Update)
    (us : list UserDoc) (ms : list MessageDoc) (lg : list LogRecord)
    (w' : World) (r : Result unit) :
  run env (handle_reply SUPPORT_GROUP_ID update) (mkWorld us ms lg []) = (w', r) ->
  messages w' = ms
  \/ (exists m,
        messages w' = ms ++ [m]
        /\ direction m = to_user
        /\ (sent (trace w') = true \/ has_media (message update) = false)).
Proof.
  intros Hrun. unfold handle_reply, send_reply in Hrun.
  repeat reply_any Hrun; finish Hrun; cbn [messages write_log record];
    auto; right; eexists; repeat split; cbn; auto.
  right. unfold has_media.
  repeat match goal with H : _ = _ |- _ => rewrite H end. reflexivity.
Qed.

End Reply.

(** ** The delivery classifier *)

Section Classifier.

(** C3, as the code has it.  The notice is chosen by the first keyword found
    in the lower-cased error message, in this order: "blocked"; "chat not
    found" or "user not found"; "bot can't initiate conversation";
    "forbidden".  A message with none of them gets the [Unknown] notice,
    which carries the error text as raised. *)
Theorem classify_first_match (user : UserDoc) (e : string) :
  fst (classify user e) =
  let m := Py.lower e in
  if Py.contains "blocked" m then
    RecipientBlocked (user_id user) (user_name user) (username user)
  else if (Py.contains "chat not found" m
           || Py.contains "user not found" m)%bool then
    RecipientAccountMissing (user_id user)
  else if Py.contains "bot can't initiate conversation" m then
    CannotInitiateConversation (user_id user)
  else if Py.contains "forbidden" m then Forbidden (user_id user)
  else Unknown (user_id user) e.
Proof.
  unfold classify. cbv zeta.
  destruct (Py.contains "blocked" (Py.lower e)) eqn:B.
  - reflexivity.
  - destruct (Py.contains "bot was blocked" (Py.lower e)) eqn:B'.
    + apply (contains_longer "bot was " "blocked" "") in B'. congruence.
    + cbn [orb].
      destruct (Py.contains "chat not found" (Py.lower e)
                || Py.contains "user not found" (Py.lower e))%bool;
        [reflexivity|].
      destruct (Py.contains "bot can't initiate conversation" (Py.lower e));
        [reflexivity|].
      destruct (Py.contains "forbidden" (Py.lower e)); reflexivity.
Qed.

End Classifier.

(** ** The code on concrete events *)

Section Examples.

Import Scenario.

(** C2 at a voice message.  Ann's topic 101 was deleted and the forward of
    her voice message fails with "message thread not found".  [handle_voice]
    gives up after that one forward: the session still binds Ann to 101, no
    topic is asked for, nothing is retried, nothing is logged to
    [db.messages]. *)
Theorem handle_voice_does_not_repair :
  users (fst voice_lost) = [ann]
  /\ messages (fst voice_lost) = []
  /\ trace (fst voice_lost)
     = [(Bot (reply_text 42 None AUTO_REPLY_MESSAGE), Ok 0);
        (Db (users_find_one (by_user_id 42)), Ok 0);
        (Bot (forward_message GROUP 42 8 101),
         Raise "Bad Request: message thread not found");
        (Bot (reply_text 42 None
                (literal "❌ Error sending voice message. Please try again.")),
         Ok 0)].
Proof. vm_compute. repeat split. Qed.

(** [handle_video_note] on the same event: the same, without the apology. *)
Lemma handle_video_note_does_not_repair :
  users (fst video_note_lost) = [ann]
  /\ messages (fst video_note_lost) = []
  /\ trace (fst video_note_lost)
     = [(Bot (reply_text 42 None AUTO_REPLY_MESSAGE), Ok 0);
        (Db (users_find_one (by_user_id 42)), Ok 0);
        (Bot (forward_message GROUP 42 8 101),
         Raise "Bad Request: message thread not found")].
Proof. vm_compute. repeat split. Qed.

(** The same event through [handle_audio], which forwards with
    [forward_to_support]: the session is deleted, topic 102 is created and
    bound to Ann, and the message is forwarded into it. *)
Lemma handle_audio_repairs :
  users (fst audio_lost) = [mkUser 42 102 "Ann" "ann"]
  /\ calls is_forward (trace (fst audio_lost))
     = [(Bot (forward_message GROUP 42 8 101),
         Raise "Bad Request: message thread not found");
        (Bot (forward_message GROUP 42 8 102), Ok 0)]
  /\ created (trace (fst audio_lost)) = [102]
  /\ messages (fst audio_lost) = [mkMessage 42 "audio" from_user None].
Proof. vm_compute. repeat split. Qed.

(** C4 at a staff message without any of the eight media (a location, say)
    posted in Ann's topic.  Nothing is sent to Ann, no call to the gateway
    is made at all, and still [handle_reply] appends a "text" event in
    direction [to_user] and logs that it sent a text reply. *)
Theorem handle_reply_logs_unsent_message :
  snd location_reply = Val tt
  /\ calls is_bot (trace (fst location_reply)) = []
  /\ sent (trace (fst location_reply)) = false
  /\ messages (fst location_reply) = [mkMessage 42 "text" to_user None]
  /\ log (fst location_reply) = [mkLog INFO "✅ Sent text reply to user 42"].
Proof. vm_compute. repeat split. Qed.

(** C3 fails as stated.  "user not found" has none of the claim's four
    keywords and gets the account-missing notice, not [Unknown]; an error
    with "can't initiate conversation" but without "bot" before it gets
    [Unknown]; the Bot API's own "Forbidden: bot was blocked by the user"
    has "forbidden" and gets the blocked notice. *)
Lemma classify_not_as_stated :
  (let e := "Bad Request: user not found" in
   Py.contains "blocked" (Py.lower e) = false
   /\ Py.contains "chat not found" (Py.lower e) = false
   /\ Py.contains "can't initiate conversation" (Py.lower e) = false
   /\ Py.contains "forbidden" (Py.lower e) = false
   /\ fst (classify ann e) = RecipientAccountMissing 42
   /\ fst (classify ann e) <> Unknown 42 e)
  /\ (let e := "Can't initiate conversation" in
      Py.contains "can't initiate conversation" (Py.lower e) = true
      /\ fst (classify ann e) = Unknown 42 e
      /\ fst (classify ann e) <> CannotInitiateConversation 42)
  /\ (let e := "Forbidden: bot was blocked by the user" in
      Py.contains "forbidden" (Py.lower e) = true
      /\ fst (classify ann e) = RecipientBlocked 42 "Ann" "ann"
      /\ fst (classify ann e) <> Forbidden 42).
Proof. vm_compute. repeat split; discriminate. Qed.

(** C1 fails as stated.  Ann is bound to topic 101, which was deleted, and
    the store rejects the upsert of her new session.  The forward into 101
    fails with "message thread not found", her session is deleted, topic 102
    is created, the message is forwarded into it and logged, and the handler
    returns normally: the event completed.  But Ann is bound to no topic
    afterwards, neither to 101 nor to 102. *)
Lemma repaired_event_leaves_no_session :
  session 42 (users known) = Some ann
  /\ In (Bot (forward_message GROUP 42 7 101),
         Raise "Bad Request: message thread not found")
       (trace (fst text_lost_unsaved))
  /\ snd text_lost_unsaved = Val tt
  /\ delivered (trace (fst text_lost_unsaved)) = true
  /\ created (trace (fst text_lost_unsaved)) = [102]
  /\ In (Bot (forward_message GROUP 42 7 102), Ok 0)
       (trace (fst text_lost_unsaved))
  /\ messages (fst text_lost_unsaved)
     = [mkMessage 42 "text" from_user (Some "hi")]
  /\ In (mkLog INFO "✅ Forwarded text message from user 42")
       (log (fst text_lost_unsaved))
  /\ users (fst text_lost_unsaved) = []
  /\ session 42 (users (fst text_lost_unsaved)) = None.
Proof. vm_compute. repeat split; auto 20. Qed.

(** C5 fails as stated.  Two calls for Ann, who has no session, take turns
    at their awaits: both look her up before either has saved, both create a
    topic, and they return different ids.  The later upsert wins in the
    store; topic 101 stays behind in the group. *)
Lemma interleaved_calls_create_two_topics :
  snd two_calls_interleaved = [Ret 101; Ret 102]
  /\ created (trace (fst two_calls_interleaved)) = [101; 102]
  /\ users (fst two_calls_interleaved) = [mkUser 42 102 "Ann" "ann"].
Proof. vm_compute. repeat split. Qed.

(** C7 fails as stated.  With the upsert rejected, the text event of a new
    correspondent goes on: after the failed store call the welcome notice is
    posted and the message forwarded, the event is appended, and no session
    is left in the store.  With the store unreachable at the lookup, the
    handler still calls the gateway once more, for the apology. *)
Lemma store_failure_not_fatal :
  (snd text_upsert_fails = Val tt
   /\ after_failed is_write (trace (fst text_upsert_fails))
      = Some [(Bot (send_message GROUP (Some 101)
                      (welcome_text "Ann" 42 "ann")), Ok 0);
              (Bot (forward_message GROUP 42 7 101), Ok 0);
              (Db (messages_insert_one
                     (mkMessage 42 "text" from_user (Some "hi"))), Ok 0)]
   /\ delivered (trace (fst text_upsert_fails)) = true
   /\ users (fst text_upsert_fails) = []
   /\ messages (fst text_upsert_fails)
      = [mkMessage 42 "text" from_user (Some "hi")])
  /\ (after_failed is_lookup_or_delete (trace (fst text_store_down))
      = Some [(Bot (reply_text 42 None
                      (literal "❌ Sorry, there was an error processing your message. Please try again.")),
               Ok 0)]).
Proof. vm_compute. repeat split. Qed.

(** *** The theorems at work *)

Lemma store_available_all_fine : store_available all_fine.
Proof. intros h c. exists 0. reflexivity. Qed.

Lemma unique_index_known : unique_index (users known).
Proof. repeat constructor. cbn. tauto. Qed.

(** Ann's text after her topic was deleted. *)
Lemma self_healing_witness :
  exists C' : Z,
    snd text_lost = Val tt
    /\ created (trace (fst text_lost)) = [C']
    /\ (exists v, In (Db (users_delete_one 42), Ok v) (trace (fst text_lost)))
    /\ (exists v,
          In (Bot (forward_message GROUP 42 7 C'), Ok v)
             (trace (fst text_lost)))
    /\ (C' <> 101 -> ~ In ann (users (fst text_lost)))
    /\ (all_ok is_upsert (trace (fst text_lost)) = true ->
        exists d',
          session 42 (users (fst text_lost)) = Some d' /\ topic_id d' = C')
    /\ (all_ok is_upsert (trace (fst text_lost)) = false ->
        session 42 (users (fst text_lost)) = None).
Proof.
  apply (@self_healing GROUP (topic_deleted 101 102) TEXT ann_text
           [ann] [] [] ann "Bad Request: message thread not found"
           (fst text_lost) (snd text_lost)).
  - reflexivity.
  - apply unique_index_known.
  - reflexivity.
  - discriminate.
  - exact (surjective_pairing text_lost).
  - vm_compute. tauto.
  - reflexivity.
  - reflexivity.
Defined.

(** Ann is known under topic 101. *)
Lemma get_or_create_topic_fast_path_witness :
  snd ann_known = Val 101
  /\ trace (fst ann_known) = [(Db (users_find_one (by_user_id 42)), Ok 0)]
  /\ calls is_bot (trace (fst ann_known)) = []
  /\ calls is_write (trace (fst ann_known)) = []
  /\ users (fst ann_known) = [ann]
  /\ messages (fst ann_known) = [].
Proof.
  apply (@get_or_create_topic_fast_path GROUP all_fine 42 "Ann" "ann" known
           ann 0).
  - reflexivity.
  - discriminate.
  - reflexivity.
Defined.

(** A new correspondent while the bot may not create topics. *)
Lemma get_or_create_topic_creation_fails_witness :
  let e := "Bad Request: not enough rights to create a topic" in
  run no_topics (get_or_create_topic GROUP 42 "Ann" "ann") empty
  = (mkWorld [] []
       [mkLog ERROR ("Error creating topic: " ++ e)%string]
       [(Db (users_find_one (by_user_id 42)), Ok 0);
        (Bot (create_forum_topic GROUP "👤 Ann"), Raise e)],
     Exc e).
Proof.
  apply (@get_or_create_topic_creation_fails GROUP no_topics 42 "Ann" "ann"
           empty 0 "Bad Request: not enough rights to create a topic").
  - reflexivity.
  - reflexivity.
  - reflexivity.
Defined.

(** A text in a group chat. *)
Lemma inbound_private_chat_guard_witness :
  run all_fine (inbound_handler GROUP TEXT group_text) known = (known, Val tt).
Proof.
  apply (@inbound_private_chat_guard GROUP all_fine TEXT group_text known).
  discriminate.
Defined.

(** Ann's text while the store is unreachable. *)
Lemma store_failure_handling_witness :
  delivered (trace (fst text_store_down)) = false
  /\ messages (fst text_store_down) = [].
Proof.
  destruct (@store_failure_handling GROUP store_down TEXT ann_text
              [ann] [] [] (fst text_store_down) (snd text_store_down))
    as [H _].
  - reflexivity.
  - exact (surjective_pairing text_store_down).
  - destruct (H [(Bot (reply_text 42 None
                         (literal "❌ Sorry, there was an error processing your message. Please try again.")),
                  Ok 0)]) as (Hd & Hm & _).
    + reflexivity.
    + split; assumption.
Defined.

(** A staff text for Ann, who blocked the bot, while the notice cannot be
    posted either. *)
Lemma outbound_failure_absorbed_witness :
  snd reply_blocked = Val tt
  /\ calls is_send (trace (fst reply_blocked))
     = [(Bot (send_message 42 None (literal "hello Ann")),
         Raise "Forbidden: bot was blocked by the user")]
  /\ (exists o,
        last (trace (fst reply_blocked))
          (Bot (send_message 42 None (literal "hello Ann")),
           Raise "Forbidden: bot was blocked by the user")
        = (Bot (reply_text GROUP (Some 101)
                  (error_details
                     (fst (classify ann
                             "Forbidden: bot was blocked by the user")))), o)
        /\ forall e',
             o = Raise e' ->
             exists l0,
               log (fst reply_blocked)
               = l0 ++ [mkLog ERROR
                          ("Failed to send error notification: " ++ e')%string])
  /\ users (fst reply_blocked) = [ann]
  /\ messages (fst reply_blocked) = [].
Proof.
  apply (@outbound_failure_absorbed GROUP blocked staff_text [ann] [] [] 101
           ann (Bot (send_message 42 None (literal "hello Ann")))
           "Forbidden: bot was blocked by the user"
           (fst reply_blocked) (snd reply_blocked)).
  - reflexivity.
  - reflexivity.
  - discriminate.
  - reflexivity.
  - exact (surjective_pairing reply_blocked).
  - reflexivity.
  - vm_compute. tauto.
Defined.

(** Three calls for a new correspondent, one after the other. *)
Lemma calls_in_turn_share_one_topic_witness :
  snd three_calls_in_turn = [Val 101; Val 101; Val 101]
  /\ (length (created (trace (fst three_calls_in_turn))) <= 1)%nat.
Proof.
  destruct (@calls_in_turn_share_one_topic GROUP all_fine 42 "Ann" "ann" 2
              empty (fst three_calls_in_turn) (snd three_calls_in_turn) 101)
    as (H1 & H2 & _).
  - apply store_available_all_fine.
  - exact (surjective_pairing three_calls_in_turn).
  - reflexivity.
  - discriminate.
  - split; assumption.
Defined.

End Examples.

(** * More properties of the relay *)

(** ** Sessions saved and looked up *)

Section Sessions.

Variable SUPPORT_GROUP_ID : Z.
Variable env : Env.

#[local] Arguments Py.str : simpl never.
#[local] Arguments Py.take : simpl never.
#[local] Arguments Py.or_str : simpl never.
#[local] Arguments Py.truthy_str : simpl never.
#[local] Arguments String.append : simpl never.
#[local] Arguments thread_not_found : simpl never.

Ltac step H :=
  match type of H with
  | context [env ?h ?c] =>
      let o := fresh "o" in
      destruct (env h c) as [o|o] eqn:?; cbn in H
  | context [find (matches ?f) ?us] =>
      let d := fresh "d" in
      destruct (find (matches f) us) as [d|] eqn:?; cbn in H
  | context [?t =? 0] =>
      destruct (t =? 0) eqn:?; cbn in H
  | context [thread_not_found ?e] =>
      destruct (thread_not_found e) eqn:?; cbn in H
  end.

Ltac close H :=
  match type of H with
  | (_, _) = (_, _) => inversion H; subst; clear H
  end.

Lemma session_upsert_other d uid us :
  user_id d <> uid -> session uid (upsert d us) = session uid us.
Proof.
  intros Hne. unfold session. induction us as [|y t IH]; cbn.
  - destruct (user_id d =? uid) eqn:E; [apply Z.eqb_eq in E; contradiction|].
    reflexivity.
  - destruct (user_id y =? user_id d) eqn:E; cbn.
    + apply Z.eqb_eq in E.
      destruct (user_id d =? uid) eqn:E1;
        [apply Z.eqb_eq in E1; contradiction|].
      destruct (user_id y =? uid) eqn:E2; [|reflexivity].
      apply Z.eqb_eq in E2. congruence.
    + destruct (user_id y =? uid); [reflexivity|exact IH].
Qed.

Lemma length_upsert d us :
  length (upsert d us)
  = match session (user_id d) us with
    | Some _ => length us
    | None => S (length us)
    end.
Proof.
  unfold session. induction us as [|y t IH]; cbn; [reflexivity|].
  destruct (user_id y =? user_id d); cbn; [reflexivity|].
  rewrite IH. destruct (find _ t); reflexivity.
Qed.

(** X2.  What [save_user_topic] saves, [get_user_topic] finds: with the
    store answering, saving topic [tid] for a correspondent and looking the
    correspondent up gives [tid] back.  The save touches no other session,
    and adds a row only when the correspondent had none. *)
Theorem saved_topic_is_found (uid tid : Z) (n h : string) (w : World) :
  store_available env ->
  let end_ := run env (save_user_topic uid tid n h ;; get_user_topic uid) w in
  snd end_ = Val (Some tid)
  /\ (forall other,
        other <> uid ->
        session other (users (fst end_)) = session other (users w))
  /\ length (users (fst end_))
     = match session uid (users w) with
       | Some _ => length (users w)
       | None => S (length (users w))
       end.
Proof.
  intros Hs end_. subst end_. unfold save_user_topic, get_user_topic. cbn.
  destruct (Hs (trace w) (users_update_one (mkUser uid tid n h))) as [v ->].
  cbn.
  match goal with
  | |- context [env ?h (Db ?c)] => destruct (Hs h c) as [v' ->]
  end.
  cbn.
  pose proof (session_upsert (mkUser uid tid n h) (users w)) as Hf.
  unfold session in Hf. cbn in Hf. rewrite Hf. cbn. repeat split.
  - intros other Hne. apply session_upsert_other. cbn. congruence.
  - apply (length_upsert (mkUser uid tid n h)).
Qed.

(** X3.  A topic that was created stays bound even when the call fails
    afterwards: if [get_or_create_topic] raises although the gateway created
    topic [t] and the store accepted the upsert, then what failed is the
    welcome notice, and the session of the correspondent is in the store,
    bound to [t]. *)
Theorem welcome_failure_leaves_session (uid : Z) (n h : string)
    (us : list UserDoc) (ms : list MessageDoc) (lg : list LogRecord)
    (w' : World) (e : string) (t : Z) :
  run env (get_or_create_topic SUPPORT_GROUP_ID uid n h) (mkWorld us ms lg [])
  = (w', Exc e) ->
  created (trace w') = [t] ->
  all_ok is_upsert (trace w') = true ->
  session uid (users w') = Some (mkUser uid t n h)
  /\ exists before text,
       trace w'
       = before ++ [(Bot (send_message SUPPORT_GROUP_ID (Some t) text),
                     Raise e)].
Proof.
  intros H Hc Hu. unfold get_or_create_topic, get_user_topic in H.
  cbn in H.
  repeat step H; close H; cbn in Hc, Hu; try discriminate;
    inversion Hc; subst; cbn;
    (split;
     [ apply (session_upsert (mkUser uid t n h))
     | eexists [_; _; _]; eexists; reflexivity ]).
Qed.

End Sessions.

(** ** Where an inbound handler can fail *)

Section InboundEdges.

Variable SUPPORT_GROUP_ID : Z.
Variable env : Env.

#[local] Arguments Py.str : simpl never.
#[local] Arguments Py.take : simpl never.
#[local] Arguments Py.or_str : simpl never.
#[local] Arguments Py.truthy_str : simpl never.
#[local] Arguments String.append : simpl never.
#[local] Arguments thread_not_found : simpl never.

Ltac step H :=
  match type of H with
  | context [env ?h ?c] =>
      let o := fresh "o" in
      destruct (env h c) as [o|o] eqn:?; cbn in H
  | context [find (matches ?f) ?us] =>
      match goal with
      | Hd : find (matches f) us = _ |- _ => rewrite Hd in H; cbn in H
      | _ =>
          let d := fresh "d" in
          destruct (find (matches f) us) as [d|] eqn:?; cbn in H
      end
  | context [?t =? 0] =>
      match goal with
      | Hn : t <> 0 |- _ =>
          rewrite (proj2 (Z.eqb_neq t 0) Hn) in H; cbn in H
      | _ => destruct (t =? 0) eqn:?; cbn in H
      end
  | context [thread_not_found ?e] =>
      destruct (thread_not_found e) eqn:?; cbn in H
  end.

Ltac close H :=
  match type of H with
  | (_, _) = (_, _) => inversion H; subst; clear H
  end.

(** X4.  An exception leaves an inbound handler only from the apology of
    its [except] branch.  When a handler raises [e] for an update that
    carries a message, the last call made is the apology to the
    correspondent and that call raised [e]: every failure of the store, of
    the topic creation and of the forward is caught.  For an update without
    a message the apology cannot be sent and [e] is its [AttributeError].
    [handle_sticker] and [handle_video_note], which send no apology, never
    raise. *)
Theorem inbound_raises_only_from_apology (k : Kind) (i : Incoming)
    (w w' : World) (e : string) :
  run env (inbound_on SUPPORT_GROUP_ID k i) w = (w', Exc e) ->
  exists sorry,
    apology (shape k) = Some sorry
    /\ match i with
       | with_message update =>
           exists before,
             trace w'
             = before
               ++ [(Bot (reply_text (chat_id update) None (literal sorry)),
                    Raise e)]
       | without_message _ => e = no_attribute "reply_text"
       end.
Proof.
  intros H. destruct i as [update|update]; cbn [inbound_on] in H.
  - rewrite inbound_handler_shape in H. unfold inbound in H.
    destruct (is_private update); cbn [negb] in H; [|discriminate].
    cbv zeta in H. rewrite run_try in H.
    destruct (run env _ w) as [wb [[]|e0]] eqn:Hb in H; [discriminate|].
    cbn in H. destruct (apology (shape k)) as [sorry|]; cbn in H;
      [|discriminate].
    step H; close H. exists sorry. split; [reflexivity|].
    exists (trace wb). reflexivity.
  - unfold inbound_bare in H.
    destruct (ChatType_eqb (bare_chat_type update) private); cbn [negb] in H;
      [|discriminate].
    cbv zeta in H. rewrite run_try in H.
    destruct (run env _ w) as [wb [[]|e0]] eqn:Hb in H; [discriminate|].
    cbn in H. destruct (apology (shape k)) as [sorry|]; cbn in H;
      [|discriminate].
    close H. exists sorry. split; reflexivity.
Qed.

(** A handler that forwards by itself, of any shape. *)
Lemma direct_forward_inbound (s : Shape) (update : Update)
    (us : list UserDoc) (ms : list MessageDoc) (lg : list LogRecord)
    (w' : World) (r : Result unit) :
  repairs s = false ->
  run env (inbound SUPPORT_GROUP_ID s update) (mkWorld us ms lg []) = (w', r) ->
  (length (calls is_forward (trace w')) <= 1)%nat
  /\ calls is_delete (trace w') = []
  /\ (forall d,
        session (from_id update) us = Some d -> topic_id d <> 0 ->
        users w' = us /\ created (trace w') = []).
Proof.
  intros Hr H. unfold inbound, session in *. rewrite Hr in H.
  destruct (is_private update); cbn [negb] in H;
    [|cbn in H; close H; cbn; auto].
  destruct (apology s); cbn in H;
    repeat step H; close H; cbn; (split; [auto|split; [auto|]]);
    intros d' Hd' Hn'; try discriminate;
    inversion Hd'; subst; auto;
    match goal with
    | E : (topic_id _ =? 0) = true |- _ => apply Z.eqb_eq in E; contradiction
    end.
Qed.

(** X5.  [handle_voice] and [handle_video_note] never repair: whatever the
    outside answers, they attempt at most one forward and never delete a
    session; a correspondent whose session is bound to a topic keeps that
    session, and no topic is created for them. *)
Theorem direct_forward_never_repairs (k : Kind) (update : Update)
    (us : list UserDoc) (ms : list MessageDoc) (lg : list LogRecord)
    (w' : World) (r : Result unit) :
  k = VOICE \/ k = VIDEO_NOTE ->
  run env (inbound_handler SUPPORT_GROUP_ID k update) (mkWorld us ms lg [])
  = (w', r) ->
  (length (calls is_forward (trace w')) <= 1)%nat
  /\ calls is_delete (trace w') = []
  /\ (forall d,
        session (from_id update) us = Some d -> topic_id d <> 0 ->
        users w' = us /\ created (trace w') = []).
Proof.
  intros Hk H. rewrite inbound_handler_shape in H.
  eapply direct_forward_inbound; [|eassumption].
  destruct Hk as [->| ->]; reflexivity.
Qed.

End InboundEdges.

(** ** Staff replies *)

Section ReplyEdges.

Variable SUPPORT_GROUP_ID : Z.
Variable env : Env.

#[local] Arguments Py.str : simpl never.
#[local] Arguments Py.take : simpl never.
#[local] Arguments Py.or_str : simpl never.
#[local] Arguments Py.truthy_str : simpl never.
#[local] Arguments String.append : simpl never.
#[local] Arguments classify : simpl never.

Ltac close H :=
  match type of H with
  | (_, _) = (_, _) => inversion H; subst; clear H
  end.

Ltac reply H :=
  match type of H with
  | context [env ?h ?c] =>
      let o := fresh "o" in
      destruct (env h c) as [o|o] eqn:?; cbn in H
  | context [chat_id ?u =? ?g] =>
      destruct (chat_id u =? g) eqn:?; cbn in H
  | context [Py.truthy_int ?x] =>
      destruct (Py.truthy_int x) eqn:?; cbn in H
  | context [find (matches ?f) ?us] =>
      match goal with
      | Hd : find (matches f) us = _ |- _ => rewrite Hd in H; cbn in H
      | _ =>
          let d := fresh "d" in
          destruct (find (matches f) us) as [d|] eqn:?; cbn in H
      end
  | context [Py.truthy_str ?x] =>
      destruct (Py.truthy_str x) eqn:?; cbn in H
  | context [classify ?u ?e] =>
      let n := fresh "n" in
      let l := fresh "l" in
      destruct (classify u e) as [n l] eqn:?; cbn in H
  | context [match photo ?m with _ => _ end] =>
      destruct (photo m) eqn:?; cbn in H
  | context [match video ?m with _ => _ end] =>
      destruct (video m) eqn:?; cbn in H
  | context [match document ?m with _ => _ end] =>
      destruct (document m) eqn:?; cbn in H
  | context [match voice ?m with _ => _ end] =>
      destruct (voice m) eqn:?; cbn in H
  | context [match audio ?m with _ => _ end] =>
      destruct (audio m) eqn:?; cbn in H
  | context [match sticker ?m with _ => _ end] =>
      destruct (sticker m) eqn:?; cbn in H
  | context [match video_note ?m with _ => _ end] =>
      destruct (video_note m) eqn:?; cbn in H
  end.

Ltac events :=
  repeat match goal with
  | H : _ \/ _ |- _ => destruct H as [H|H]
  | H : False |- _ => destruct H
  | H : (_, _) = (_, _) |- _ =>
      first [discriminate H | inversion H; clear H; subst]
  end.

Lemma truthy_int_some x :
  Py.truthy_int x = true -> exists t, x = Some t /\ t <> 0.
Proof.
  destruct x as [t|]; cbn; [|discriminate]. intros H. exists t. split; auto.
  intros ->. discriminate.
Qed.

(** X6.  [handle_reply] acts only on a message of the support group, posted
    inside a topic that some session is bound to.  Otherwise it calls the
    Bot API not at all and appends no event.  It never writes [db.users].
    Its lookup of the topic is not guarded: when the lookup raises, the
    exception leaves the handler and nothing else was called. *)
Theorem handle_reply_needs_bound_topic (update : Update)
    (us : list UserDoc) (ms : list MessageDoc) (lg : list LogRecord)
    (w' : World) (r : Result unit) :
  run env (handle_reply SUPPORT_GROUP_ID update) (mkWorld us ms lg []) = (w', r) ->
  users w' = us
  /\ (calls is_bot (trace w') <> [] \/ messages w' <> ms ->
      chat_id update = SUPPORT_GROUP_ID
      /\ exists t user,
           message_thread_id (message update) = Some t
           /\ t <> 0
           /\ find (matches (by_topic_id t)) us = Some user)
  /\ (forall t e,
        In (Db (users_find_one (by_topic_id t)), Raise e) (trace w') ->
        r = Exc e
        /\ trace w' = [(Db (users_find_one (by_topic_id t)), Raise e)]).
Proof.
  intros H. unfold handle_reply, send_reply in H.
  destruct (chat_id update =? SUPPORT_GROUP_ID) eqn:Ec; cbn in H.
  2:{ close H. cbn.
      split; [reflexivity|split; [intros [F|F]; congruence|]].
      intros t e F. destruct F. }
  apply Z.eqb_eq in Ec.
  destruct (Py.truthy_int (message_thread_id (message update))) eqn:Et;
    cbn in H.
  2:{ close H. cbn.
      split; [reflexivity|split; [intros [F|F]; congruence|]].
      intros t e F. destruct F. }
  destruct (truthy_int_some _ Et) as (t & Ht & Hn). rewrite Ht in H.
  repeat reply H; close H; cbn; (split; [reflexivity|split]);
    try (intros _; split; [first [assumption|reflexivity]|]; exists t; eauto; fail);
    try (intros [F|F]; contradiction);
    intros t' e' Hin; events; split; reflexivity.
Qed.

(** X7.  Replies reach the correspondent the topic is bound to.  When every
    session bound to topic [t] belongs to correspondent [X], every send that
    [handle_reply] attempts for a staff message in [t] goes to the chat of
    [X], whatever the message carries. *)
Theorem staff_reply_goes_to_bound_correspondent (update : Update)
    (us : list UserDoc) (ms : list MessageDoc) (lg : list LogRecord)
    (t X : Z) (w' : World) (r : Result unit) :
  message_thread_id (message update) = Some t ->
  (forall d, In d us -> topic_id d = t -> user_id d = X) ->
  run env (handle_reply SUPPORT_GROUP_ID update) (mkWorld us ms lg []) = (w', r) ->
  forall c o, In (Bot c, o) (trace w') -> is_send (Bot c) = true -> chat_of c = X.
Proof.
  intros Ht Hx H c o Hin Hs. unfold handle_reply, send_reply in H.
  rewrite Ht in H.
  destruct (chat_id update =? SUPPORT_GROUP_ID) eqn:Ec; cbn in H;
    [|close H; destruct Hin].
  destruct (negb (t =? 0)) eqn:En; cbn in H; [|close H; destruct Hin].
  destruct (find (matches (by_topic_id t)) us) as [user|] eqn:Hu.
  2:{ repeat reply H; close H; cbn in Hin; events; discriminate Hs. }
  destruct (find_some _ _ Hu) as [Huin Hut]. cbn in Hut.
  apply Z.eqb_eq in Hut. specialize (Hx user Huin Hut).
  repeat reply H; close H; cbn in Hin; events; try discriminate Hs;
    cbn; congruence.
Qed.

(** X8.  A reply that was sent is logged as what was sent.  When a send of
    [handle_reply] went through and the store accepted its write, the
    handler made no other send, returned normally, and appended exactly one
    event: for the correspondent the send went to, in direction [to_user],
    with the [message_type] of that send and the text of the staff
    message. *)
Theorem sent_reply_is_logged_as_sent (update : Update)
    (us : list UserDoc) (ms : list MessageDoc) (lg : list LogRecord)
    (c : BotCall) (v : Z) (w' : World) (r : Result unit) :
  run env (handle_reply SUPPORT_GROUP_ID update) (mkWorld us ms lg []) = (w', r) ->
  In (Bot c, Ok v) (trace w') ->
  is_send (Bot c) = true ->
  all_ok is_write (trace w') = true ->
  r = Val tt
  /\ calls is_send (trace w') = [(Bot c, Ok v)]
  /\ messages w'
     = ms ++ [mkMessage (chat_of c) (kind_of_send c) to_user
                (text (message update))].
Proof.
  intros H Hin Hs Hw. unfold handle_reply, send_reply in H.
  repeat reply H; close H; cbn in Hin, Hw; events; try discriminate Hs;
    try discriminate Hw; cbn; repeat split.
Qed.

End ReplyEdges.

(** ** The further properties at work *)

Section MoreExamples.

Import Scenario Outage.

(** Ann's session is saved into an empty store and looked up. *)
Lemma saved_topic_is_found_witness :
  snd saved_then_found = Val (Some 101)
  /\ length (users (fst saved_then_found)) = 1%nat.
Proof.
  destruct (@saved_topic_is_found all_fine 42 101 "Ann" "ann" empty)
    as (H1 & _ & H3).
  - apply store_available_all_fine.
  - split; [exact H1|exact H3].
Defined.

(** Topic 101 is created for Ann, and its welcome message is refused. *)
Lemma welcome_failure_leaves_session_witness :
  session 42 (users (fst welcome_lost)) = Some (mkUser 42 101 "Ann" "ann").
Proof.
  destruct (@welcome_failure_leaves_session GROUP welcome_fails 42 "Ann" "ann"
              [] [] [] (fst welcome_lost) "Timed out" 101) as [H _].
  - reflexivity.
  - reflexivity.
  - reflexivity.
  - exact H.
Defined.

(** Ann's first text while no Bot API call goes through: the exception that
    leaves the handler is the one of the apology. *)
Lemma inbound_raises_only_from_apology_witness :
  exists sorry,
    apology (shape TEXT) = Some sorry
    /\ exists before,
         trace (fst text_gateway_down)
         = before ++ [(Bot (reply_text (chat_id ann_text) None (literal sorry)),
                       Raise "Timed out")].
Proof.
  apply (@inbound_raises_only_from_apology GROUP gateway_down TEXT
           (with_message ann_text) empty (fst text_gateway_down) "Timed out").
  reflexivity.
Defined.

(** Ann's edited text, the gateway and the store working: a topic is
    created for her and bound to her, nothing is forwarded or logged to
    [db.messages], and the handler raises without having apologised. *)
Lemma edited_text_is_not_relayed :
  snd edited_text = Exc (no_attribute "reply_text")
  /\ users (fst edited_text) = [mkUser 42 101 "Ann" "ann"]
  /\ messages (fst edited_text) = []
  /\ calls is_forward (trace (fst edited_text)) = []
  /\ calls is_bot (trace (fst edited_text))
     = [(Bot (create_forum_topic GROUP "👤 Ann"), Ok 101);
        (Bot (send_message GROUP (Some 101) (welcome_text "Ann" 42 "ann")),
         Ok 0)].
Proof. vm_compute. repeat split. Qed.

(** Ann's voice message after her topic was deleted. *)
Lemma direct_forward_never_repairs_witness :
  (length (calls is_forward (trace (fst voice_lost))) <= 1)%nat
  /\ calls is_delete (trace (fst voice_lost)) = [].
Proof.
  destruct (@direct_forward_never_repairs GROUP (topic_deleted 101 102) VOICE
              ann_voice [ann] [] [] (fst voice_lost) (snd voice_lost))
    as (H1 & H2 & _).
  - left. reflexivity.
  - exact (surjective_pairing voice_lost).
  - split; assumption.
Defined.

(** A text of the staff inside Ann's topic. *)
Lemma handle_reply_needs_bound_topic_witness :
  users (fst text_reply) = [ann]
  /\ exists t user,
       message_thread_id (message staff_text) = Some t
       /\ t <> 0
       /\ find (matches (by_topic_id t)) [ann] = Some user.
Proof.
  destruct (@handle_reply_needs_bound_topic GROUP all_fine staff_text
              [ann] [] [] (fst text_reply) (snd text_reply))
    as (H1 & H2 & _).
  - exact (surjective_pairing text_reply).
  - split; [exact H1|]. apply H2. left. discriminate.
Defined.

Lemma staff_reply_goes_to_bound_correspondent_witness :
  chat_of (send_message 42 None (literal "hello Ann")) = 42.
Proof.
  apply (@staff_reply_goes_to_bound_correspondent GROUP all_fine staff_text
           [ann] [] [] 101 42 (fst text_reply) (snd text_reply))
    with (o := Ok 0).
  - reflexivity.
  - intros d [<-|[]] _. reflexivity.
  - exact (surjective_pairing text_reply).
  - right. left. reflexivity.
  - reflexivity.
Defined.

(** A captioned video of the staff inside Ann's topic is logged as a video. *)
Lemma sent_reply_is_logged_as_sent_witness :
  snd video_reply = Val tt
  /\ calls is_send (trace (fst video_reply))
     = [(Bot (send_video 42 "video-file" (Some "look")), Ok 0)]
  /\ messages (fst video_reply) = [mkMessage 42 "video" to_user None].
Proof.
  apply (@sent_reply_is_logged_as_sent GROUP all_fine staff_video
           [ann] [] [] (send_video 42 "video-file" (Some "look")) 0
           (fst video_reply) (snd video_reply)).
  - exact (surjective_pairing video_reply).
  - right. left. reflexivity.
  - reflexivity.
  - reflexivity.
Defined.

(** Ann's text after her topic was deleted: two forwards, one creation. *)
Lemma bounded_repair_witness :
  (length (calls is_forward (trace (fst text_lost))) <= 2)%nat
  /\ (length (calls is_create (trace (fst text_lost))) <= 2)%nat.
Proof.
  apply (@bounded_repair GROUP (topic_deleted 101 102) TEXT ann_text
           [ann] [] [] (fst text_lost) (snd text_lost)).
  - reflexivity.
  - exact (surjective_pairing text_lost).
Defined.

(** Ann's first text, everything working. *)
Lemma inbound_event_logged_only_when_delivered_witness :
  messages (fst text_first_contact) = []
  \/ delivered (trace (fst text_first_contact)) = true
     /\ messages (fst text_first_contact)
        = [] ++ [mkMessage 42 "text" from_user (Some "hi")].
Proof.
  apply (@inbound_event_logged_only_when_delivered GROUP all_fine TEXT ann_text
           [] [] [] (fst text_first_contact) (snd text_first_contact)).
  - reflexivity.
  - exact (surjective_pairing text_first_contact).
Defined.

(** Ann's first text while the gateway creates no topics. *)
Lemma creation_failure_fails_relay_witness :
  users (fst text_no_topics) = []
  /\ messages (fst text_no_topics) = []
  /\ calls is_forward (trace (fst text_no_topics)) = [].
Proof.
  apply (@creation_failure_fails_relay GROUP no_topics TEXT ann_text
           [] [] [] (fst text_no_topics) (snd text_no_topics)).
  - reflexivity.
  - exact (surjective_pairing text_no_topics).
  - reflexivity.
  - reflexivity.
Defined.

(** The staff's text inside Ann's topic: one event, after the send. *)
Lemma outbound_event_accounting_witness :
  messages (fst text_reply) = []
  \/ (exists m,
        messages (fst text_reply) = [] ++ [m]
        /\ direction m = to_user
        /\ (sent (trace (fst text_reply)) = true
            \/ has_media (message staff_text) = false)).
Proof.
  apply (@outbound_event_accounting GROUP all_fine staff_text
           [ann] [] [] (fst text_reply) (snd text_reply)).
  exact (surjective_pairing text_reply).
Defined.

End MoreExamples.

(** * Properties of the commands *)

Section CommandFacts.

Import Commands.
Local Open Scope cmd_scope.

Variable SUPPORT_GROUP_ID : Z.
Variable out : Outside.
Variable users : list UserDoc.
Variable messages : list MessageDoc.

#[local] Arguments Z.add : simpl never.
#[local] Arguments Z.of_nat : simpl never.
#[local] Arguments String.append : simpl never.
#[local] Arguments counted : simpl never.
#[local] Arguments List.find : simpl never.

(** The events of a correspondent are those from and those to them. *)
Lemma counted_by_direction uid :
  counted users messages (messages_count_documents (mkFilter (Some uid) None))
  = counted users messages
      (messages_count_documents (mkFilter (Some uid) (Some from_user)))
    + counted users messages
        (messages_count_documents (mkFilter (Some uid) (Some to_user))).
Proof.
  unfold counted, selects. cbn [of_user in_direction].
  induction messages as [|m ms IH]; [reflexivity|].
  cbn [filter].
  destruct (m_user_id m =? uid), (direction m); cbn [andb length]; lia.
Qed.

Lemma counted_all :
  counted users messages (messages_count_documents (mkFilter None None))
  = Z.of_nat (length messages).
Proof.
  unfold counted. f_equal. f_equal.
  induction messages as [|m ms IH]; [reflexivity|].
  cbn. destruct (direction m); cbn; now rewrite IH.
Qed.

Ltac ask H :=
  match type of H with
  | context [out ?h ?c] =>
      let o := fresh "o" in
      destruct (out h c) as [o|o] eqn:?; cbn in H
  | context [ChatType_eqb ?a ?b] =>
      destruct (ChatType_eqb a b) eqn:?; cbn in H
  | context [chat_id ?u =? ?g] =>
      destruct (chat_id u =? g) eqn:?; cbn in H
  | context [match message_thread_id ?m with _ => _ end] =>
      destruct (message_thread_id m) eqn:?; cbn in H
  | context [?t =? 0] =>
      destruct (t =? 0) eqn:?; cbn in H
  | context [List.find (matches ?f) users] =>
      let d := fresh "d" in
      destruct (List.find (matches f) users) as [d|] eqn:?; cbn in H
  end.

Ltac close H :=
  match type of H with
  | (_, _) = (_, _) => inversion H; subst; clear H
  end.

(** X20.  [get_user_stats] never raises and its three counts agree: when
    the store answers, [total] is the number of events of the correspondent
    in [db.messages], and it is the sum of [from_user] and [to_user]; when a
    count fails the method logs the error and returns [None]. *)
Theorem get_user_stats_counts_add_up (user_id : Z) (s : State) :
  match run out users messages (get_user_stats user_id) s with
  | (s', Val (Some stats)) =>
      log s' = log s
      /\ total stats
         = Z.of_nat
             (length (filter (fun m => m_user_id m =? user_id) messages))
      /\ total stats = from_user_count stats + to_user_count stats
  | (s', Val None) =>
      exists q e,
        log s' = log s ++ [mkLog ERROR ("Error getting user stats: " ++ e)]
        /\ In (counting q, Raise e) (asked s')
  | (_, Exc _) => False
  end.
Proof.
  unfold get_user_stats. cbn.
  destruct (out (asked s) _) as [v1|e1] eqn:E1; cbn.
  2:{ eexists _, e1. split; [reflexivity|]. apply in_elt. }
  destruct (out (asked s ++ _) _) as [v2|e2] eqn:E2; cbn.
  2:{ eexists _, e2. split; [reflexivity|].
      rewrite <- app_assoc. apply in_or_app. right. right. left.
      reflexivity. }
  destruct (out ((asked s ++ _) ++ _) _) as [v3|e3] eqn:E3; cbn.
  2:{ eexists _, e3. split; [reflexivity|].
      rewrite <- !app_assoc. apply in_or_app. right. right. right. left.
      reflexivity. }
  split; [reflexivity|]. split; [|apply counted_by_direction].
  unfold counted. do 2 f_equal. apply filter_ext. intros m.
  unfold selects. cbn. apply andb_true_r.
Qed.

(** X21.  [/stats] does nothing outside the support group.  Whatever it
    replies goes to the support group, and the numbers shown are the sizes of
    the two collections; when a count fails the reply is the error text
    instead.  The reply is not guarded: when it raises, the exception leaves
    the handler. *)
Theorem stats_command_reports_the_collections (update : Update)
    (lg : list LogRecord) (s' : State) (r : Result unit) :
  run out users messages (stats_command SUPPORT_GROUP_ID update)
    (mkState lg []) = (s', r) ->
  (chat_id update <> SUPPORT_GROUP_ID -> s' = mkState lg [] /\ r = Val tt)
  /\ (forall chat thread t o,
        In (reply_text chat thread t, o) (asked s') ->
        chat = SUPPORT_GROUP_ID
        /\ chat_id update = SUPPORT_GROUP_ID
        /\ (t = stats_message (Z.of_nat (length users))
                  (Z.of_nat (length messages)) AUTO_REPLY_ENABLED
            /\ log s' = lg
            \/ t = stats_error
               /\ exists q e, In (counting q, Raise e) (asked s'))
        /\ r = match o with Ok _ => Val tt | Raise e => Exc e end).
Proof.
  intros H. unfold stats_command, get_total_stats in H. cbn in H.
  destruct (chat_id update =? SUPPORT_GROUP_ID) eqn:Ec; cbn in H.
  - apply Z.eqb_eq in Ec. split; [intros F; contradiction|].
    rewrite Ec in *.
    repeat ask H; close H; intros chat thread t ans Hin; cbn in Hin;
      repeat match goal with
             | F : _ \/ _ |- _ => destruct F as [F|F]
             | F : (_, _) = (_, _) |- _ =>
                 first [discriminate F|inversion F; subst; clear F]
             | F : False |- _ => destruct F
             end;
      (split; [reflexivity|]); (split; [reflexivity|]);
      (split; [|reflexivity]);
      try (left; rewrite counted_all; split; reflexivity);
      right; (split; [reflexivity|]); do 2 eexists; cbn; eauto.
  - apply Z.eqb_neq in Ec. close H.
    split; [intros _; split; reflexivity|]. intros chat thread t o F.
    destruct F.
Qed.

(** X22.  What [/userinfo] shows is the session bound to the topic the
    command was sent in: the information goes into that topic of the support
    group, the user is the one [db.users] has for the topic, and the counts
    are those of this user's events, the total being their sum.  The lookup
    of the session is not guarded: when it raises, the exception leaves the
    handler and nothing is sent. *)
Theorem userinfo_command_reports_the_bound_user (update : Update)
    (lg : list LogRecord) (s' : State) (r : Result unit) :
  run out users messages (userinfo_command SUPPORT_GROUP_ID update)
    (mkState lg []) = (s', r) ->
  (forall chat thread user f t n o,
     In (reply_text chat thread (info_message user f t n), o) (asked s') ->
     chat = SUPPORT_GROUP_ID
     /\ chat_id update = SUPPORT_GROUP_ID
     /\ thread = message_thread_id (message update)
     /\ (exists topic,
           thread = Some topic
           /\ List.find (matches (by_topic_id topic)) users = Some user)
     /\ n = Z.of_nat
              (length (filter (fun m => m_user_id m =? user_id user) messages))
     /\ n = f + t)
  /\ (forall topic e,
        In (users_find_one (by_topic_id topic), Raise e) (asked s') ->
        r = Exc e /\ replies (asked s') = []).
Proof.
  intros H. unfold userinfo_command in H. cbn in H.
  destruct (chat_id update =? SUPPORT_GROUP_ID) eqn:Ec; cbn in H.
  2:{ close H. split; intros; cbn in *; contradiction. }
  apply Z.eqb_eq in Ec.
  destruct (message_thread_id (message update)) as [topic|] eqn:Et.
  2:{ cbn in H. ask H; close H; split; intros; cbn in *;
      repeat match goal with
             | F : _ \/ _ |- _ => destruct F as [F|F]
             | F : (_, _) = (_, _) |- _ => discriminate F
             | F : False |- _ => destruct F
             end. }
  destruct (topic =? 0) eqn:E0; cbn in H.
  { ask H; close H; split; intros; cbn in *;
      repeat match goal with
             | F : _ \/ _ |- _ => destruct F as [F|F]
             | F : (_, _) = (_, _) |- _ => discriminate F
             | F : False |- _ => destruct F
             end. }
  destruct (out [] (users_find_one (by_topic_id topic))) as [v|e] eqn:Ef;
    cbn in H.
  2:{ close H. split; intros; cbn in *;
      repeat match goal with
             | F : _ \/ _ |- _ => destruct F as [F|F]
             | F : (_, _) = (_, _) |- _ =>
                 first [discriminate F|inversion F; subst; clear F]
             | F : False |- _ => destruct F
             end; auto. }
  destruct (List.find (matches (by_topic_id topic)) users) as [user|] eqn:Eu;
    cbn in H.
  2:{ ask H; close H; split; intros; cbn in *;
      repeat match goal with
             | F : _ \/ _ |- _ => destruct F as [F|F]
             | F : (_, _) = (_, _) |- _ => discriminate F
             | F : False |- _ => destruct F
             end. }
  pose proof (counted_by_direction (user_id user)) as Hsum.
  assert (Hall : counted users messages
                   (messages_count_documents
                      (mkFilter (Some (user_id user)) None))
                 = Z.of_nat
                     (length (filter (fun m => m_user_id m =? user_id user)
                                messages))).
  { unfold counted. do 2 f_equal. apply filter_ext. intros m.
    unfold selects. cbn. apply andb_true_r. }
  unfold get_user_stats in H. cbn in H.
  repeat ask H; close H; split; intros; cbn in *;
    repeat match goal with
           | F : _ \/ _ |- _ => destruct F as [F|F]
           | F : (_, _) = (_, _) |- _ =>
               first [discriminate F|inversion F; subst; clear F]
           | F : False |- _ => destruct F
           end;
    repeat split; eauto; congruence.
Qed.

(** X23.  Each command keeps to its place: [/start] and [/help] do
    something in private chats only, [/stats] and [/userinfo] in the support
    group only.  Elsewhere a command makes no call and writes no log record.
    Wherever it runs, a command sends at most one reply. *)
Theorem commands_are_confined (c : Command) (update : Update)
    (lg : list LogRecord) (s' : State) (r : Result unit) :
  run out users messages (command SUPPORT_GROUP_ID c update) (mkState lg [])
  = (s', r) ->
  (s' <> mkState lg [] ->
   match c with
   | START | HELP => chat_type update = private
   | STATS | USERINFO => chat_id update = SUPPORT_GROUP_ID
   end)
  /\ (length (replies (asked s')) <= 1)%nat.
Proof.
  intros H.
  destruct c; cbn [command] in H;
    unfold start_command, help_command, stats_command, userinfo_command,
      get_total_stats, get_user_stats in H; cbn in H.
  - destruct (chat_type update) eqn:Ect; cbn in H;
      try (close H; split; [intros F; now contradiction F|cbn; lia]).
    ask H; close H; (split; [reflexivity|cbn; lia]).
  - destruct (chat_type update) eqn:Ect; cbn in H;
      try (close H; split; [intros F; now contradiction F|cbn; lia]).
    ask H; close H; (split; [reflexivity|cbn; lia]).
  - destruct (chat_id update =? SUPPORT_GROUP_ID) eqn:Ec; cbn in H;
      [apply Z.eqb_eq in Ec|close H; split;
                             [intros F; now contradiction F|cbn; lia]].
    repeat ask H; close H;
      (split; [intros _; first [assumption|reflexivity]|cbn; lia]).
  - destruct (chat_id update =? SUPPORT_GROUP_ID) eqn:Ec; cbn in H;
      [apply Z.eqb_eq in Ec|close H; split;
                             [intros F; now contradiction F|cbn; lia]].
    repeat ask H; close H;
      (split; [intros _; first [assumption|reflexivity]|cbn; lia]).
Qed.

End CommandFacts.

(** ** The commands at work *)

Section CommandExamples.

Import Scenario Commands Desk.

(** [/stats] in the group, over two sessions and four events. *)
Lemma stats_command_reports_the_collections_witness :
  chat_id stats_request = GROUP
  /\ (stats_message 2 4 true
      = stats_message (Z.of_nat (length two_users))
          (Z.of_nat (length four_events)) AUTO_REPLY_ENABLED
      /\ log (fst stats_run) = []
      \/ stats_message 2 4 true = stats_error
         /\ exists q e, In (counting q, Raise e) (asked (fst stats_run)))
  /\ snd stats_run = Val tt.
Proof.
  destruct (@stats_command_reports_the_collections GROUP answers two_users
              four_events stats_request [] (fst stats_run) (snd stats_run))
    as [_ H].
  - unfold stats_run. apply surjective_pairing.
  - destruct (H GROUP None (stats_message 2 4 true) (Ok 0))
      as (_ & H1 & H2 & H3).
    + vm_compute. tauto.
    + split; [exact H1|]. split; [exact H2|exact H3].
Defined.

(** [/userinfo] in Ann's topic: two events from her, one to her. *)
Lemma userinfo_command_reports_the_bound_user_witness :
  chat_id userinfo_request = GROUP
  /\ (exists topic,
        Some 101 = Some topic
        /\ List.find (matches (by_topic_id topic)) two_users = Some ann)
  /\ 3 = 2 + 1.
Proof.
  destruct (@userinfo_command_reports_the_bound_user GROUP answers two_users
              four_events userinfo_request [] (fst userinfo_run)
              (snd userinfo_run)) as [H _].
  - unfold userinfo_run. apply surjective_pairing.
  - destruct (H GROUP (Some 101) ann 2 1 3 (Ok 0))
      as (_ & H1 & _ & H2 & _ & H3).
    + vm_compute. tauto.
    + split; [exact H1|]. split; [exact H2|exact H3].
Defined.

(** Ann's [/start] is answered in her private chat. *)
Lemma commands_are_confined_witness :
  chat_type ann_start = private
  /\ (length (replies (asked (fst start_run))) <= 1)%nat.
Proof.
  destruct (@commands_are_confined GROUP answers two_users four_events START
              ann_start [] (fst start_run) (snd start_run)) as [H1 H2].
  - unfold start_run. apply surjective_pairing.
  - split; [|exact H2]. apply H1. vm_compute. discriminate.
Defined.

End CommandExamples.

(** * Properties of the deletion bot *)

Section DeleteLaws.

Import Delete.
Local Open Scope delete_scope.

Variable out : Outside.

#[local] Arguments Z.add : simpl never.
#[local] Arguments Z.sub : simpl never.
#[local] Arguments Z.of_nat : simpl never.
#[local] Arguments Z.modulo : simpl never.
#[local] Arguments Nat.modulo : simpl never.
#[local] Arguments Nat.leb : simpl never.

Lemma delete_run_bind A B (m : Prog A) (f : A -> Prog B) w :
  run out (bind m f) w =
  match run out m w with
  | (w1, Val a) => run out (f a) w1
  | (w1, Exc e) => (w1, Exc e)
  end.
Proof.
  revert w.
  induction m as [a|e|c k IH|chat user k IH|k IH|k IH|s k IH|l r k IH];
    intros w; cbn; auto.
  destruct (bot out (trace w) (get_chat_member chat user)); apply IH.
Qed.

Lemma delete_run_try A (m : Prog A) (h : string -> Prog A) w :
  run out (try m h) w =
  match run out m w with
  | (w1, Val a) => (w1, Val a)
  | (w1, Exc e) => run out (h e) w1
  end.
Proof.
  revert w.
  induction m as [a|e|c k IH|chat user k IH|k IH|k IH|s k IH|l r k IH];
    intros w; cbn; auto.
  destruct (bot out (trace w) (get_chat_member chat user)); apply IH.
Qed.

Lemma deletions_app a b : deletions (a ++ b) = deletions a ++ deletions b.
Proof.
  induction a as [|[c o] t IH]; cbn; [reflexivity|].
  destruct c; cbn; rewrite IH; reflexivity.
Qed.

Lemma deleted_app a b : deleted (a ++ b) = deleted a + deleted b.
Proof.
  induction a as [|[c o] t IH]; cbn [app deleted]; [reflexivity|].
  destruct c; try destruct o; rewrite IH; lia.
Qed.

Lemma failed_app a b : failed (a ++ b) = failed a + failed b.
Proof.
  induction a as [|[c o] t IH]; cbn [app failed]; [reflexivity|].
  destruct c; try destruct o; rewrite IH; lia.
Qed.

Lemma texts_app a b : texts (a ++ b) = texts a ++ texts b.
Proof.
  induction a as [|[c o] t IH]; cbn; [reflexivity|].
  destruct c; cbn; rewrite IH; reflexivity.
Qed.

(** Every attempt is counted once, as deleted or as failed. *)
Lemma deleted_failed t :
  deleted t + failed t = Z.of_nat (length (deletions t)).
Proof.
  induction t as [|[c o] t IH]; [reflexivity|].
  destruct c; try destruct o; cbn [deleted failed deletions length]; lia.
Qed.

Lemma range_length s n : length (range s n) = n.
Proof. revert s. induction n; intros s; cbn; auto. Qed.

Lemma range_split n : forall s done x rest,
  range s n = done ++ x :: rest ->
  done = range s (length done) /\ x = s + Z.of_nat (length done).
Proof.
  induction n as [|n IH]; intros s done x rest H.
  - destruct done; discriminate.
  - destruct done as [|y done]; cbn in H; inversion H; subst.
    + split; [reflexivity|cbn; lia].
    + destruct (IH _ _ _ _ H2) as [Hd Hx]. split.
      * cbn. f_equal. exact Hd.
      * rewrite Hx. cbn [length]. lia.
Qed.

Lemma range_In s n x : In x (range s n) -> s <= x < s + Z.of_nat n.
Proof.
  revert s. induction n as [|n IH]; intros s; cbn; [tauto|].
  intros [<-|H]; [lia|]. apply IH in H. lia.
Qed.

Lemma range_ends n : forall s e,
  e = s + Z.of_nat n - 1 -> ends e (range s n).
Proof.
  induction n as [|n IH]; intros s e He; cbn; [exact I|]. split.
  - destruct n; cbn; split; intros H; try reflexivity; try lia;
      discriminate.
  - apply IH. lia.
Qed.

(** The inner loop attempts every id of the batch, in order, and counts each
    attempt. *)
Lemma delete_each_runs chat batch : forall w,
  exists w' seg,
    run out (delete_each chat batch) w = (w', Val tt)
    /\ trace w' = trace w ++ seg
    /\ deletions seg = in_chat chat batch
    /\ texts seg = []
    /\ deleted_count (store w') = deleted_count (store w) + deleted seg
    /\ failed_count (store w') = failed_count (store w) + failed seg
    /\ current_batch (store w') = current_batch (store w)
    /\ log w' = log w
    /\ (quiet out ->
        active_deletions (store w') = active_deletions (store w)).
Proof.
  induction batch as [|id rest IH]; intros w.
  - exists w, []. cbn. rewrite app_nil_r. repeat split; lia.
  - cbn [delete_each]. rewrite delete_run_bind. cbn.
    destruct (bot out (trace w) (delete_message chat id)) as [v|e] eqn:E; cbn;
      match goal with |- context [run out (delete_each chat rest) ?w1] =>
        destruct (IH w1)
          as (w' & seg & Hr & Ht & Hd & Hx & Hc & Hf & Hb & Hl & Hq)
      end;
      exists w'; eexists (_ :: seg); rewrite Hr, Ht; cbn in *;
      rewrite <- app_assoc; cbn; rewrite Hd, Hx, Hc, Hf, Hb, Hl;
      (repeat split; try lia);
      intros Q; rewrite (Hq Q); apply Q.
Qed.

(** A batch: every id of it is attempted, the batch is emptied, and the
    handler of the enclosing [try] never runs. *)
Lemma delete_batch_runs chat start_id end_id total status : forall w,
  exists w' seg,
    run out (delete_batch chat start_id end_id total status) w = (w', Val tt)
    /\ trace w' = trace w ++ seg
    /\ deletions seg = in_chat chat (current_batch (store w))
    /\ deleted_count (store w') = deleted_count (store w) + deleted seg
    /\ failed_count (store w') = failed_count (store w) + failed seg
    /\ current_batch (store w') = []
    /\ log w' = log w
    /\ (quiet out ->
        active_deletions (store w') = active_deletions (store w)).
Proof.
  intros w. unfold delete_batch. rewrite delete_run_try. cbn [bind get].
  cbn [run]. rewrite delete_run_bind.
  destruct (delete_each_runs chat (current_batch (store w)) w)
    as (w1 & seg & Hr & Ht & Hd & Hx & Hc & Hf & Hb & Hl & Hq).
  rewrite Hr. cbn.
  assert (Hfin : forall tail,
            deletions tail = [] -> deleted tail = 0 -> failed tail = 0 ->
            deletions (seg ++ tail) = in_chat chat (current_batch (store w))
            /\ deleted_count (store w1)
               = deleted_count (store w) + deleted (seg ++ tail)
            /\ failed_count (store w1)
               = failed_count (store w) + failed (seg ++ tail)).
  { intros tail H1 H2 H3.
    rewrite deletions_app, deleted_app, failed_app, H1, H2, H3, app_nil_r.
    repeat split; auto; lia. }
  destruct (deleted_count (store w1) mod 50 =? 0); cbn.
  - destruct (bot out (trace w1) _) as [v|e]; cbn;
      eexists; eexists; (split; [reflexivity|]); cbn; rewrite Ht;
      (split; [rewrite <- !app_assoc; reflexivity|]);
      (repeat split; auto; try (apply Hfin; reflexivity));
      intros Q; rewrite !Q; auto.
  - eexists; eexists; (split; [reflexivity|]); cbn; rewrite Ht;
      (split; [rewrite <- !app_assoc; reflexivity|]);
      (repeat split; auto; try (apply Hfin; reflexivity));
      intros Q; rewrite !Q; auto.
Qed.

(** The loop of [del_command], from any point of it.  It never raises.  The
    ids it has attempted when it ends are the first of those at hand, in
    their order.  When it runs to its end these are all of them; when it
    finds the deletion stopped their number is a multiple of the batch
    size, the status message is edited to say which id came next, and the
    entry of the chat is removed. *)
Lemma deletion_loop_runs chat start_id end_id total status ids : forall w,
  (length (current_batch (store w)) < batch_size)%nat ->
  ends end_id ids ->
  (ids = [] -> current_batch (store w) = []) ->
  (current_batch (store w) <> [] ->
   is_active chat (active_deletions (store w)) = true) ->
  exists w' fin seg done todo,
    run out (deletion_loop chat start_id end_id total status ids) w
    = (w', Val fin)
    /\ trace w' = trace w ++ seg
    /\ current_batch (store w) ++ ids = done ++ todo
    /\ deletions seg = in_chat chat done
    /\ deleted_count (store w') = deleted_count (store w) + deleted seg
    /\ failed_count (store w') = failed_count (store w) + failed seg
    /\ (fin = true -> todo = [])
    /\ (quiet out -> is_active chat (active_deletions (store w)) = true ->
        fin = true)
    /\ (fin = false ->
        Nat.modulo (length done) batch_size = 0%nat
        /\ active_deletions (store w') chat = None
        /\ exists msg_id rest o seg0,
             todo = msg_id :: rest
             /\ seg = seg0 ++ [(edit_text status
                                  (stopped start_id end_id total
                                     (deleted_count (store w'))
                                     (failed_count (store w')) msg_id), o)]).
Proof.
  induction ids as [|msg_id rest IH]; intros w Hlen Hends Hnil Hact.
  - exists w, true, [], [], []. cbn. rewrite (Hnil eq_refl), app_nil_r.
    repeat split; try lia; try discriminate.
  - cbn [deletion_loop bind get]. cbn [run].
    destruct (is_active chat (active_deletions (store w))) eqn:Ea;
      cbn [negb].
    + (* the deletion goes on *)
      cbn [bind modify get put run store].
      cbn [current_batch].
      set (w1 := mkWorld _ _ _).
      destruct Hends as [Hlast Hends].
      destruct (Nat.leb batch_size (length (current_batch (store w) ++ [msg_id]))
                || (msg_id =? end_id))%bool eqn:Eflush.
      * assert (Hfl : length (current_batch (store w)) = 9%nat \/ rest = []).
        { apply orb_true_iff in Eflush as [E|E].
          - apply Nat.leb_le in E. rewrite length_app in E. cbn in E.
            unfold batch_size in *. lia.
          - apply Z.eqb_eq in E. right. now apply Hlast. }
        clear Eflush.
        rewrite delete_run_bind.
        destruct (delete_batch_runs chat start_id end_id total status w1)
          as (w2 & seg1 & Hr & Ht & Hd & Hc & Hf & Hb & _ & Hq).
        rewrite Hr.
        destruct (IH w2) as (w' & fin & seg & done & todo & Hr' & Ht' & Hsplit
                             & Hd' & Hc' & Hf' & Htrue & Hquiet & Hfalse).
        { rewrite Hb. cbn. unfold batch_size. lia. }
        { exact Hends. }
        { intros _. exact Hb. }
        { rewrite Hb. intros F. now contradiction F. }
        exists w', fin, (seg1 ++ seg),
          ((current_batch (store w) ++ [msg_id]) ++ done), todo.
        rewrite Hr'. subst w1.
        cbn [store trace current_batch deleted_count failed_count
               active_deletions] in *.
        rewrite Hb in Hsplit. cbn [app] in Hsplit.
        split; [reflexivity|].
        split; [rewrite Ht', Ht; now rewrite app_assoc|].
        split; [rewrite <- !app_assoc; cbn [app]; now rewrite Hsplit|].
        split; [rewrite deletions_app, Hd, Hd'; unfold in_chat;
                now rewrite !map_app|].
        split; [rewrite deleted_app; lia|].
        split; [rewrite failed_app; lia|].
        split; [exact Htrue|].
        split; [intros Q _; apply (Hquiet Q); rewrite (Hq Q); exact Ea|].
        intros Hfin. destruct (Hfalse Hfin)
          as (Hmod & Hnone & m & rest' & o & seg0 & Htodo & Hseg).
        split; [|split; [exact Hnone|]].
        -- destruct Hfl as [E|E].
           ++ rewrite !length_app, E. cbn [length].
              replace (9 + 1 + length done)%nat
                with (length done + 1 * 10)%nat by lia.
              unfold batch_size in *. rewrite Nat.Div0.mod_add. exact Hmod.
           ++ subst rest todo.
              symmetry in Hsplit. apply app_eq_nil in Hsplit as [_ F].
              discriminate F.
        -- exists m, rest', o, (seg1 ++ seg0). split; [exact Htodo|].
           rewrite Hseg, app_assoc. reflexivity.
      * apply orb_false_iff in Eflush as [E1 E2].
        apply Nat.leb_gt in E1. apply Z.eqb_neq in E2.
        cbn [bind run].
        destruct (IH w1) as (w' & fin & seg & done & todo & Hr' & Ht' & Hsplit
                             & Hd' & Hc' & Hf' & Htrue & Hquiet & Hfalse).
        { exact E1. }
        { exact Hends. }
        { intros ->. exfalso. apply E2. now apply Hlast. }
        { intros _. exact Ea. }
        exists w', fin, seg, done, todo. subst w1. cbn in *.
        rewrite <- app_assoc in Hsplit. cbn in Hsplit.
        repeat split; auto; apply Hfalse; auto.
    + (* the deletion was stopped *)
      assert (Hb : current_batch (store w) = []).
      { destruct (current_batch (store w)) eqn:Eb; [reflexivity|].
        assert (F : false = true) by (apply Hact; discriminate).
        discriminate F. }
      cbn.
      destruct (bot out (trace w) _) as [v|e] eqn:Eo; cbn;
        eexists; exists false; eexists; exists [], (msg_id :: rest);
        (split; [reflexivity|]); cbn; (split; [reflexivity|]); rewrite Hb;
        unfold set_entry; rewrite Z.eqb_refl;
        (split; [reflexivity|]); (split; [reflexivity|]);
        (split; [cbn; lia|]); (split; [cbn; lia|]);
        (split; [discriminate|]); (split; [intros _ F; discriminate F|]);
        intros _; (split; [reflexivity|split; [reflexivity|]]);
        exists msg_id, rest; eexists; exists []; split; reflexivity.
Qed.

End DeleteLaws.

(** ** The commands *)

Section DeleteCommands.

Import Delete.
Local Open Scope delete_scope.

Variable out : Outside.
Variable int : string -> option Z.
Variable split : string -> list string.

#[local] Arguments Z.add : simpl never.
#[local] Arguments Z.sub : simpl never.
#[local] Arguments Z.of_nat : simpl never.
#[local] Arguments Z.to_nat : simpl never.
#[local] Arguments Z.gtb : simpl never.
#[local] Arguments Z.modulo : simpl never.
#[local] Arguments Nat.modulo : simpl never.
#[local] Arguments Nat.leb : simpl never.
#[local] Arguments range : simpl never.
#[local] Arguments deletion_loop : simpl never.
#[local] Arguments arguments : simpl never.
#[local] Arguments is_admin_status : simpl never.
#[local] Arguments is_active : simpl never.

Ltac ask H :=
  match type of H with
  | context [message_of ?u] =>
      destruct (message_of u) eqn:?; cbn in H
  | context [is_active ?c ?d] =>
      destruct (is_active c d) eqn:?; cbn in H
  | context [allowed_type ?t] =>
      destruct (allowed_type t) eqn:?; cbn in H
  | context [ChatType_eqb ?a ?b] =>
      destruct (ChatType_eqb a b) eqn:?; cbn in H
  | context [match effective_user ?u with _ => _ end] =>
      destruct (effective_user u) eqn:?; cbn in H
  | context [bot out ?t ?c] =>
      let o := fresh "o" in
      destruct (bot out t c) as [o|o] eqn:?; cbn in H
  | context [is_admin_status ?s] =>
      destruct (is_admin_status s) eqn:?; cbn in H
  | context [arguments ?sp ?a ?m] =>
      destruct (arguments sp a m) as [|? [|? [|? ?]]] eqn:?; cbn in H
  | context [int ?a] =>
      destruct (int a) eqn:?; cbn in H
  | context [?a >? ?b] =>
      destruct (a >? b) eqn:?; cbn in H
  end.

Ltac close H :=
  match type of H with
  | (_, _) = (_, _) => inversion H; subst; clear H
  end.

Lemma set_entry_same chat e (d : Active) : set_entry chat e d chat = e.
Proof. unfold set_entry. now rewrite Z.eqb_refl. Qed.

Ltac admin :=
  match goal with
  | |- authorised _ ?u = true =>
      unfold authorised; destruct (chat_type u);
      try discriminate; try reflexivity;
      match goal with
      | E : effective_user u = Some _ |- _ => rewrite E
      end; assumption
  end.

(** What [del_command] does, whatever the outside does.  Either it never
    gets to send its status message and attempts no deletion; or the update
    passed every check, the status message [m] went out, and what follows is
    the loop and its report. *)
Lemma del_command_runs update args st lg w' r :
  run out (del_command int split update args) (mkWorld st lg []) = (w', r) ->
  (started (trace w') = false
   /\ deletions (trace w') = []
   /\ (length (trace w') <= 2)%nat
   /\ (quiet out -> store w' = st))
  \/ exists msg a0 a1 start_id end_id m pre seg report o,
       message_of update = Some msg
       /\ is_active (chat_id update) (active_deletions st) = false
       /\ allowed_type (chat_type update) = true
       /\ authorised out update = true
       /\ arguments split args msg = [a0; a1]
       /\ int a0 = Some start_id
       /\ int a1 = Some end_id
       /\ start_id <= end_id <= start_id + 1000
       /\ r = Val tt
       /\ active_deletions (store w') (chat_id update) = None
       /\ trace w'
          = pre
            ++ (reply_text (chat_id update)
                  (starting start_id end_id (end_id - start_id + 1)), Ok m)
            :: seg ++ [(edit_text m report, o)]
       /\ deletions pre = []
       /\ (report
           = completed start_id end_id (end_id - start_id + 1) (deleted seg)
               (failed seg)
           /\ deletions seg
              = in_chat (chat_id update)
                  (range start_id (Z.to_nat (end_id + 1 - start_id)))
           \/ exists msg_id,
                report
                = stopped start_id end_id (end_id - start_id + 1)
                    (deleted seg) (failed seg) msg_id
                /\ deletions seg
                   = in_chat (chat_id update)
                       (range start_id (Z.to_nat (msg_id - start_id)))
                /\ start_id <= msg_id <= end_id
                /\ (msg_id - start_id) mod 10 = 0
                /\ ~ quiet out).
Proof.
  intros H. unfold del_command, admin_check in H. cbn in H.
  repeat ask H.
  all: try (close H; left; cbn; (repeat split; try reflexivity; try lia);
            intros Q; unfold with_active; rewrite ?Q; destruct st;
            reflexivity).
  all: rewrite delete_run_bind in H.
  all: match type of H with
       | context [run out (deletion_loop ?c ?s ?e ?t ?m ?ids) ?w] =>
           destruct (@deletion_loop_runs out c s e t m ids w)
             as (w1 & fin & seg & done & todo & Hr & Ht & Hsplit & Hd & Hc
                 & Hf & Htrue & Hquiet & Hfalse);
           [cbn; unfold batch_size; lia
           |apply range_ends; lia
           |reflexivity
           |intros F; now contradiction F
           |]
       end.
  all: rewrite Hr in H; cbn in Hsplit, Hc, Hf, Ht.
  all: match goal with
       | Hs : bot out ?pre (reply_text _ (starting ?s ?e _)) = Ok ?m,
         Ha : arguments _ _ ?msg = [?a0; ?a1] |- _ =>
           right; exists msg, a0, a1, s, e, m, pre
       end.
  all: rewrite Z.add_0_l in Hc, Hf.
  all: destruct fin; cbn in H;
    [ rewrite Hc, Hf in H; ask H; close H;
      exists seg; do 2 eexists; cbn; rewrite Ht;
      repeat (split; [first [reflexivity|assumption|lia|admin
                            |apply set_entry_same]|]);
      left; (split; [reflexivity|]);
      rewrite Hd, Hsplit, (Htrue eq_refl), app_nil_r; reflexivity
    | destruct (Hfalse eq_refl)
        as (Hmod & Hnone & msg_id & rest & ans & seg0 & Htodo & Hseg);
      subst seg todo; close H;
      rewrite deleted_app in Hc; rewrite failed_app in Hf;
      rewrite deletions_app in Hd;
      cbn [deleted failed deletions] in Hc, Hf, Hd;
      rewrite Z.add_0_r in Hc, Hf; rewrite app_nil_r in Hd;
      destruct (@range_split _ _ _ _ _ Hsplit) as [Hdone Hid];
      exists seg0; do 2 eexists; cbn; rewrite Ht, Hc, Hf;
      repeat (split; [first [reflexivity|assumption|lia|admin]|]);
      right; exists msg_id; (split; [reflexivity|]) ].
  all: split; [replace (Z.to_nat (msg_id - _)) with (length done) by lia;
               rewrite Hd, <- Hdone; reflexivity|].
  all: split;
    [assert (Hin : In msg_id (done ++ msg_id :: rest)) by apply in_elt;
     rewrite <- Hsplit in Hin; apply range_In in Hin; lia|].
  all: split;
    [rewrite Hid;
     match goal with
     | |- (?a + ?b - ?a) mod _ = _ => replace (a + b - a) with b by lia
     end;
     change 10 with (Z.of_nat batch_size); rewrite <- Nat2Z.inj_mod, Hmod;
     reflexivity|].
  all: intros Q; specialize (Hquiet Q); cbn in Hquiet;
    unfold is_active in Hquiet; rewrite set_entry_same in Hquiet;
    discriminate (Hquiet eq_refl).
Qed.

Lemma started_app a b : started (a ++ b) = (started a || started b)%bool.
Proof. apply existsb_app. Qed.

(** The calls of a run that got to its loop, read back. *)
Lemma report_trace pre chat t m seg report (o : Outcome) :
  deletions pre = [] ->
  forall tr,
  tr = pre ++ (reply_text chat t, Ok m) :: seg ++ [(edit_text m report, o)] ->
  deletions tr = deletions seg
  /\ deleted tr = deleted seg
  /\ failed tr = failed seg.
Proof.
  intros Hp tr ->.
  assert (Hd : deleted pre = 0 /\ failed pre = 0).
  { pose proof (deleted_failed pre) as E. rewrite Hp in E. cbn in E.
    assert (0 <= deleted pre /\ 0 <= failed pre); [|lia].
    clear. induction pre as [|[c o] t IH]; cbn [deleted failed]; [lia|].
    destruct c; try destruct o; lia. }
  rewrite deletions_app, deleted_app, failed_app, Hp.
  cbn [deletions deleted failed app].
  rewrite deletions_app, deleted_app, failed_app. cbn. rewrite app_nil_r.
  repeat split; lia.
Qed.

(** X13.  Every message that [del_command] asks Telegram to delete lies in
    the chat the command came from and in the range the command named, and
    the command passed every check before: no deletion was active in the
    chat, the chat is a group, supergroup or channel, the sender is an
    administrator (or the chat a channel), both arguments are integers, and
    the range holds no more than 1001 ids. *)
Theorem bulk_deletion_is_guarded update args st lg w' r chat id :
  run out (del_command int split update args) (mkWorld st lg []) = (w', r) ->
  In (chat, id) (deletions (trace w')) ->
  chat = chat_id update
  /\ is_active (chat_id update) (active_deletions st) = false
  /\ allowed_type (chat_type update) = true
  /\ authorised out update = true
  /\ exists msg a0 a1 start_id end_id,
       message_of update = Some msg
       /\ arguments split args msg = [a0; a1]
       /\ int a0 = Some start_id
       /\ int a1 = Some end_id
       /\ start_id <= id <= end_id
       /\ end_id - start_id <= 1000.
Proof.
  intros H Hin.
  destruct (del_command_runs _ _ _ _ H)
    as [(_ & Hnone & _)
       |(msg & a0 & a1 & s & e & m & pre & seg & report & o & Hmsg & Hact
         & Hall & Hauth & Hargs & Hs & He & Hrange & _ & _ & Ht & Hpre
         & Hrep)].
  - rewrite Hnone in Hin. destruct Hin.
  - destruct (@report_trace _ _ _ _ _ _ _ Hpre _ Ht) as (Hd & _).
    rewrite Hd in Hin.
    assert (Hid : chat = chat_id update /\ s <= id <= e).
    { destruct Hrep as [(_ & Hseg)|(msg_id & _ & Hseg & Hm & _)];
        rewrite Hseg in Hin; apply in_map_iff in Hin as (x & Hx & Hin);
        inversion Hx; subst; apply range_In in Hin; split; auto; lia. }
    destruct Hid as [-> Hid]. repeat split; auto.
    exists msg, a0, a1, s, e. repeat split; auto; lia.
Qed.

(** X14.  The messages are attempted in the order of their ids, from
    [start_id] on without a gap and each once, whatever the other coroutines
    do; and the attempts end at the end of the range or at the end of a
    batch of ten: a stop takes effect between batches only. *)
Theorem deletions_in_order_by_batches update args st lg w' r msg a0 a1
    start_id end_id :
  run out (del_command int split update args) (mkWorld st lg []) = (w', r) ->
  message_of update = Some msg ->
  arguments split args msg = [a0; a1] ->
  int a0 = Some start_id ->
  int a1 = Some end_id ->
  exists n,
    deletions (trace w') = in_chat (chat_id update) (range start_id n)
    /\ (Z.of_nat n = end_id - start_id + 1
        \/ Nat.modulo n batch_size = 0%nat).
Proof.
  intros H Hmsg Hargs Hs He.
  destruct (del_command_runs _ _ _ _ H)
    as [(_ & Hnone & _)
       |(msg' & a0' & a1' & s & e & m & pre & seg & report & o & Hmsg' & _
         & _ & _ & Hargs' & Hs' & He' & Hrange & _ & _ & Ht & Hpre & Hrep)].
  - exists 0%nat. rewrite Hnone. split; [reflexivity|]. right. reflexivity.
  - rewrite Hmsg in Hmsg'. inversion Hmsg'; subst msg'.
    rewrite Hargs in Hargs'. inversion Hargs'; subst a0' a1'.
    rewrite Hs in Hs'. inversion Hs'; subst s.
    rewrite He in He'. inversion He'; subst e.
    destruct (@report_trace _ _ _ _ _ _ _ Hpre _ Ht) as (Hd & _).
    rewrite Hd.
    destruct Hrep as [(_ & Hseg)|(msg_id & _ & Hseg & Hm & Hmod & _)];
      rewrite Hseg; eexists; (split; [reflexivity|]).
    + left. lia.
    + right. apply Nat2Z.inj. rewrite Nat2Z.inj_mod. unfold batch_size.
      rewrite Z2Nat.id by lia. exact Hmod.
Qed.

(** X15.  Once its status message is out [del_command] cannot fail: it
    returns normally and leaves no entry for its chat in
    [active_deletions], whether the deletion ran to its end or was
    stopped, and whatever Telegram answered to the deletions and edits. *)
Theorem del_command_releases_chat update args st lg w' r :
  run out (del_command int split update args) (mkWorld st lg []) = (w', r) ->
  started (trace w') = true ->
  r = Val tt /\ active_deletions (store w') (chat_id update) = None.
Proof.
  intros H Hst.
  destruct (del_command_runs _ _ _ _ H)
    as [(Hno & _)
       |(msg & a0 & a1 & s & e & m & pre & seg & report & o & _ & _ & _ & _
         & _ & _ & _ & _ & Hr & Hnone & _)].
  - rewrite Hno in Hst. discriminate Hst.
  - split; assumption.
Qed.

(** X16.  The last thing a started deletion does on the Bot API is to edit
    its own status message into a report, and the report is exact: its
    counts are the numbers of [delete_message] calls that went through and
    that raised.  In a report of completion they add up to the size of the
    range; in a report of a stop they add up to the ids before the one named
    as the next. *)
Theorem final_report_counts_attempts update args st lg w' r :
  run out (del_command int split update args) (mkWorld st lg []) = (w', r) ->
  started (trace w') = true ->
  exists before m start_id end_id report o,
    trace w' = before ++ [(edit_text m report, o)]
    /\ In (reply_text (chat_id update)
             (starting start_id end_id (end_id - start_id + 1)), Ok m) before
    /\ (report
        = completed start_id end_id (end_id - start_id + 1)
            (deleted (trace w')) (failed (trace w'))
        /\ deleted (trace w') + failed (trace w') = end_id - start_id + 1
        \/ exists msg_id,
             report
             = stopped start_id end_id (end_id - start_id + 1)
                 (deleted (trace w')) (failed (trace w')) msg_id
             /\ deleted (trace w') + failed (trace w') = msg_id - start_id
             /\ start_id <= msg_id <= end_id).
Proof.
  intros H Hst.
  destruct (del_command_runs _ _ _ _ H)
    as [(Hno & _)
       |(msg & a0 & a1 & s & e & m & pre & seg & report & o & _ & _ & _ & _
         & _ & _ & _ & Hrange & _ & _ & Ht & Hpre & Hrep)].
  - rewrite Hno in Hst. discriminate Hst.
  - destruct (@report_trace _ _ _ _ _ _ _ Hpre _ Ht) as (Hd & Hc & Hf).
    pose proof (deleted_failed (trace w')) as Hsum.
    rewrite Hc, Hf, Hd in *.
    exists (pre ++ (reply_text (chat_id update)
                      (starting s e (e - s + 1)), Ok m) :: seg), m, s, e,
      report, o.
    split; [rewrite Ht, <- app_assoc; reflexivity|].
    split; [apply in_elt|].
    destruct Hrep as [(Hrep & Hseg)|(msg_id & Hrep & Hseg & Hm & _)];
      rewrite Hseg in Hsum; unfold in_chat in Hsum;
      rewrite length_map, range_length in Hsum.
    + left. split; [exact Hrep|lia].
    + right. exists msg_id. split; [exact Hrep|]. split; lia.
Qed.

(** X17.  Left alone, a started deletion attempts every id of its range,
    [start_id] to [end_id] inclusive and in this order, and reports
    completion.  The range check lets through ranges of up to 1001 ids. *)
Theorem undisturbed_deletion_completes update args st lg w' r :
  quiet out ->
  run out (del_command int split update args) (mkWorld st lg []) = (w', r) ->
  started (trace w') = true ->
  exists msg a0 a1 start_id end_id,
    message_of update = Some msg
    /\ arguments split args msg = [a0; a1]
    /\ int a0 = Some start_id
    /\ int a1 = Some end_id
    /\ start_id <= end_id <= start_id + 1000
    /\ deletions (trace w')
       = in_chat (chat_id update)
           (range start_id (Z.to_nat (end_id + 1 - start_id)))
    /\ exists before m o,
         trace w'
         = before
           ++ [(edit_text m
                  (completed start_id end_id (end_id - start_id + 1)
                     (deleted (trace w')) (failed (trace w'))), o)].
Proof.
  intros Q H Hst.
  destruct (del_command_runs _ _ _ _ H)
    as [(Hno & _)
       |(msg & a0 & a1 & s & e & m & pre & seg & report & o & Hmsg & _ & _
         & _ & Hargs & Hs & He & Hrange & _ & _ & Ht & Hpre & Hrep)].
  - rewrite Hno in Hst. discriminate Hst.
  - destruct (@report_trace _ _ _ _ _ _ _ Hpre _ Ht) as (Hd & Hc & Hf).
    destruct Hrep as [(Hrep & Hseg)|(msg_id & _ & _ & _ & _ & Hnq)];
      [|contradiction].
    exists msg, a0, a1, s, e. repeat split; auto; try lia.
    + rewrite Hd. exact Hseg.
    + exists (pre ++ (reply_text (chat_id update)
                        (starting s e (e - s + 1)), Ok m) :: seg), m, o.
      rewrite Hc, Hf, <- Hrep, Ht, <- app_assoc. reflexivity.
Qed.

(** X18.  A [/del] that is turned down leaves no mark: when the status
    message did not go out (a deletion is active in the chat, the chat is
    private, the sender is no administrator, the arguments are not two
    integers or not a range of at most 1001 ids, or the status message
    could not be sent), no deletion is attempted, [active_deletions] and the
    counters are as they were, and at most two calls were made. *)
Theorem refused_del_changes_nothing update args st lg w' r :
  quiet out ->
  run out (del_command int split update args) (mkWorld st lg []) = (w', r) ->
  started (trace w') = false ->
  store w' = st
  /\ deletions (trace w') = []
  /\ (length (trace w') <= 2)%nat.
Proof.
  intros Q H Hst.
  destruct (del_command_runs _ _ _ _ H)
    as [(_ & Hnone & Hlen & Hstore)
       |(msg & a0 & a1 & s & e & m & pre & seg & report & o & _ & _ & _ & _
         & _ & _ & _ & _ & _ & _ & Ht & _)].
  - repeat split; auto.
  - rewrite Ht, started_app in Hst. cbn in Hst.
    rewrite orb_true_r in Hst. discriminate Hst.
Qed.


End DeleteCommands.

(** ** The deletion bot at work *)

Section DeleteExamples.

Import Delete Purge.

Lemma quiet_calm : quiet calm.
Proof. intros t d. reflexivity. Qed.

(** Message 3 is among those the administrator's command deletes. *)
Lemma bulk_deletion_is_guarded_witness :
  authorised calm admin_del = true
  /\ exists msg a0 a1 start_id end_id,
       message_of admin_del = Some msg
       /\ arguments split one_to_25 msg = [a0; a1]
       /\ int a0 = Some start_id
       /\ int a1 = Some end_id
       /\ start_id <= 3 <= end_id
       /\ end_id - start_id <= 1000.
Proof.
  destruct (@bulk_deletion_is_guarded calm int split admin_del one_to_25
              nothing [] (fst purge) (snd purge) (chat_id admin_del) 3)
    as (_ & _ & _ & H1 & H2).
  - unfold purge. apply surjective_pairing.
  - vm_compute. tauto.
  - split; assumption.
Defined.

(** Stopped during its first batch, the deletion ends with that batch. *)
Lemma deletions_in_order_by_batches_witness :
  exists n,
    deletions (trace (fst purge_interrupted))
    = in_chat (chat_id admin_del) (range 1 n)
    /\ (Z.of_nat n = 25 - 1 + 1 \/ Nat.modulo n batch_size = 0%nat).
Proof.
  apply (@deletions_in_order_by_batches interrupted int split admin_del
           one_to_25 nothing [] (fst purge_interrupted)
           (snd purge_interrupted) (mkMsg (Some "/del 1 25")) "1" "25" 1 25).
  - unfold purge_interrupted. apply surjective_pairing.
  - vm_compute. reflexivity.
  - vm_compute. reflexivity.
  - vm_compute. reflexivity.
  - vm_compute. reflexivity.
Defined.

Lemma del_command_releases_chat_witness :
  snd purge_with_gaps = Val tt
  /\ active_deletions (store (fst purge_with_gaps)) (chat_id admin_del)
     = None.
Proof.
  apply (@del_command_releases_chat gaps int split admin_del one_to_25
           nothing [] (fst purge_with_gaps) (snd purge_with_gaps)).
  - unfold purge_with_gaps. apply surjective_pairing.
  - vm_compute. reflexivity.
Defined.

(** Of the 25 messages the eight with an id divisible by three fail. *)
Lemma final_report_counts_attempts_witness :
  deleted (trace (fst purge_with_gaps)) = 17
  /\ failed (trace (fst purge_with_gaps)) = 8
  /\ exists before m start_id end_id report o,
       trace (fst purge_with_gaps) = before ++ [(edit_text m report, o)]
       /\ In (reply_text (chat_id admin_del)
                (starting start_id end_id (end_id - start_id + 1)), Ok m)
            before
       /\ (report
           = completed start_id end_id (end_id - start_id + 1)
               (deleted (trace (fst purge_with_gaps)))
               (failed (trace (fst purge_with_gaps)))
           /\ deleted (trace (fst purge_with_gaps))
              + failed (trace (fst purge_with_gaps))
              = end_id - start_id + 1
           \/ exists msg_id,
                report
                = stopped start_id end_id (end_id - start_id + 1)
                    (deleted (trace (fst purge_with_gaps)))
                    (failed (trace (fst purge_with_gaps))) msg_id
                /\ deleted (trace (fst purge_with_gaps))
                   + failed (trace (fst purge_with_gaps))
                   = msg_id - start_id
                /\ start_id <= msg_id <= end_id).
Proof.
  split; [vm_compute; reflexivity|]. split; [vm_compute; reflexivity|].
  apply (@final_report_counts_attempts gaps int split admin_del one_to_25
           nothing [] (fst purge_with_gaps) (snd purge_with_gaps)).
  - unfold purge_with_gaps. apply surjective_pairing.
  - vm_compute. reflexivity.
Defined.

Lemma undisturbed_deletion_completes_witness :
  exists msg a0 a1 start_id end_id,
    message_of admin_del = Some msg
    /\ arguments split one_to_25 msg = [a0; a1]
    /\ int a0 = Some start_id
    /\ int a1 = Some end_id
    /\ start_id <= end_id <= start_id + 1000
    /\ deletions (trace (fst purge))
       = in_chat (chat_id admin_del)
           (range start_id (Z.to_nat (end_id + 1 - start_id)))
    /\ exists before m o,
         trace (fst purge)
         = before
           ++ [(edit_text m
                  (completed start_id end_id (end_id - start_id + 1)
                     (deleted (trace (fst purge)))
                     (failed (trace (fst purge)))), o)].
Proof.
  apply (@undisturbed_deletion_completes calm int split admin_del one_to_25
           nothing [] (fst purge) (snd purge)).
  - exact quiet_calm.
  - unfold purge. apply surjective_pairing.
  - vm_compute. reflexivity.
Defined.

(** A member who is no administrator asks for the deletion. *)
Lemma refused_del_changes_nothing_witness :
  store (fst purge_by_member) = nothing
  /\ deletions (trace (fst purge_by_member)) = []
  /\ (length (trace (fst purge_by_member)) <= 2)%nat.
Proof.
  apply (@refused_del_changes_nothing calm int split member_del one_to_25
           nothing [] (fst purge_by_member) (snd purge_by_member)).
  - exact quiet_calm.
  - unfold purge_by_member. apply surjective_pairing.
  - vm_compute. reflexivity.
Defined.


End DeleteExamples.
